(** * Multi-view estimators: co-EM k-means and kernel CCA

    A shallow embedding of [multiview/cluster/k_means.py] and
    [mvlearn/embed/kcca.py], and the properties of their contracts.

    Numbers are IEEE binary64 values, as numpy's float64: the executable
    specification [spec_float] of the Standard Library at precision 53 and
    maximal exponent 1024.  Python exceptions are values of an error type;
    the arrays of numpy are lists of rows, and a sum over an array adds
    its numbers in the order numpy adds them. *)

From Stdlib Require Import String ZArith Arith Bool Lia List.
From Stdlib Require Import Floats.SpecFloat.
Import ListNotations.

(* ===================================================================== *)
(** * float64 *)
(* ===================================================================== *)

Module F64.

Definition num := spec_float.

Definition prec : Z := 53.
Definition emax : Z := 1024.

Definition nan : num := S754_nan.
Definition inf : num := S754_infinity false.
Definition zero : num := S754_zero false.
Definition neg_zero : num := S754_zero true.

Definition of_Z (z : Z) : num := binary_normalize prec emax z 0 false.
Definition of_nat (n : nat) : num := of_Z (Z.of_nat n).

Definition add : num -> num -> num := SFadd prec emax.
Definition sub : num -> num -> num := SFsub prec emax.
Definition mul : num -> num -> num := SFmul prec emax.
Definition div : num -> num -> num := SFdiv prec emax.
Definition sqrt : num -> num := SFsqrt prec emax.

Definition ltb : num -> num -> bool := SFltb.
Definition leb : num -> num -> bool := SFleb.

Definition is_nan (x : num) : bool :=
  match x with S754_nan => true | _ => false end.

(** The rank of a number that is not NaN in the order [SFcompare]
    decides: sign class first, then exponent, then mantissa. *)
Definition key (x : num) : Z * Z * Z :=
  match x with
  | S754_nan => (0, 0, 0)
  | S754_infinity true => (-2, 0, 0)
  | S754_infinity false => (2, 0, 0)
  | S754_zero _ => (0, 0, 0)
  | S754_finite true m e => (-1, - e, - Zpos m)
  | S754_finite false m e => (1, e, Zpos m)
  end%Z.

Definition key_lt (a b : Z * Z * Z) : Prop :=
  let '(a1, a2, a3) := a in
  let '(b1, b2, b3) := b in
  (a1 < b1 \/ (a1 = b1 /\ (a2 < b2 \/ (a2 = b2 /\ a3 < b3))))%Z.

End F64.

Import F64.

(* ===================================================================== *)
(** * Python results *)
(* ===================================================================== *)

(** The exception classes the two modules can end with. *)
Inductive exn : Type :=
| ValueError
| TypeError
| IndexError
| NameError
| UnboundLocalError
| AttributeError
| ZeroDivisionError.

(** A call returns a value or raises: [Raise c msg] is an exception of
    class [c]; [msg] is the message of a [raise] statement of the source,
    and a short description for an exception raised by the interpreter or
    by numpy. *)
Inductive result (A : Type) : Type :=
| Ok (a : A)
| Raise (c : exn) (msg : string).

Arguments Ok {A} a.
Arguments Raise {A} c msg.

Definition bind {A B : Type} (r : result A) (k : A -> result B) : result B :=
  match r with
  | Ok a => k a
  | Raise c msg => Raise c msg
  end.

Notation "x <- c1 ;; c2" := (bind c1 (fun x => c2))
  (at level 61, c1 at next level, right associativity).

Fixpoint mapM {A B : Type} (f : A -> result B) (l : list A) : result (list B) :=
  match l with
  | [] => Ok []
  | x :: t => y <- f x ;; ys <- mapM f t ;; Ok (y :: ys)
  end.

Fixpoint foldM {A B : Type} (f : A -> B -> result A) (a : A) (l : list B) : result A :=
  match l with
  | [] => Ok a
  | x :: t => a' <- f a x ;; foldM f a' t
  end.

Definition is_ok {A : Type} (r : result A) : bool :=
  match r with Ok _ => true | Raise _ _ => false end.

(** A conjunction of facts about concrete runs: each is checked by
    evaluation. *)
Ltac run_conj :=
  lazymatch goal with
  | |- _ /\ _ => split; [vm_compute; reflexivity | run_conj]
  | |- _ => vm_compute; reflexivity
  end.

(* ===================================================================== *)
(** * numpy *)
(* ===================================================================== *)

Module Np.

(** A 1-D float array, and a 2-D float array as the list of its rows.
    Arrays are in numpy's default row-major layout, the one [np.array]
    builds from rows and that the arithmetic of this file keeps: the
    entries of a row lie one after the other in memory. *)
Definition vec := list num.
Definition matrix := list vec.

Definition nrows (X : matrix) : nat := length X.
Definition ncols (X : matrix) : nat :=
  match X with [] => 0 | r :: _ => length r end.

(** What the arithmetic of this file produces: a 1-D or a 2-D array. *)
Inductive ndarray : Type :=
| Arr1 (v : vec)
| Arr2 (m : matrix).

Definition atleast_2d (a : ndarray) : matrix :=
  match a with Arr1 v => [v] | Arr2 m => m end.

(** [np.vstack]: the blocks one under the other; the empty sequence is
    refused.  Every sequence stacked in this file holds blocks computed
    from one array, which agree in width. *)
Definition vstack (blocks : list ndarray) : result matrix :=
  match blocks with
  | [] => Raise ValueError "need at least one array to concatenate"
  | _ => Ok (concat (map atleast_2d blocks))
  end.

(** Broadcasting of two 1-D operands: equal lengths pair up, a length of
    one stretches, anything else is refused. *)
Definition broadcast1 {A B : Type} (f : A -> A -> B) (a b : list A) : result (list B) :=
  if length a =? length b then Ok (map (fun p => f (fst p) (snd p)) (combine a b))
  else match a, b with
       | _, [y] => Ok (map (fun x => f x y) a)
       | [x], _ => Ok (map (fun y => f x y) b)
       | _, _ => Raise ValueError "operands could not be broadcast together"
       end.

(** [X - c] for a 2-D [X] and a 1-D [c]: [c] is broadcast against every
    row. *)
Definition sub_rows (X : matrix) (c : vec) : result matrix :=
  mapM (fun r => broadcast1 sub r c) X.

(** [A + B] for two 2-D arrays with the same number of rows. *)
Definition add_matrix (A B : matrix) : result matrix :=
  mapM (fun p => broadcast1 add (fst p) (snd p)) (combine A B).

(** The additions of a reduction that numpy carries out element by
    element: left to right, from the first element; the sum of no number
    is 0.0. *)
Definition accumulate (l : vec) : num :=
  match l with
  | [] => zero
  | x :: t => fold_left add t x
  end.

(** numpy's pairwise summation of a run of numbers that lie one after the
    other in memory ([pairwise_sum] of its inner loops).  Fewer than 8
    numbers are added left to right, from -0.0.  From 8 to 128 numbers, the
    first 8 start 8 accumulators, every further full block of 8 is added to
    them accumulator by accumulator, the accumulators are added as a
    balanced tree, and the numbers left over are added to that sum one by
    one.  More than 128 numbers are split at half the length rounded down
    to a multiple of 8, and the sums of the two parts are added. *)
Fixpoint lanes (r rest : vec) (blocks : nat) : vec * vec :=
  match blocks with
  | O => (r, rest)
  | S b => lanes (map (fun p => add (fst p) (snd p)) (combine r (firstn 8 rest)))
                 (skipn 8 rest) b
  end.

Definition tree8 (r : vec) : num :=
  match r with
  | [r0; r1; r2; r3; r4; r5; r6; r7] =>
      add (add (add r0 r1) (add r2 r3)) (add (add r4 r5) (add r6 r7))
  | _ => nan
  end.

Definition block_sum (a : vec) : num :=
  let n := length a in
  if n <? 8 then fold_left add a neg_zero
  else let (r, rest) := lanes (firstn 8 a) (skipn 8 a) ((n - n mod 8 - 8) / 8) in
       fold_left add rest (tree8 r).

(** The recursion on the halves, on [fuel]: the length of the run is
    enough, a part being shorter than the run it is cut from. *)
Fixpoint pairwise_sum (fuel : nat) (a : vec) : num :=
  match fuel with
  | O => block_sum a
  | S fuel' =>
      let n := length a in
      if 128 <? n
      then let n2 := n / 2 - (n / 2) mod 8 in
           add (pairwise_sum fuel' (firstn n2 a)) (pairwise_sum fuel' (skipn n2 a))
      else block_sum a
  end.

(** [np.add.reduce] over a run of numbers that lie one after the other in
    memory (a 1-D array, or a row of a 2-D array reduced along its last
    axis): their pairwise sum; the sum of no number is 0.0. *)
Definition fsum (l : vec) : num :=
  match l with
  | [] => zero
  | _ :: _ => pairwise_sum (length l) l
  end.

(** [np.linalg.norm] of one row: the square root of the sum of squares. *)
Definition norm (r : vec) : num := sqrt (fsum (map (fun x => mul x x) r)).

(** [np.linalg.norm(M, axis=1)]. *)
Definition norm_axis1 (M : matrix) : vec := map norm M.

Definition column (M : matrix) (j : nat) : vec := map (fun r => nth j r nan) M.

(** [np.argmin] of a 1-D array: the first NaN if there is one, the first
    least element otherwise. *)
Fixpoint argmin_from (best : num) (bi i : nat) (l : vec) : nat :=
  match l with
  | [] => bi
  | x :: t =>
      if is_nan best then bi
      else if is_nan x || ltb x best then argmin_from x i (S i) t
      else argmin_from best bi (S i) t
  end.

Definition argmin (l : vec) : nat :=
  match l with
  | [] => 0
  | x :: t => argmin_from x 0 1 t
  end.

(** [np.argmin(D, axis=0).flatten()] for a 2-D [D] with at least one row:
    one index per column. *)
Definition argmin_axis0 (D : matrix) : list nat :=
  map (fun j => argmin (column D j)) (seq 0 (ncols D)).

(** The index of [X[index]]: a boolean array, or the Python scalar
    [False] that [None == cl] evaluates to. *)
Inductive mask : Type :=
| MaskArr (b : list bool)
| MaskFalse.

(** [p == cl] for a partition [p] that is an integer array or [None]. *)
Definition eq_mask (p : option (list nat)) (cl : nat) : mask :=
  match p with
  | Some l => MaskArr (map (fun x => x =? cl) l)
  | None => MaskFalse
  end.

(** The result of [X[mask]]: the selected rows, of the width of [X]; or,
    for the scalar [False], the array of shape (0, n, d) with n and d the
    shape of [X], kept as [X] itself. *)
Inductive selection : Type :=
| SelRows (d : nat) (rows : matrix)
| SelNone (X : matrix).

Fixpoint select {A : Type} (l : list A) (b : list bool) : list A :=
  match l, b with
  | x :: l', true :: b' => x :: select l' b'
  | _ :: l', false :: b' => select l' b'
  | _, _ => []
  end.

Definition getitem_mask (X : matrix) (m : mask) : result selection :=
  match m with
  | MaskArr b =>
      if length b =? nrows X then Ok (SelRows (ncols X) (select X b))
      else Raise IndexError "boolean index did not match indexed array along dimension 0"
  | MaskFalse => Ok (SelNone X)
  end.

(** [np.add.reduce(S, axis=0)] at column [j] of an array of [d] columns.
    With two columns or more numpy adds the rows to the result one after
    the other, so a column is summed left to right; the entries of a single
    column lie one after the other in memory and are summed pairwise. *)
Definition sum_axis0 (d : nat) (rows : matrix) (j : nat) : num :=
  if d =? 1 then fsum (column rows j) else accumulate (column rows j).

(** [np.mean(S, axis=0)]: the sum over the first axis divided by its
    length; over an empty first axis every entry is 0.0 / 0 = NaN. *)
Definition mean_rows (d : nat) (rows : matrix) : vec :=
  map (fun j => div (sum_axis0 d rows j) (of_nat (length rows))) (seq 0 d).

Definition mean_axis0 (s : selection) : ndarray :=
  match s with
  | SelRows d rows => Arr1 (mean_rows d rows)
  | SelNone X => Arr2 (map (fun r => map (fun _ => div zero (of_nat 0)) r) X)
  end.

(** [np.sum(np.linalg.norm(S - c, axis=1))]. For the empty selection of
    shape (0, n, d) the subtraction only checks the shapes, the norm has
    shape (0, d) and the sum is 0.0. *)
Definition sum_norm_diff (s : selection) (c : vec) : result num :=
  match s with
  | SelRows _ rows => diffs <- sub_rows rows c ;; Ok (fsum (norm_axis1 diffs))
  | SelNone X => _ <- sub_rows X c ;; Ok zero
  end.

(** [centers[cl]] for [centers] a 2-D array or [None]. *)
Definition getitem_row (centers : option matrix) (cl : nat) : result vec :=
  match centers with
  | None => Raise TypeError "'NoneType' object is not subscriptable"
  | Some M =>
      match nth_error M cl with
      | Some r => Ok r
      | None => Raise IndexError "index is out of bounds for axis 0"
      end
  end.

(** [X[indices]] for an integer index array whose entries are in range. *)
Definition take_rows (X : matrix) (indices : list nat) : matrix :=
  map (fun i => nth i X []) indices.

(** The global generator of [np.random].  Its algorithm is the library's;
    the model keeps the state as the stream of raw outputs still to come.
    [np.random.choice(a, size)] with its default [replace=True] draws
    [size] independent indices below [a]: each takes the next raw output
    modulo [a]. *)
Definition rng := nat -> nat.

Definition choice (g : rng) (a size : nat) : result (list nat) * rng :=
  if (a =? 0) && negb (size =? 0)
  then (Raise ValueError "a must be greater than 0 unless no samples are taken", g)
  else (Ok (map (fun i => g i mod a) (seq 0 size)), fun i => g (size + i)).

(** A generator state whose next raw outputs are those of [l]. *)
Definition stream_of (l : list nat) : rng := fun i => nth i l 0.

End Np.

Import Np.

(* ===================================================================== *)
(** * multiview/cluster/k_means.py *)
(* ===================================================================== *)

Module KMeans.

(** The two views [Xs[0]] and [Xs[1]], and a two-element Python list
    indexed by a view number. *)
Definition views : Type := matrix * matrix.

Definition get2 {A : Type} (p : A * A) (v : Z) : A :=
  if (v =? 0)%Z then fst p else snd p.

Definition set2 {A : Type} (p : A * A) (v : Z) (x : A) : A * A :=
  if (v =? 0)%Z then (x, snd p) else (fst p, x).

(** [self._max_iter]: an integer, or [np.inf]. *)
Inductive bound : Type :=
| Finite (z : Z)
| Infinite.

Definition lt_bound (i : Z) (b : bound) : bool :=
  match b with
  | Finite z => (i <? z)%Z
  | Infinite => true
  end.

(** The attributes of an instance.  [_centroids] is [None] or a list of
    two entries, each [None] or a 2-D array. *)
Record t : Type := mk {
  _centroids : option (option matrix * option matrix);
  _k : nat;
  _random_state : option Z;
  _max_iter : bound
}.

Definition set_centroids (self : t) (c : option (option matrix * option matrix)) : t :=
  {| _centroids := c; _k := _k self; _random_state := _random_state self;
     _max_iter := _max_iter self |}.

(** [KMeans(k, random_state, max_iter)]; [not max_iter] holds of [None]
    and of 0. *)
Definition __init__ (k : nat) (random_state : option Z) (max_iter : option Z) : t :=
  {| _centroids := None;
     _k := k;
     _random_state := random_state;
     _max_iter := match max_iter with
                  | None => Infinite
                  | Some z => if (z =? 0)%Z then Infinite else Finite z
                  end |}.

(** [self._compute_distance(X, centers)]: row [cl] of the result holds
    the distance of every sample to centroid [cl]. *)
Definition _compute_distance (self : t) (X : matrix) (centers : option matrix)
  : result matrix :=
  distances <- mapM (fun cl =>
                       c <- getitem_row centers cl ;;
                       dist <- sub_rows X c ;;
                       Ok (Arr1 (norm_axis1 dist)))
                    (seq 0 (_k self)) ;;
  vstack distances.

(** The variables of [fit] that live across iterations, with
    [self._centroids] among them.  [new_partitions] is unbound before the
    first iteration. *)
Record locals : Type := mkLocals {
  centroids : option matrix * option matrix;
  partitions : option (list nat) * option (list nat);
  objective : num * num;
  iter_stall : Z;
  iter_num : Z;
  new_partitions : option (list nat)
}.

(** Lines 114-115 of [fit]: the draw of the initial centroids of view 2. *)
Definition init_centers (Xs : views) (k : nat) (g : rng) : result (list nat * matrix) * rng :=
  let (r, g') := choice g (nrows (snd Xs)) k in
  (indices <- r ;; Ok (indices, take_rows (snd Xs) indices), g').

(** Lines 114-124 of [fit]: the initial centroids of view 2, their
    partition, and the variables of the loop. *)
Definition fit_init (self : t) (Xs : views) (g : rng) : result locals * rng :=
  let (r, g') := init_centers Xs (_k self) g in
  (ic <- r ;;
   let centers := snd ic in
   distances <- _compute_distance self (snd Xs) (Some centers) ;;
   let parts := argmin_axis0 distances in
   Ok {| centroids := (None, Some centers);
         partitions := (None, Some parts);
         objective := (inf, inf);
         iter_stall := 0;
         iter_num := 0;
         new_partitions := None |},
   g').

(** The M-step of one iteration: the centroid of every cluster of [X]
    under the partition [part]. *)
Definition m_step (k : nat) (X : matrix) (part : option (list nat)) : result matrix :=
  new_centers <- mapM (fun cl =>
                         s <- getitem_mask X (eq_mask part cl) ;;
                         Ok (mean_axis0 s))
                      (seq 0 k) ;;
  vstack new_centers.

(** The objective of one iteration: over the clusters of [part], the sum
    of the distances of the members to the centroid. *)
Definition o_funct (k : nat) (X : matrix) (part : option (list nat))
           (cents : option matrix) : result num :=
  foldM (fun o clust =>
           vecs <- getitem_mask X (eq_mask part clust) ;;
           c <- getitem_row cents clust ;;
           s <- sum_norm_diff vecs c ;;
           Ok (add o s))
        zero (seq 0 k).

(** The body of the [while] loop. *)
Definition em_step (self : t) (Xs : views) (st : locals) : result locals :=
  let iter_num' := (iter_num st + 1)%Z in
  let view := ((iter_num' + 1) mod 2)%Z in
  cents <- m_step (_k self) (get2 Xs view)
                  (get2 (partitions st) ((view + 1) mod 2)%Z) ;;
  let centroids' := set2 (centroids st) view (Some cents) in
  distances <- _compute_distance self (get2 Xs view) (get2 centroids' view) ;;
  let new_partitions' := argmin_axis0 distances in
  o <- o_funct (_k self) (get2 Xs view) (get2 (partitions st) view)
               (get2 centroids' view) ;;
  if ltb o (get2 (objective st) view)
  then Ok {| centroids := centroids';
             partitions := partitions st;
             objective := set2 (objective st) view o;
             iter_stall := 0;
             iter_num := iter_num';
             new_partitions := Some new_partitions' |}
  else Ok {| centroids := centroids';
             partitions := partitions st;
             objective := objective st;
             iter_stall := (iter_stall st + 1)%Z;
             iter_num := iter_num';
             new_partitions := Some new_partitions' |}.

(** The condition of the [while] loop. *)
Definition guard (self : t) (patience : Z) (st : locals) : bool :=
  (iter_stall st <? patience)%Z && lt_bound (iter_num st) (_max_iter self).

(** The [while] loop, run for at most [fuel] iterations: [None] when the
    fuel is used up with the condition still true. *)
Fixpoint em_loop (fuel : nat) (self : t) (Xs : views) (patience : Z) (st : locals)
  : option (result locals) :=
  if guard self patience st then
    match fuel with
    | O => None
    | S fuel' =>
        match em_step self Xs st with
        | Ok st' => em_loop fuel' self Xs patience st'
        | Raise c msg => Some (Raise c msg)
        end
    end
  else Some (Ok st).

(** [self.fit(Xs, patience)], from the generator state [g]: the instance
    it returns, or the exception it ends with, and the generator state it
    leaves. *)
Definition fit (self : t) (Xs : views) (patience : Z) (g : rng) (fuel : nat)
  : option (result t) * rng :=
  let (r, g') := fit_init self Xs g in
  (match r with
   | Raise c msg => Some (Raise c msg)
   | Ok st0 =>
       match em_loop fuel self Xs patience st0 with
       | None => None
       | Some (Raise c msg) => Some (Raise c msg)
       | Some (Ok st) => Some (Ok (set_centroids self (Some (centroids st))))
       end
   end, g').

(** [self._centroids[v]]. *)
Definition centroids_at (self : t) (v : Z) : result (option matrix) :=
  match _centroids self with
  | None => Raise TypeError "'NoneType' object is not subscriptable"
  | Some c => Ok (get2 c v)
  end.

(** The body of the [for] loop of [predict]: the consensus centroids of
    cluster [clust] in the two views. *)
Definition consensus (self : t) (Xs : views) (clust : nat) : result (ndarray * ndarray) :=
  c0 <- centroids_at self 0 ;;
  v1_distances <- _compute_distance self (fst Xs) c0 ;;
  let v1_partitions := argmin_axis0 v1_distances in
  c1 <- centroids_at self 1 ;;
  v2_distances <- _compute_distance self (snd Xs) c1 ;;
  let v2_partitions := argmin_axis0 v2_distances in
  part_indices <- broadcast1 andb (map (fun x => x =? clust) v1_partitions)
                                  (map (fun x => x =? clust) v2_partitions) ;;
  s1 <- getitem_mask (fst Xs) (MaskArr part_indices) ;;
  let cent1 := mean_axis0 s1 in
  s2 <- getitem_mask (snd Xs) (MaskArr part_indices) ;;
  let cent2 := mean_axis0 s2 in
  Ok (cent1, cent2).

(** [self.predict(Xs)]. *)
Definition predict (self : t) (Xs : views) : result (list nat) :=
  cs <- mapM (consensus self Xs) (seq 0 (_k self)) ;;
  v1_consensus <- vstack (map fst cs) ;;
  v2_consensus <- vstack (map snd cs) ;;
  dist1 <- _compute_distance self (fst Xs) (Some v1_consensus) ;;
  dist2 <- _compute_distance self (snd Xs) (Some v2_consensus) ;;
  dist_metric <- add_matrix dist1 dist2 ;;
  Ok (argmin_axis0 dist_metric).

(** [self.fit_predict(Xs, patience)]: the body calls [self.fit(Xs)], so
    the fit runs with the default patience of 5. *)
Definition fit_predict (self : t) (Xs : views) (patience : Z) (g : rng) (fuel : nat)
  : option (result (t * list nat)) * rng :=
  let (r, g') := fit self Xs 5 g fuel in
  (match r with
   | None => None
   | Some (Raise c msg) => Some (Raise c msg)
   | Some (Ok self') => Some (labels <- predict self' Xs ;; Ok (self', labels))
   end, g').

(** The composition the contract of [fit_predict] names: [fit(Xs,
    patience)] followed by [predict(Xs)]. *)
Definition fit_then_predict (self : t) (Xs : views) (patience : Z) (g : rng) (fuel : nat)
  : option (result (t * list nat)) * rng :=
  let (r, g') := fit self Xs patience g fuel in
  (match r with
   | None => None
   | Some (Raise c msg) => Some (Raise c msg)
   | Some (Ok self') => Some (labels <- predict self' Xs ;; Ok (self', labels))
   end, g').

(** ** The loop as a relation, and the contract of [predict] in the
    words of its specification *)

(** One executed iteration: the condition held and the body ran through. *)
Definition iteration (self : t) (Xs : views) (patience : Z) (st st' : locals) : Prop :=
  guard self patience st = true /\ em_step self Xs st = Ok st'.

(** The states the loop passes through from [st0]. *)
Inductive iterates (self : t) (Xs : views) (patience : Z) (st0 : locals) : locals -> Prop :=
| iterates_refl : iterates self Xs patience st0 st0
| iterates_step st st' :
    iterates self Xs patience st0 st ->
    iteration self Xs patience st st' ->
    iterates self Xs patience st0 st'.

(** The view an iteration started in state [st] updates. *)
Definition view_of (st : locals) : Z := ((iter_num st + 1 + 1) mod 2)%Z.

(** The objective an iteration computes for view [v] when the partitions
    are [parts]. *)
Definition view_objective (self : t) (Xs : views)
           (parts : option (list nat) * option (list nat)) (v : Z) : result num :=
  cents <- m_step (_k self) (get2 Xs v) (get2 parts ((v + 1) mod 2)%Z) ;;
  o_funct (_k self) (get2 Xs v) (get2 parts v) (Some cents).

(** A model on which [predict] can run: both centroid arrays are set, hold
    a row per cluster, and have the widths [d0] and [d1]. *)
Definition fitted (self : t) (d0 d1 : nat) : bool :=
  match _centroids self with
  | Some (Some c0, Some c1) =>
      (1 <=? _k self) && (_k self <=? nrows c0) && (_k self <=? nrows c1)
      && forallb (fun r => length r =? d0) c0
      && forallb (fun r => length r =? d1) c1
  | _ => false
  end.

(** A view of [n] samples with [d] features. *)
Definition shape (X : matrix) (n d : nat) : bool :=
  (nrows X =? n) && forallb (fun r => length r =? d) X.

(** An instance that [fit] has not taken through its first M-step: no
    centroids at all, or none for view 1. *)
Definition untrained (self : t) : bool :=
  match _centroids self with
  | None | Some (None, _) => true
  | Some (Some _, _) => false
  end.

(** The nearest-centroid partition of a view under centroids [c]. *)
Definition nearest (self : t) (X : matrix) (c : option matrix) : result (list nat) :=
  D <- _compute_distance self X c ;; Ok (argmin_axis0 D).

(** The consensus centroid of cluster [c] in the view [X]: the mean over
    the samples that both partitions assign to [c]. *)
Definition consensus_centroid (X : matrix) (p1 p2 : list nat) (c : nat) : vec :=
  mean_rows (ncols X)
            (select X (map (fun p => (fst p =? c) && (snd p =? c)) (combine p1 p2))).

(** The Euclidean distance of two rows of one width. *)
Definition dist (r c : vec) : num :=
  norm (map (fun p => sub (fst p) (snd p)) (combine r c)).

(** The summed distance of sample [i] to the consensus centroids of
    cluster [c] in the two views. *)
Definition joint_distance (Xs : views) (p1 p2 : list nat) (c i : nat) : num :=
  add (dist (nth i (fst Xs) []) (consensus_centroid (fst Xs) p1 p2 c))
      (dist (nth i (snd Xs) []) (consensus_centroid (snd Xs) p1 p2 c)).

(** What every state of the loop started in [st0] satisfies: the
    partitions are those of [st0]; the stall counter stays within the
    patience and the iteration count within [_max_iter]; the recorded
    objectives are numbers; and once a view has been updated, the
    objective an iteration computes for it is not below the recorded one. *)
Record loop_inv (self : t) (Xs : views) (patience : Z) (st0 st : locals) : Prop := {
  inv_parts : partitions st = partitions st0;
  inv_stall : (0 <= iter_stall st <= Z.max 0 patience)%Z;
  inv_num : (0 <= iter_num st)%Z;
  inv_max : match _max_iter self with
            | Finite z => (iter_num st <= Z.max 0 z)%Z
            | Infinite => True
            end;
  inv_obj0 : is_nan (fst (objective st)) = false;
  inv_obj1 : is_nan (snd (objective st)) = false;
  inv_settled0 : (1 <= iter_num st)%Z ->
                 forall o, view_objective self Xs (partitions st0) 0 = Ok o ->
                           ltb o (fst (objective st)) = false;
  inv_settled1 : (2 <= iter_num st)%Z ->
                 forall o, view_objective self Xs (partitions st0) 1 = Ok o ->
                           ltb o (snd (objective st)) = false
}.

(** Centroids with at least [k] rows, all of width [d]. *)
Definition good (k d : nat) (c : matrix) : Prop :=
  k <= length c /\ Forall (fun r => length r = d) c.

(** The centroids in a state of the loop: those of view 2 are set, and
    those of view 1 from the first iteration on. *)
Definition cent_inv (self : t) (d0 d1 : nat) (st : locals) : Prop :=
  (exists c1, snd (centroids st) = Some c1 /\ good (_k self) d1 c1) /\
  ((1 <= iter_num st)%Z ->
   exists c0, fst (centroids st) = Some c0 /\ good (_k self) d0 c0).

(** What a call of [fit] leaves of interest to a later call: the
    centroids it stored, or the exception. *)
Definition centroids_of (r : option (result t))
  : option (result (option (option matrix * option matrix))) :=
  match r with
  | Some (Ok s) => Some (Ok (_centroids s))
  | Some (Raise c msg) => Some (Raise c msg)
  | None => None
  end.

(** A bound on the iterations still to run from [st]. *)
Definition remaining (patience : Z) (st : locals) : nat :=
  if (iter_num st <? 2)%Z
  then Z.to_nat (2 - iter_num st) + Z.to_nat (Z.max 0 patience)
  else Z.to_nat (patience - iter_stall st).

(** ** The outcome of [fit] on views of equal sample counts *)

(** The centroids the M-step computes for a view under an integer
    partition: the mean, per cluster, of the rows assigned to it. *)
Definition cluster_means (k : nat) (X : matrix) (parts : list nat) : matrix :=
  map (fun cl => mean_rows (ncols X) (select X (map (fun x => x =? cl) parts))) (seq 0 k).

(** The centroids the M-step computes for a view when the other view has
    no partition: per cluster, one row of NaN per sample. *)
Definition nan_block (k : nat) (X : matrix) : matrix :=
  concat (map (fun _ => map (fun r => map (fun _ => nan) r) X) (seq 0 k)).

(** What the states of the loop satisfy when both views have the sample
    count of the partition [parts] of view 2: the partitions are [None]
    and [parts]; before the first iteration the objectives are infinite;
    the first iteration resets the stall counter; from the first iteration
    on the centroids of view 1 are the cluster means under [parts], and
    from the second on the centroids of view 2 are NaN. *)
Record run_inv (self : t) (Xs : views) (parts : list nat) (st : locals) : Prop := {
  ri_parts : partitions st = (None, Some parts);
  ri_num : (0 <= iter_num st)%Z;
  ri_start : iter_num st = 0%Z -> objective st = (inf, inf) /\ iter_stall st = 0%Z;
  ri_first : iter_num st = 1%Z -> iter_stall st = 0%Z;
  ri_c0 : (1 <= iter_num st)%Z ->
          fst (centroids st) = Some (cluster_means (_k self) (fst Xs) parts);
  ri_c1 : (2 <= iter_num st)%Z ->
          snd (centroids st) = Some (nan_block (_k self) (snd Xs))
}.

(** The record of a run in which only the first iteration lowered an
    objective: before the first iteration, or with 0.0 recorded for view
    1, nothing recorded for view 2, and every iteration after the first
    counted as a stall. *)
Definition counted (st : locals) : Prop :=
  iter_num st = 0%Z \/
  ((1 <= iter_num st)%Z /\ objective st = (zero, inf) /\
   iter_stall st = (iter_num st - 1)%Z).

End KMeans.

(* ===================================================================== *)
(** * mvlearn/embed/kcca.py *)
(* ===================================================================== *)

Module KCCA.

(** The values a constructor argument can be bound to. *)
Inductive pyval : Type :=
| PyInt (z : Z)
| PyFloat (x : num)
| PyBool (b : bool)
| PyStr (s : string)
| PyNone.

(** [type(v) == int] and [type(v) == float]: exact types, so a [bool] is
    no [int]. *)
Definition type_is_int (v : pyval) : bool :=
  match v with PyInt _ => true | _ => false end.

Definition type_is_float (v : pyval) : bool :=
  match v with PyFloat _ => true | _ => false end.

(** [v < n] and [v > n] for an integer literal [n]; a string or [None]
    is not ordered against a number. *)
Definition lt_int (v : pyval) (n : Z) : result bool :=
  match v with
  | PyInt z => Ok (z <? n)%Z
  | PyFloat x => Ok (ltb x (of_Z n))
  | PyBool b => Ok ((if b then 1 else 0) <? n)%Z
  | PyStr _ | PyNone => Raise TypeError "'<' not supported between instances"
  end.

Definition gt_int (v : pyval) (n : Z) : result bool :=
  match v with
  | PyInt z => Ok (n <? z)%Z
  | PyFloat x => Ok (ltb (of_Z n) x)
  | PyBool b => Ok (n <? (if b then 1 else 0))%Z
  | PyStr _ | PyNone => Raise TypeError "'>' not supported between instances"
  end.

(** [v == s] and [v != s] for a string literal [s]. *)
Definition eq_str (v : pyval) (s : string) : bool :=
  match v with PyStr s' => String.eqb s' s | _ => false end.

Definition ne_str (v : pyval) (s : string) : bool := negb (eq_str v s).

(** [a or b] on conditions that can raise: [b] is evaluated only when
    [a] is false. *)
Definition orM (a b : result bool) : result bool :=
  x <- a ;; if x then Ok true else b.

(** A number used in float arithmetic. *)
Definition to_float (v : pyval) : result num :=
  match v with
  | PyInt z => Ok (of_Z z)
  | PyFloat x => Ok x
  | PyBool b => Ok (of_Z (if b then 1 else 0))
  | PyStr _ | PyNone => Raise TypeError "unsupported operand type(s)"
  end.

(** A number below 0, a number above 1, and one of the three kernel
    names. *)
Definition negative (v : pyval) : bool :=
  match lt_int v 0 with Ok true => true | _ => false end.

Definition above_one (v : pyval) : bool :=
  match gt_int v 1 with Ok true => true | _ => false end.

Definition known_kernel (v : pyval) : bool :=
  eq_str v "linear" || eq_str v "poly" || eq_str v "gaussian".

(** A value that is ordered against the integers. *)
Definition is_number (v : pyval) : bool :=
  match v with
  | PyInt _ | PyFloat _ | PyBool _ => true
  | PyStr _ | PyNone => false
  end.

(** The attributes of an instance: [X], [Y] and [weights_] exist once
    [fit] has set them, [components_] once [transform] has. *)
Record t : Type := mk {
  n_components : pyval;
  ktype : pyval;
  constant : pyval;
  sigma : pyval;
  degree : pyval;
  reg : pyval;
  decomp : pyval;
  method : pyval;
  X : option matrix;
  Y : option matrix;
  weights_ : option (matrix * matrix);
  components_ : option (matrix * matrix)
}.

(** [KCCA(n_components, ktype, constant, sigma, degree, reg, decomp,
    method)]: the attributes are stored, then checked in this order. *)
Definition __init__ (n_components ktype constant sigma degree reg decomp method : pyval)
  : result t :=
  c1 <- orM (lt_int n_components 0) (Ok (negb (type_is_int n_components))) ;;
  if c1 then Raise ValueError "n_components must be a positive integer" else
  if ne_str ktype "linear" && ne_str ktype "poly" && ne_str ktype "gaussian"
  then Raise ValueError "ktype must be 'linear', 'gaussian', or 'poly'." else
  c3 <- orM (lt_int sigma 0) (Ok (negb (type_is_float sigma || type_is_int sigma))) ;;
  if c3 then Raise ValueError "sigma must be positive int/float" else
  if negb (type_is_float degree || type_is_int sigma)
  then Raise ValueError "degree must be int/float" else
  c5 <- orM (lt_int reg 0) (orM (gt_int reg 1) (Ok (negb (type_is_float reg)))) ;;
  if c5 then Raise ValueError "reg must be positive float" else
  c6 <- orM (lt_int constant 0)
            (Ok (negb (type_is_float constant || type_is_int constant))) ;;
  if c6 then Raise ValueError "constant must be a positive integer" else
  Ok {| n_components := n_components; ktype := ktype; constant := constant;
        sigma := sigma; degree := degree; reg := reg; decomp := decomp;
        method := method;
        X := None; Y := None; weights_ := None; components_ := None |}.

(** ** Linear algebra of the module *)

Definition one : num := of_Z 1.
Definition half : num := div (of_Z 1) (of_Z 2).

Definition transpose (M : matrix) : matrix :=
  map (column M) (seq 0 (ncols M)).

(** The inner product of [A @ B].  numpy hands the products of float64
    arrays to the BLAS library it is built with, which fixes neither the
    order of the additions nor the rounding of the products; the model
    adds the rounded products left to right, as numpy's own loop does.
    What is proved of the kernels concerns shapes and exceptions. *)
Definition dot (a b : vec) : num :=
  accumulate (map (fun p => mul (fst p) (snd p)) (combine a b)).

(** [A @ v] and [A @ B]; the inner dimensions have to agree. *)
Definition matvec (A : matrix) (v : vec) : result vec :=
  if ncols A =? length v then Ok (map (fun r => dot r v) A)
  else Raise ValueError "matmul: mismatch in the core dimension".

Definition matmul (A B : matrix) : result matrix :=
  if ncols A =? nrows B then Ok (map (fun r => map (dot r) (transpose B)) A)
  else Raise ValueError "matmul: mismatch in the core dimension".

Definition eye (n : nat) : matrix :=
  map (fun i => map (fun j => if i =? j then one else zero) (seq 0 n)) (seq 0 n).

Definition zeros (n m : nat) : matrix := repeat (repeat zero m) n.

(** [np.eye(n) - 1 / n * np.ones(n)]; the quotient [1 / n] is Python's. *)
Definition centering (n : nat) : result matrix :=
  if n =? 0 then Raise ZeroDivisionError "division by zero"
  else Ok (map (fun r => map (fun e => sub e (mul (div one (of_nat n)) one)) r) (eye n)).

(** [x - x.mean(0)]. *)
Definition _center_norm (x : matrix) : result matrix :=
  sub_rows x (mean_rows (ncols x) x).

(** [np.c_[A, B]] and [np.r_[A, B]] for 2-D blocks of equal height, resp.
    width. *)
Definition c_ (A B : matrix) : matrix := map (fun p => fst p ++ snd p) (combine A B).
Definition r_ (A B : matrix) : matrix := A ++ B.

Definition scale (c : num) (M : matrix) : matrix := map (map (mul c)) M.

(** A value that has to be an array where it is used; [_make_kernel]
    returns [None] when no branch is taken. *)
Definition as_array (K : option matrix) : result matrix :=
  match K with
  | Some M => Ok M
  | None => Raise TypeError "unsupported operand type(s) for NoneType"
  end.

(** Complex numbers, as (real part, imaginary part). *)
Definition cplx : Type := num * num.

Definition getitem {A : Type} (l : list A) (i : nat) : result A :=
  match nth_error l i with
  | Some x => Ok x
  | None => Raise IndexError "list index out of range"
  end.

(** [l[:n]] for [n] an integer or [None]. *)
Definition slice_to {A : Type} (l : list A) (n : option Z) : list A :=
  match n with
  | None => l
  | Some n =>
      if (n <? 0)%Z then firstn (length l - Z.to_nat (- n)) l else firstn (Z.to_nat n) l
  end.

Section Estimator.

(** What the module imports: the validation of the views
    ([..utils.utils.check_Xs], which is not part of these sources),
    scikit-learn's squared distances, numpy's power and exponential,
    scipy's generalized eigensolver, numpy's [argsort] on complex
    values and numpy's division of complex values. *)
Variable check_Xs : list matrix -> result (list matrix).
Variable euclidean_distances : matrix -> matrix -> result matrix.
Variable fpow : num -> num -> num.
Variable fexp : num -> num.
Variable eig : matrix -> matrix -> result (list cplx * list (list cplx)).
Variable argsort : list cplx -> list nat.
Variable cdiv : cplx -> cplx -> cplx.

(** [_make_kernel(X, Y, ktype, constant, degree, sigma)]. *)
Definition _make_kernel (X Y : matrix) (ktype constant degree sigma : pyval)
  : result (option matrix) :=
  N0l <- centering (nrows X) ;;
  N0r <- centering (nrows Y) ;;
  if eq_str ktype "linear" then
    G <- matmul X (transpose Y) ;;
    L <- matmul N0l G ;;
    K <- matmul L N0r ;;
    Ok (Some K)
  else if eq_str ktype "poly" then
    G <- matmul X (transpose Y) ;;
    c <- to_float constant ;;
    d <- to_float degree ;;
    L <- matmul N0l (map (map (fun x => fpow (add x c) d)) G) ;;
    K <- matmul L N0r ;;
    Ok (Some K)
  else if eq_str ktype "gaussian" then
    distmat <- euclidean_distances X Y ;;
    s <- to_float sigma ;;
    let w := mul (of_Z 2) (fpow s (of_Z 2)) in
    L <- matmul N0l (map (map (fun x => fexp (div (SFopp x) w))) distmat) ;;
    K <- matmul L N0r ;;
    Ok (Some K)
  else Ok None.

(** [np.linalg.norm(W, axis=0)] of a complex matrix, and [W /= norms].
    The squares of a column are added row after row. *)
Definition cnorm_axis0 (W : list (list cplx)) : vec :=
  map (fun j =>
         sqrt (accumulate (map (fun r => let z := nth j r (nan, nan) in
                                   add (mul (fst z) (fst z)) (mul (snd z) (snd z))) W)))
      (seq 0 (match W with [] => 0 | r :: _ => length r end)).

Definition normalize_columns (W : list (list cplx)) : result (list (list cplx)) :=
  let norms := map (fun n => (n, zero)) (cnorm_axis0 W) in
  mapM (fun r => broadcast1 cdiv r norms) W.

(** [self.fit(Xs)]. *)
Definition fit (self : t) (Xs : list matrix) : result t :=
  Xs <- check_Xs Xs ;;
  x0 <- getitem Xs 0 ;;
  X' <- _center_norm x0 ;;
  x1 <- getitem Xs 1 ;;
  Y' <- _center_norm x1 ;;
  let N := nrows X' in
  RD <- (if eq_str (decomp self) "full" then
           Kx <- _make_kernel X' X' (ktype self) (constant self) (degree self) (sigma self) ;;
           Ky <- _make_kernel Y' Y' (ktype self) (constant self) (degree self) (sigma self) ;;
           let Id := eye N in
           let Z := zeros N N in
           if eq_str (method self) "kettenring-like" then
             Kx <- as_array Kx ;;
             Ky <- as_array Ky ;;
             let R := scale half (r_ (c_ Kx Ky) (c_ Kx Ky)) in
             r <- to_float (reg self) ;;
             Dx <- add_matrix Kx (scale r Id) ;;
             Dy <- add_matrix Ky (scale r Id) ;;
             Ok (Some (R, r_ (c_ Dx Z) (c_ Z Dy)))
           else Ok None
         else Ok None) ;;
  match RD with
  | None => Raise UnboundLocalError "local variable 'R' referenced before assignment"
  | Some (R, D) =>
      ba <- eig R D ;;
      let (betas, alphas) := ba : list cplx * list (list cplx) in
      nc <- match n_components self with
            | PyInt z => Ok (Some z)
            | PyBool b => Ok (Some (if b then 1 else 0)%Z)
            | PyNone => Ok None
            | PyFloat _ | PyStr _ => Raise TypeError "slice indices must be integers"
            end ;;
      let ind := slice_to (rev (argsort betas)) nc in
      let pick := fun r : list cplx => map (fun j => nth j r (nan, nan)) ind in
      weight1 <- normalize_columns (map pick (firstn N alphas)) ;;
      weight2 <- normalize_columns (map pick (skipn N alphas)) ;;
      Ok {| n_components := n_components self; ktype := ktype self;
            constant := constant self; sigma := sigma self; degree := degree self;
            reg := reg self; decomp := decomp self; method := method self;
            X := Some X'; Y := Some Y';
            weights_ := Some (map (map fst) weight1, map (map fst) weight2);
            components_ := components_ self |}
  end.

(** [self.transform(Xs)]: the components and the instance that holds
    them as [components_]. *)
Definition transform (self : t) (Xs : list matrix) : result (t * (matrix * matrix)) :=
  match weights_ self with
  | None => Raise NameError "kCCA has not been trained."
  | Some (weight1, weight2) =>
      Xs <- check_Xs Xs ;;
      x0 <- getitem Xs 0 ;;
      cx <- _center_norm x0 ;;
      sX <- match X self with
            | Some M => Ok M
            | None => Raise AttributeError "'KCCA' object has no attribute 'X'"
            end ;;
      csX <- _center_norm sX ;;
      Kx_transform <- _make_kernel cx csX (ktype self) (constant self)
                                  (degree self) (sigma self) ;;
      x1 <- getitem Xs 1 ;;
      cy <- _center_norm x1 ;;
      sY <- match Y self with
            | Some M => Ok M
            | None => Raise AttributeError "'KCCA' object has no attribute 'Y'"
            end ;;
      csY <- _center_norm sY ;;
      Ky_transform <- _make_kernel cy csY (ktype self) (constant self)
                                  (degree self) (sigma self) ;;
      comps <- mapM (fun i =>
                       Kx <- as_array Kx_transform ;;
                       a <- matvec Kx (column weight1 i) ;;
                       Ky <- as_array Ky_transform ;;
                       b <- matvec Ky (column weight2 i) ;;
                       Ok (a, b))
                    (seq 0 (ncols weight1)) ;;
      let comp1 := transpose (map fst comps) in
      let comp2 := transpose (map snd comps) in
      Ok ({| n_components := n_components self; ktype := ktype self;
             constant := constant self; sigma := sigma self; degree := degree self;
             reg := reg self; decomp := decomp self; method := method self;
             X := X self; Y := Y self; weights_ := weights_ self;
             components_ := Some (comp1, comp2) |},
          (comp1, comp2))
  end.

End Estimator.

(** ** The configurations the constructor accepts *)

(** An [int] that is at least 0, or a [float] that is not below 0. *)
Definition nonneg_number (v : pyval) : bool :=
  match v with
  | PyInt z => (0 <=? z)%Z
  | PyFloat x => negb (ltb x (of_Z 0))
  | PyBool _ | PyStr _ | PyNone => false
  end.

(** The arguments that pass every check of the constructor, read off the
    six conditions without their order: [n_components] an [int] that is at
    least 0; a known kernel name; [sigma] and [constant] an [int] or a
    [float], not below 0; [degree] a [float], or else [sigma] an [int];
    [reg] a [float] neither below 0 nor above 1. *)
Definition accepted (n_components ktype constant sigma degree reg : pyval) : bool :=
  match n_components with PyInt z => (0 <=? z)%Z | _ => false end
  && known_kernel ktype
  && nonneg_number sigma
  && (type_is_float degree || type_is_int sigma)
  && match reg with
     | PyFloat x => negb (ltb x (of_Z 0)) && negb (ltb (of_Z 1) x)
     | _ => false
     end
  && nonneg_number constant.

(** The instance the constructor leaves when it returns. *)
Definition fresh (n_components ktype constant sigma degree reg decomp method : pyval) : t :=
  {| n_components := n_components; ktype := ktype; constant := constant;
     sigma := sigma; degree := degree; reg := reg; decomp := decomp;
     method := method;
     X := None; Y := None; weights_ := None; components_ := None |}.

End KCCA.

(* ===================================================================== *)
(** * Example data *)
(* ===================================================================== *)

Module Examples.
Import KMeans.

(** Two samples seen through two views of one feature each. *)
Definition X0 : matrix := [[of_Z 1]; [of_Z 2]].
Definition X1 : matrix := [[of_Z 0]; [of_Z 10]].
Definition Xs : views := (X0, X1).

(** [KMeans(k=2, random_state=42)]. *)
Definition km : t := __init__ 2 (Some 42%Z) None.

(** A generator that draws the rows 0 and 1, then the rows 1 and 0; and
    one that draws row 0 twice. *)
Definition g_0110 : rng := stream_of [0; 1; 1; 0].
Definition g_00 : rng := stream_of [0; 0].

(** The state [fit] enters its loop with, from [g_0110]. *)
Definition st_init : locals :=
  {| centroids := (None, Some X1);
     partitions := (None, Some [0; 1]);
     objective := (inf, inf);
     iter_stall := 0;
     iter_num := 0;
     new_partitions := None |}.

(** The instance [fit] returns for [km] on [Xs] from [g_0110]. *)
Definition km_fitted : t :=
  set_centroids km (Some (Some X0, Some [[nan]; [nan]; [nan]; [nan]])).

(** The unfitted [KMeans(k=2)]. *)
Definition km_unfit : t := __init__ 2 None None.

(** Two samples of three features, and a model of two clusters whose
    centroids have two features in either view. *)
Definition X3 : matrix := [[of_Z 1; of_Z 2; of_Z 3]; [of_Z 4; of_Z 5; of_Z 6]].

Definition km_wide : t :=
  set_centroids km (Some (Some [[of_Z 1; of_Z 2]; [of_Z 3; of_Z 4]],
                          Some [[of_Z 1; of_Z 2]; [of_Z 3; of_Z 4]])).

(** The number 0.1, and two variations of the default arguments of [KCCA]:
    a decomposition name the module does not know, and a negative degree. *)
Definition f0_1 : num := div (of_Z 1) (of_Z 10).

Definition kcca_bogus_decomp : result KCCA.t :=
  KCCA.__init__ (KCCA.PyInt 2) (KCCA.PyStr "linear") (KCCA.PyFloat f0_1)
                (KCCA.PyFloat (of_Z 1)) (KCCA.PyFloat (of_Z 2)) (KCCA.PyFloat f0_1)
                (KCCA.PyStr "bogus") (KCCA.PyStr "kettenring-like").

Definition kcca_negative_degree : result KCCA.t :=
  KCCA.__init__ (KCCA.PyInt 2) (KCCA.PyStr "poly") (KCCA.PyFloat f0_1)
                (KCCA.PyFloat (of_Z 1)) (KCCA.PyFloat (of_Z (-1))) (KCCA.PyFloat f0_1)
                (KCCA.PyStr "full") (KCCA.PyStr "kettenring-like").

(** The attributes of an instance the constructor returned for the
    arguments of [kcca_bogus_decomp]. *)
Definition kcca_bogus : KCCA.t :=
  {| KCCA.n_components := KCCA.PyInt 2; KCCA.ktype := KCCA.PyStr "linear";
     KCCA.constant := KCCA.PyFloat f0_1; KCCA.sigma := KCCA.PyFloat (of_Z 1);
     KCCA.degree := KCCA.PyFloat (of_Z 2); KCCA.reg := KCCA.PyFloat f0_1;
     KCCA.decomp := KCCA.PyStr "bogus"; KCCA.method := KCCA.PyStr "kettenring-like";
     KCCA.X := None; KCCA.Y := None; KCCA.weights_ := None;
     KCCA.components_ := None |}.

(** The instance the constructor returns for its default arguments. *)
Definition kcca_default : KCCA.t :=
  KCCA.fresh (KCCA.PyInt 2) (KCCA.PyStr "linear") (KCCA.PyFloat f0_1)
             (KCCA.PyFloat (of_Z 1)) (KCCA.PyFloat (of_Z 2)) (KCCA.PyFloat f0_1)
             (KCCA.PyStr "full") (KCCA.PyStr "kettenring-like").

(** Simple instances of what [KCCA] imports, to run [fit] on the example
    views: a validation that lets every input through, a solver that
    returns zero eigenvalues with the rows of [D] as eigenvectors, the
    identity permutation for [argsort], and the division of a complex
    number by a real one. *)
Definition any_Xs (Xs : list matrix) : result (list matrix) := Ok Xs.

Definition rows_eig (R D : matrix) : result (list KCCA.cplx * list (list KCCA.cplx)) :=
  Ok (map (fun _ => (zero, zero)) R, map (fun r => map (fun x => (x, zero)) r) D).

Definition id_argsort (l : list KCCA.cplx) : list nat := seq 0 (length l).

Definition real_cdiv (a b : KCCA.cplx) : KCCA.cplx :=
  (div (fst a) (fst b), div (snd a) (fst b)).

(** A trained instance with the linear kernel: the two example views as
    [X] and [Y], and one weight vector per view. *)
Definition kcca_trained : KCCA.t :=
  {| KCCA.n_components := KCCA.PyInt 1; KCCA.ktype := KCCA.PyStr "linear";
     KCCA.constant := KCCA.PyFloat f0_1; KCCA.sigma := KCCA.PyFloat (of_Z 1);
     KCCA.degree := KCCA.PyFloat (of_Z 2); KCCA.reg := KCCA.PyFloat f0_1;
     KCCA.decomp := KCCA.PyStr "full"; KCCA.method := KCCA.PyStr "kettenring-like";
     KCCA.X := Some X0; KCCA.Y := Some X1;
     KCCA.weights_ := Some ([[of_Z 1]; [of_Z 0]], [[of_Z 1]; [of_Z 0]]);
     KCCA.components_ := None |}.

End Examples.

(* ===================================================================== *)
(** * Facts about float64 comparison *)
(* ===================================================================== *)

Module F64Facts.

Lemma ltb_nan_r (x : num) : ltb x nan = false.
Proof. destruct x as [s|s| |s m e]; try destruct s; reflexivity. Qed.

Lemma ltb_nan_l (y : num) : ltb nan y = false.
Proof. reflexivity. Qed.

(** On numbers that are not NaN, [<] is the lexicographic order of the
    keys. *)
Lemma ltb_key (x y : num) :
  is_nan x = false -> is_nan y = false ->
  (ltb x y = true <-> key_lt (key x) (key y)).
Proof.
  unfold ltb, SFltb, key_lt.
  destruct x as [sx|sx| |sx mx ex], y as [sy|sy| |sy my ey]; simpl; try discriminate;
    intros _ _; try destruct sx; try destruct sy; simpl;
    try (split; [discriminate | lia]); try (split; [lia | reflexivity]).
  - change (Pos.compare_cont Eq mx my) with (Pos.compare mx my).
    destruct (Z.compare_spec ex ey); destruct (Pos.compare_spec mx my); simpl;
      split; intros; try discriminate; try reflexivity; lia.
  - change (Pos.compare_cont Eq mx my) with (Pos.compare mx my).
    destruct (Z.compare_spec ex ey); destruct (Pos.compare_spec mx my); simpl;
      split; intros; try discriminate; try reflexivity; lia.
Qed.

Lemma ltb_not_nan (x y : num) :
  ltb x y = true -> is_nan x = false /\ is_nan y = false.
Proof.
  destruct x as [sx|sx| |sx mx ex], y as [sy|sy| |sy my ey]; simpl; intros H;
    try (split; reflexivity); discriminate H.
Qed.

Lemma key_lt_irrefl (a : Z * Z * Z) : ~ key_lt a a.
Proof. destruct a as [[a1 a2] a3]. unfold key_lt. lia. Qed.

Lemma ltb_irrefl (x : num) : ltb x x = false.
Proof.
  destruct (ltb x x) eqn:E; [| reflexivity].
  destruct (ltb_not_nan _ _ E) as [Hx _].
  apply (ltb_key x x Hx Hx) in E. now apply key_lt_irrefl in E.
Qed.

Lemma ltb_asym (x y : num) : ltb x y = true -> ltb y x = false.
Proof.
  intros H. destruct (ltb y x) eqn:E; [| reflexivity].
  destruct (ltb_not_nan _ _ H) as [Hx Hy].
  apply (ltb_key x y Hx Hy) in H. apply (ltb_key y x Hy Hx) in E.
  destruct (key x) as [[a1 a2] a3], (key y) as [[b1 b2] b3].
  unfold key_lt in *. lia.
Qed.

(** If [y] is not below [b] and [x] is below [b], then [y] is not below
    [x]. *)
Lemma ltb_false_below (x y b : num) :
  is_nan y = false ->
  ltb y b = false -> ltb x b = true -> ltb y x = false.
Proof.
  intros Hy Hyb Hxb. destruct (ltb y x) eqn:E; [| reflexivity].
  destruct (ltb_not_nan _ _ Hxb) as [Hx Hb].
  apply (ltb_key x b Hx Hb) in Hxb. apply (ltb_key y x Hy Hx) in E.
  assert (Hn : ~ key_lt (key y) (key b)).
  { intros K. apply (ltb_key y b Hy Hb) in K. congruence. }
  destruct (key x) as [[a1 a2] a3], (key y) as [[b1 b2] b3], (key b) as [[c1 c2] c3].
  unfold key_lt in *. lia.
Qed.



(** On numbers that are not NaN the order is total: at most is the same
    as not above. *)
Lemma leb_iff_not_ltb (x y : num) :
  is_nan x = false -> is_nan y = false -> (leb x y = true <-> ltb y x = false).
Proof.
  unfold ltb, leb, SFltb, SFleb.
  destruct x as [sx|sx| |sx mx ex], y as [sy|sy| |sy my ey]; simpl; try discriminate;
    intros _ _; try destruct sx; try destruct sy; simpl; try (split; congruence);
    rewrite (Z.compare_antisym ex ey);
    change (Pos.compare_cont Eq my mx) with (Pos.compare my mx);
    change (Pos.compare_cont Eq mx my) with (Pos.compare mx my);
    rewrite (Pos.compare_antisym mx my);
    destruct (ex ?= ey)%Z; simpl; try (split; congruence);
    destruct (mx ?= my)%positive; simpl; split; congruence.
Qed.



End F64Facts.

(* ===================================================================== *)
(** * The EM loop of [KMeans.fit] *)
(* ===================================================================== *)

Module KMeansLoop.
Import F64Facts KMeans.

Lemma get2_set2_same {A : Type} (p : A * A) (v : Z) (x : A) :
  get2 (set2 p v x) v = x.
Proof. unfold get2, set2. destruct (v =? 0)%Z eqn:E; simpl; now rewrite ?E. Qed.

Lemma view_of_cases (st : locals) : view_of st = 0%Z \/ view_of st = 1%Z.
Proof.
  unfold view_of.
  pose proof (Z.mod_pos_bound (iter_num st + 1 + 1) 2 eq_refl). lia.
Qed.

Section Loop.
Variables (self : t) (Xs : views) (patience : Z).

(** What one run of the loop body does to the variables. *)
Lemma em_step_spec (st st' : locals) :
  em_step self Xs st = Ok st' ->
  exists o,
    view_objective self Xs (partitions st) (view_of st) = Ok o /\
    partitions st' = partitions st /\
    iter_num st' = (iter_num st + 1)%Z /\
    (if ltb o (get2 (objective st) (view_of st))
     then objective st' = set2 (objective st) (view_of st) o /\ iter_stall st' = 0%Z
     else objective st' = objective st /\ iter_stall st' = (iter_stall st + 1)%Z).
Proof.
  unfold em_step, view_objective, view_of.
  set (v := ((iter_num st + 1 + 1) mod 2)%Z).
  destruct (m_step (_k self) (get2 Xs v) (get2 (partitions st) ((v + 1) mod 2)%Z))
    as [cents|c m] eqn:Em; simpl; [| discriminate].
  rewrite get2_set2_same.
  destruct (_compute_distance self (get2 Xs v) (Some cents)) as [D|c m]; simpl;
    [| discriminate].
  destruct (o_funct (_k self) (get2 Xs v) (get2 (partitions st) v) (Some cents))
    as [o|c m]; simpl; [| discriminate].
  intros H. exists o. split; [reflexivity |].
  destruct (ltb o (get2 (objective st) v)); inversion H; subst; simpl; auto.
Qed.

Lemma iterates_front (st st1 st' : locals) :
  iteration self Xs patience st st1 ->
  iterates self Xs patience st1 st' ->
  iterates self Xs patience st st'.
Proof.
  intros H1 H. induction H as [| a b _ IH Hab].
  - eapply iterates_step; [apply iterates_refl | exact H1].
  - eapply iterates_step; [exact IH | exact Hab].
Qed.

Lemma iterates_trans (a b c : locals) :
  iterates self Xs patience a b ->
  iterates self Xs patience b c ->
  iterates self Xs patience a c.
Proof.
  intros Hab Hbc. induction Hbc as [| x y _ IH Hxy]; [exact Hab |].
  eapply iterates_step; [exact IH | exact Hxy].
Qed.

(** The state [fit] enters the loop with. *)
Lemma fit_init_spec (g : rng) (st0 : locals) :
  fst (fit_init self Xs g) = Ok st0 ->
  iter_num st0 = 0%Z /\ iter_stall st0 = 0%Z /\ objective st0 = (inf, inf) /\
  fst (partitions st0) = None /\ fst (centroids st0) = None.
Proof.
  unfold fit_init. destruct (init_centers Xs (_k self) g) as [r g']. simpl.
  destruct r as [ic|c m]; simpl; [| discriminate].
  destruct (_compute_distance self (snd Xs) (Some (snd ic))) as [D|c m]; simpl;
    [| discriminate].
  intros H. inversion H; subst; simpl. auto.
Qed.

Lemma loop_inv_init (g : rng) (st0 : locals) :
  fst (fit_init self Xs g) = Ok st0 -> loop_inv self Xs patience st0 st0.
Proof.
  intros H. destruct (fit_init_spec g st0 H) as (Hn & Hs & Ho & _).
  constructor; rewrite ?Hn, ?Hs, ?Ho; simpl; try reflexivity; try lia.
  destruct (_max_iter self); [lia | exact I].
Qed.

Lemma loop_inv_step (st0 st st' : locals) :
  loop_inv self Xs patience st0 st ->
  iteration self Xs patience st st' ->
  loop_inv self Xs patience st0 st'.
Proof.
  intros [Hp Hs Hn Hm Ho0 Ho1 H0 H1] [Hg Hstep].
  destruct (em_step_spec st st' Hstep) as (o & Hvo & Hp' & Hn' & Hupd).
  unfold guard in Hg. apply andb_prop in Hg. destruct Hg as [Hg1 Hg2].
  apply Z.ltb_lt in Hg1.
  rewrite Hp in Hvo.
  assert (Hview : (view_of st = 0 /\ (iter_num st = 0 \/ 2 <= iter_num st))%Z \/
                  (view_of st = 1 /\ 1 <= iter_num st)%Z).
  { unfold view_of.
    pose proof (Z.mod_pos_bound (iter_num st + 1 + 1) 2 eq_refl) as Hb.
    destruct (Z.eq_dec (iter_num st) 0) as [E|E]; [rewrite E; left; split; [reflexivity | lia] |].
    destruct (Z.eq_dec (iter_num st) 1) as [E1|E1]; [rewrite E1; right; split; [reflexivity | lia] |].
    destruct (Z.eq_dec ((iter_num st + 1 + 1) mod 2) 0)%Z as [E0|E0]; [left | right]; lia. }
  constructor.
  - congruence.
  - destruct (ltb o (get2 (objective st) (view_of st))); destruct Hupd as [_ ->]; lia.
  - lia.
  - destruct (_max_iter self) as [z|]; [| exact I].
    simpl in Hg2. apply Z.ltb_lt in Hg2. lia.
  - destruct (ltb o (get2 (objective st) (view_of st))) eqn:El; destruct Hupd as [-> _];
      [| exact Ho0].
    destruct (ltb_not_nan _ _ El) as [Hno _].
    unfold set2. destruct (view_of st =? 0)%Z; simpl; assumption.
  - destruct (ltb o (get2 (objective st) (view_of st))) eqn:El; destruct Hupd as [-> _];
      [| exact Ho1].
    destruct (ltb_not_nan _ _ El) as [Hno _].
    unfold set2. destruct (view_of st =? 0)%Z; simpl; assumption.
  - intros Hge o' Ho'.
    destruct Hview as [[Ev _]|[Ev Hodd]]; rewrite Ev in *.
    + assert (o' = o) by congruence. subst o'.
      unfold get2, set2 in *. simpl in *.
      destruct (ltb o (fst (objective st))) eqn:El; destruct Hupd as [-> _]; simpl.
      * apply ltb_irrefl.
      * exact El.
    + unfold get2, set2 in *. simpl in *.
      destruct (ltb o (snd (objective st))); destruct Hupd as [-> _]; simpl;
        apply H0; assumption || lia.
  - intros Hge o' Ho'.
    destruct Hview as [[Ev Heven]|[Ev _]]; rewrite Ev in *.
    + unfold get2, set2 in *. simpl in *.
      destruct (ltb o (fst (objective st))); destruct Hupd as [-> _]; simpl;
        apply H1; assumption || lia.
    + assert (o' = o) by congruence. subst o'.
      unfold get2, set2 in *. simpl in *.
      destruct (ltb o (snd (objective st))) eqn:El; destruct Hupd as [-> _]; simpl.
      * apply ltb_irrefl.
      * exact El.
Qed.

Lemma loop_inv_iterates (st0 st st' : locals) :
  loop_inv self Xs patience st0 st ->
  iterates self Xs patience st st' ->
  loop_inv self Xs patience st0 st'.
Proof.
  intros Hinv H. induction H as [| a b _ IH Hab]; [exact Hinv |].
  eapply loop_inv_step; [exact IH | exact Hab].
Qed.




(** Every iteration uses up some of [remaining]. *)
Lemma remaining_decreases (st0 st st' : locals) :
  loop_inv self Xs patience st0 st ->
  iteration self Xs patience st st' ->
  remaining patience st' < remaining patience st.
Proof.
  intros Hinv Hit.
  pose proof (loop_inv_step st0 st st' Hinv Hit) as Hinv'.
  destruct Hit as [Hg Hstep].
  destruct (em_step_spec st st' Hstep) as (o & Hvo & _ & Hn' & Hupd).
  unfold guard in Hg. apply andb_prop in Hg. destruct Hg as [Hg1 _].
  apply Z.ltb_lt in Hg1.
  pose proof (inv_stall _ _ _ _ _ Hinv) as Hs.
  pose proof (inv_num _ _ _ _ _ Hinv) as Hn.
  pose proof (inv_stall _ _ _ _ _ Hinv') as Hs'.
  unfold remaining. rewrite Hn'.
  destruct (iter_num st <? 2)%Z eqn:E2; [apply Z.ltb_lt in E2 | apply Z.ltb_ge in E2].
  - destruct (iter_num st + 1 <? 2)%Z eqn:E3; [apply Z.ltb_lt in E3 | apply Z.ltb_ge in E3]; lia.
  - destruct (iter_num st + 1 <? 2)%Z eqn:E3; [apply Z.ltb_lt in E3; lia |].
    rewrite (inv_parts _ _ _ _ _ Hinv) in Hvo.
    assert (Hstall : ltb o (get2 (objective st) (view_of st)) = false).
    { destruct (view_of_cases st) as [Ev|Ev]; rewrite Ev in *; unfold get2; simpl.
      - apply (inv_settled0 _ _ _ _ _ Hinv); [lia | exact Hvo].
      - apply (inv_settled1 _ _ _ _ _ Hinv); [lia | exact Hvo]. }
    rewrite Hstall in Hupd. destruct Hupd as [_ ->]. lia.
Qed.

(** With fuel above [remaining], the loop ends: it raises, or stops in a
    state it reaches by iterations and in which the condition fails. *)
Lemma em_loop_ends (st0 : locals) (fuel : nat) :
  forall st,
    loop_inv self Xs patience st0 st ->
    remaining patience st < fuel ->
    exists r, em_loop fuel self Xs patience st = Some r /\
              forall st', r = Ok st' ->
                          iterates self Xs patience st st' /\
                          guard self patience st' = false.
Proof.
  induction fuel as [| fuel IH]; intros st Hinv Hlt; [lia |].
  simpl. destruct (guard self patience st) eqn:Hg.
  - destruct (em_step self Xs st) as [st1|c m] eqn:Hstep.
    + assert (Hit : iteration self Xs patience st st1) by (split; assumption).
      pose proof (remaining_decreases st0 st st1 Hinv Hit) as Hdec.
      destruct (IH st1 (loop_inv_step st0 st st1 Hinv Hit)) as (r & Hr & Hfin); [lia |].
      exists r. split; [exact Hr |].
      intros st' E. destruct (Hfin st' E) as [Hreach Hstop].
      split; [eapply iterates_front; eassumption | exact Hstop].
    + exists (Raise c m). split; [reflexivity | discriminate].
  - exists (Ok st). split; [reflexivity |].
    intros st' E. inversion E; subst. split; [apply iterates_refl | exact Hg].
Qed.

End Loop.

End KMeansLoop.

(* ===================================================================== *)
(** * The contracts of [KMeans] *)
(* ===================================================================== *)

Import KMeans.



(** C1 (the code departs from the claim): in every state of the loop the
    partitions are the ones [fit] entered the loop with, view 1's being
    [None]: the partition the E-step recomputes is bound to [new_partitions]
    and never stored.  On the example input the first iteration recomputes
    the partition [0; 1] of view 1; the second iteration, which updates
    view 2, selects with [None == cl] and stores four rows of NaN, where
    the means under the recomputed partition are the rows 0 and 10. *)
Theorem fit_drops_recomputed_partition :
  (forall self Xs patience g st0 st,
      fst (fit_init self Xs g) = Ok st0 ->
      iterates self Xs patience st0 st ->
      partitions st = partitions st0 /\ fst (partitions st) = None) /\
  (exists st1 st2,
      fst (fit_init Examples.km Examples.Xs Examples.g_0110) = Ok Examples.st_init /\
      em_step Examples.km Examples.Xs Examples.st_init = Ok st1 /\
      new_partitions st1 = Some [0; 1] /\
      partitions st1 = (None, Some [0; 1]) /\
      em_step Examples.km Examples.Xs st1 = Ok st2 /\
      snd (centroids st2) = Some [[nan]; [nan]; [nan]; [nan]] /\
      m_step 2 Examples.X1 (new_partitions st1) = Ok [[of_Z 0]; [of_Z 10]]).
Proof.
  split.
  - intros self Xs patience g st0 st Hinit Hreach.
    pose proof (KMeansLoop.loop_inv_init self Xs patience g st0 Hinit) as Hinv0.
    pose proof (KMeansLoop.loop_inv_iterates self Xs patience st0 st0 st Hinv0 Hreach) as Hinv.
    destruct (KMeansLoop.fit_init_spec self Xs g st0 Hinit) as (_ & _ & _ & Hp & _).
    rewrite (inv_parts _ _ _ _ _ Hinv). split; [reflexivity | exact Hp].
  - do 2 eexists. run_conj.
Qed.

(** [fit] reads [_k] and [_max_iter] of the instance, and nothing else. *)
Lemma em_loop_random_state c k rs rs' mi (Xs : views) (patience : Z) (fuel : nat) :
  forall st,
    em_loop fuel (mk c k rs mi) Xs patience st = em_loop fuel (mk c k rs' mi) Xs patience st.
Proof.
  induction fuel as [| fuel IH]; intros st; simpl;
    change (guard (mk c k rs mi) patience st) with (guard (mk c k rs' mi) patience st);
    destruct (guard (mk c k rs' mi) patience st); try reflexivity.
  change (em_step (mk c k rs mi) Xs st) with (em_step (mk c k rs' mi) Xs st).
  destruct (em_step (mk c k rs' mi) Xs st); [apply IH | reflexivity].
Qed.

(** C2 (the code departs from the claim): [fit] never reads
    [_random_state]: the centroids it stores and the generator state it
    leaves are the same for every value of that attribute, and its draw
    comes from the state of the global generator.  The instance
    [KMeans(k=2, random_state=42)] fitted twice in a row on the example
    input ends with different centroids for view 1. *)
Theorem seeded_fit_runs_differ :
  (forall c k rs rs' mi Xs patience g fuel,
      centroids_of (fst (fit (mk c k rs mi) Xs patience g fuel))
      = centroids_of (fst (fit (mk c k rs' mi) Xs patience g fuel))) /\
  (exists s1 s2 c1 c2,
      _random_state Examples.km = Some 42%Z /\
      fst (fit Examples.km Examples.Xs 5 Examples.g_0110 10) = Some (Ok s1) /\
      fst (fit s1 Examples.Xs 5 (snd (fit Examples.km Examples.Xs 5 Examples.g_0110 10)) 10)
      = Some (Ok s2) /\
      _random_state s1 = Some 42%Z /\
      _centroids s1 = Some (Some [[of_Z 1]; [of_Z 2]], c1) /\
      _centroids s2 = Some (Some [[of_Z 2]; [of_Z 1]], c2)).
Proof.
  split.
  - intros c k rs rs' mi Xs patience g fuel. unfold fit.
    change (fit_init (mk c k rs mi) Xs g) with (fit_init (mk c k rs' mi) Xs g).
    destruct (fit_init (mk c k rs' mi) Xs g) as [[st0|cl m] g']; cbn [fst]; [| reflexivity].
    rewrite (em_loop_random_state c k rs rs' mi Xs patience fuel st0).
    destruct (em_loop fuel (mk c k rs' mi) Xs patience st0) as [[st|cl m]|]; reflexivity.
  - do 4 eexists. run_conj.
Qed.

(** C7 (the code departs from the claim): [fit_predict] runs [fit] with the
    default patience whatever patience it is given.  With patience 0,
    [fit(Xs, 0)] returns before any M-step and [predict] then fails on the
    missing centroids of view 1, while [fit_predict(Xs, 0)] returns labels. *)
Theorem fit_predict_ignores_patience :
  (forall self Xs patience g fuel,
      fit_predict self Xs patience g fuel = fit_then_predict self Xs 5 g fuel) /\
  (exists s, fst (fit_predict Examples.km Examples.Xs 0 Examples.g_0110 10)
             = Some (Ok (s, [1; 1]))) /\
  fst (fit_then_predict Examples.km Examples.Xs 0 Examples.g_0110 10)
  = Some (Raise TypeError "'NoneType' object is not subscriptable").
Proof.
  split; [reflexivity | split].
  - eexists. vm_compute. reflexivity.
  - vm_compute. reflexivity.
Qed.

(** C10: there is an input on which a cluster gets no sample.  With both
    initial centroids drawn on row 0 of the example, view 2's partition
    assigns every sample to cluster 0; the M-step of the first iteration
    selects no row for cluster 1, its mean is 0.0 / 0 = NaN, the centroids
    of view 1 are stored with that NaN, and [fit] returns without raising. *)
Theorem empty_cluster_gives_nan_centroid :
  exists st0 st1 s c1,
    fst (fit_init Examples.km Examples.Xs Examples.g_00) = Ok st0 /\
    snd (partitions st0) = Some [0; 0] /\
    getitem_mask Examples.X0 (eq_mask (snd (partitions st0)) 1) = Ok (SelRows 1 []) /\
    mean_axis0 (SelRows 1 []) = Arr1 [div zero (of_nat 0)] /\
    div zero (of_nat 0) = nan /\
    em_step Examples.km Examples.Xs st0 = Ok st1 /\
    fst (centroids st1) = Some [[div (of_Z 3) (of_Z 2)]; [nan]] /\
    fst (fit Examples.km Examples.Xs 5 Examples.g_00 10) = Some (Ok s) /\
    _centroids s = Some (Some [[div (of_Z 3) (of_Z 2)]; [nan]], c1).
Proof.
  do 4 eexists. run_conj.
Qed.

(* ===================================================================== *)
(** * Initial centroids *)
(* ===================================================================== *)

Lemma map_nth_seq {A : Type} (l : list A) (d : A) :
  map (fun i => nth i l d) (seq 0 (length l)) = l.
Proof.
  apply (nth_ext _ _ d d).
  - now rewrite length_map, length_seq.
  - intros i Hi. rewrite length_map, length_seq in Hi.
    rewrite (nth_indep _ _ (nth 0 l d)) by now rewrite length_map, length_seq.
    change (nth 0 l d) with ((fun i => nth i l d) 0).
    rewrite map_nth, seq_nth by exact Hi. reflexivity.
Qed.

(** C3, as the code has it: for every input whose second view has at least
    [k] samples, the initialization draws [k] row indices below the number
    of samples from the global generator, with replacement: any sequence of
    [k] such indices, repeats included, is the draw of some generator
    state.  The initial centroids of view 2 are the rows of view 2 at the
    drawn indices. *)
Theorem init_centers_draws_rows (Xs : views) (k : nat) (g : rng) :
  k <= nrows (snd Xs) ->
  (exists indices,
      fst (init_centers Xs k g) = Ok (indices, take_rows (snd Xs) indices) /\
      length indices = k /\
      Forall (fun i => i < nrows (snd Xs)) indices /\
      Forall (fun c => In c (snd Xs)) (take_rows (snd Xs) indices) /\
      forall self st0,
        _k self = k -> fst (fit_init self Xs g) = Ok st0 ->
        centroids st0 = (None, Some (take_rows (snd Xs) indices))) /\
  (forall l,
      length l = k -> Forall (fun i => i < nrows (snd Xs)) l ->
      fst (init_centers Xs k (stream_of l)) = Ok (l, take_rows (snd Xs) l)).
Proof.
  intros Hk. unfold init_centers, choice.
  assert (Hsel : (nrows (snd Xs) =? 0) && negb (k =? 0) = false).
  { destruct (Nat.eqb_spec (nrows (snd Xs)) 0) as [E|E]; [| reflexivity].
    assert (k = 0) by lia. subst k. reflexivity. }
  rewrite Hsel. cbn [fst bind]. split.
  - set (indices := map (fun i => g i mod nrows (snd Xs)) (seq 0 k)).
    assert (Hlt : Forall (fun i => i < nrows (snd Xs)) indices).
    { apply Forall_forall. intros i Hi. apply in_map_iff in Hi.
      destruct Hi as (j & <- & Hj). apply in_seq in Hj.
      apply Nat.mod_upper_bound. lia. }
    exists indices. split; [reflexivity |]. split; [| split; [exact Hlt | split]].
    + unfold indices. now rewrite length_map, length_seq.
    + apply Forall_forall. intros c Hc. apply in_map_iff in Hc.
      destruct Hc as (i & <- & Hi). apply nth_In.
      rewrite Forall_forall in Hlt. exact (Hlt i Hi).
    + intros self st0 Hself. unfold fit_init, init_centers, choice.
      rewrite Hself, Hsel. cbn [fst snd bind]. fold indices.
      destruct (_compute_distance self (snd Xs) (Some (take_rows (snd Xs) indices)))
        as [D|c m]; cbn [bind]; [| discriminate].
      intros H. inversion H. reflexivity.
  - intros l Hl Hlt. f_equal.
    assert (E : map (fun i => stream_of l i mod nrows (snd Xs)) (seq 0 k) = l).
    { transitivity (map (fun i => nth i l 0) (seq 0 (length l))); [| apply map_nth_seq].
      rewrite Hl. apply map_ext_in. intros i Hi. apply in_seq in Hi.
      unfold stream_of. apply Nat.mod_small.
      rewrite Forall_forall in Hlt. apply Hlt. apply nth_In. lia. }
    rewrite E. reflexivity.
Qed.

Lemma init_centers_draws_rows_witness :
  2 <= nrows (snd Examples.Xs) /\
  ((exists indices,
       fst (init_centers Examples.Xs 2 Examples.g_0110)
       = Ok (indices, take_rows (snd Examples.Xs) indices) /\
       length indices = 2 /\
       Forall (fun i => i < nrows (snd Examples.Xs)) indices /\
       Forall (fun c => In c (snd Examples.Xs)) (take_rows (snd Examples.Xs) indices) /\
       forall self st0,
         _k self = 2 -> fst (fit_init self Examples.Xs Examples.g_0110) = Ok st0 ->
         centroids st0 = (None, Some (take_rows (snd Examples.Xs) indices))) /\
   (forall l,
       length l = 2 -> Forall (fun i => i < nrows (snd Examples.Xs)) l ->
       fst (init_centers Examples.Xs 2 (stream_of l))
       = Ok (l, take_rows (snd Examples.Xs) l))).
Proof.
  split.
  - simpl. lia.
  - apply (init_centers_draws_rows Examples.Xs 2 Examples.g_0110). simpl. lia.
Defined.

(** C3 fails as stated: the second view of the example has two samples and
    [k] is 2, and the generator that yields 0 twice makes the
    initialization draw row 0 twice: the indices are not distinct and the
    two initial centroids are the same row. *)
Lemma init_indices_can_repeat :
  2 <= nrows (snd Examples.Xs) /\
  fst (init_centers Examples.Xs 2 Examples.g_00) = Ok ([0; 0], [[of_Z 0]; [of_Z 0]]) /\
  ~ NoDup [0; 0].
Proof.
  split; [simpl; lia | split; [vm_compute; reflexivity |]].
  intros H. inversion H as [| x l Hin _]; subst. apply Hin. left. reflexivity.
Qed.

(* ===================================================================== *)
(** * The constructor and the guards of [KCCA] *)
(* ===================================================================== *)

Module KCCAFacts.
Import KCCA.

Lemma orM_ok (a b : result bool) (x : bool) :
  orM a b = Ok x ->
  (a = Ok true /\ x = true) \/ (a = Ok false /\ b = Ok x).
Proof.
  unfold orM, bind. destruct a as [[|]|c m]; intros H; try discriminate.
  - left. split; congruence.
  - right. split; congruence.
Qed.

Lemma orM_raise (a b : result bool) cls msg :
  orM a b = Raise cls msg ->
  a = Raise cls msg \/ b = Raise cls msg.
Proof.
  unfold orM, bind. destruct a as [[|]|c m]; intros H; try discriminate; auto.
Qed.

Lemma lt_int_class v n cls msg : lt_int v n = Raise cls msg -> cls = TypeError.
Proof. destruct v; simpl; intros H; inversion H; reflexivity. Qed.

Lemma gt_int_class v n cls msg : gt_int v n = Raise cls msg -> cls = TypeError.
Proof. destruct v; simpl; intros H; inversion H; reflexivity. Qed.

Lemma init_accepts n kt c s d r dc m self :
  __init__ n kt c s d r dc m = Ok self ->
  negative n = false /\ type_is_int n = true /\
  known_kernel kt = true /\
  negative s = false /\
  negative r = false /\ above_one r = false /\ type_is_float r = true /\
  negative c = false.
Proof.
  unfold __init__, bind, negative, above_one, known_kernel, ne_str.
  destruct (orM (lt_int n 0) (Ok (negb (type_is_int n)))) as [[|]|? ?] eqn:E1; try discriminate.
  destruct (negb (eq_str kt "linear") && negb (eq_str kt "poly") && negb (eq_str kt "gaussian")) eqn:E2;
    try discriminate.
  destruct (orM (lt_int s 0) (Ok (negb (type_is_float s || type_is_int s)))) as [[|]|? ?] eqn:E3;
    try discriminate.
  destruct (negb (type_is_float d || type_is_int s)) eqn:E4; try discriminate.
  destruct (orM (lt_int r 0) (orM (gt_int r 1) (Ok (negb (type_is_float r))))) as [[|]|? ?] eqn:E5;
    try discriminate.
  destruct (orM (lt_int c 0) (Ok (negb (type_is_float c || type_is_int c)))) as [[|]|? ?] eqn:E6;
    try discriminate.
  intros _.
  apply orM_ok in E1, E3, E5, E6.
  destruct E1 as [[_ E1]|[E1 E1']]; [discriminate |].
  destruct E3 as [[_ E3]|[E3 E3']]; [discriminate |].
  destruct E5 as [[_ E5]|[E5 E5']]; [discriminate |].
  destruct E6 as [[_ E6]|[E6 E6']]; [discriminate |].
  apply orM_ok in E5'. destruct E5' as [[_ E5']|[E5' E5'']]; [discriminate |].
  rewrite E1, E3, E5, E5', E6.
  injection E1' as H0. injection E5'' as H1.
  repeat split; try reflexivity.
  - now destruct (type_is_int n).
  - revert E2. destruct (eq_str kt "linear"), (eq_str kt "poly"), (eq_str kt "gaussian");
      simpl; congruence.
  - now destruct (type_is_float r).
Qed.

Lemma init_error_class n kt c s d r dc m cls msg :
  __init__ n kt c s d r dc m = Raise cls msg ->
  cls = ValueError \/ cls = TypeError.
Proof.
  unfold __init__, bind.
  destruct (orM (lt_int n 0) (Ok (negb (type_is_int n)))) as [[|]|? ?] eqn:E1;
    [intros H; inversion H; auto | |
     intros H; inversion H; subst; apply orM_raise in E1; destruct E1 as [E|E];
     [right; eapply lt_int_class; exact E | discriminate E]].
  destruct (ne_str kt "linear" && ne_str kt "poly" && ne_str kt "gaussian");
    [intros H; inversion H; auto |].
  destruct (orM (lt_int s 0) (Ok (negb (type_is_float s || type_is_int s)))) as [[|]|? ?] eqn:E3;
    [intros H; inversion H; auto | |
     intros H; inversion H; subst; apply orM_raise in E3; destruct E3 as [E|E];
     [right; eapply lt_int_class; exact E | discriminate E]].
  destruct (negb (type_is_float d || type_is_int s)); [intros H; inversion H; auto |].
  destruct (orM (lt_int r 0) (orM (gt_int r 1) (Ok (negb (type_is_float r))))) as [[|]|? ?] eqn:E5;
    [intros H; inversion H; auto | |
     intros H; inversion H; subst; apply orM_raise in E5; destruct E5 as [E|E];
     [right; eapply lt_int_class; exact E |
      apply orM_raise in E; destruct E as [E|E];
      [right; eapply gt_int_class; exact E | discriminate E]]].
  destruct (orM (lt_int c 0) (Ok (negb (type_is_float c || type_is_int c)))) as [[|]|? ?] eqn:E6;
    [intros H; inversion H; auto | discriminate |
     intros H; inversion H; subst; apply orM_raise in E6; destruct E6 as [E|E];
     [right; eapply lt_int_class; exact E | discriminate E]].
Qed.

Lemma lt_int_number v n cls msg : lt_int v n = Raise cls msg -> is_number v = false.
Proof. destruct v; simpl; intros H; try discriminate H; reflexivity. Qed.

Lemma gt_int_number v n cls msg : gt_int v n = Raise cls msg -> is_number v = false.
Proof. destruct v; simpl; intros H; try discriminate H; reflexivity. Qed.

(** Only an argument that is no number makes the constructor end with a
    [TypeError]. *)
Lemma init_type_error n kt c s d r dc m msg :
  __init__ n kt c s d r dc m = Raise TypeError msg ->
  is_number n && is_number s && is_number r && is_number c = false.
Proof.
  unfold __init__, bind.
  destruct (orM (lt_int n 0) (Ok (negb (type_is_int n)))) as [[|]|? ?] eqn:E1;
    [intros H; discriminate H | |
     intros H; apply orM_raise in E1; destruct E1 as [E|E]; [| discriminate E];
     rewrite (lt_int_number _ _ _ _ E); reflexivity].
  destruct (ne_str kt "linear" && ne_str kt "poly" && ne_str kt "gaussian");
    [intros H; discriminate H |].
  destruct (orM (lt_int s 0) (Ok (negb (type_is_float s || type_is_int s)))) as [[|]|? ?] eqn:E3;
    [intros H; discriminate H | |
     intros H; apply orM_raise in E3; destruct E3 as [E|E]; [| discriminate E];
     rewrite (lt_int_number _ _ _ _ E); now rewrite andb_false_r].
  destruct (negb (type_is_float d || type_is_int s)); [intros H; discriminate H |].
  destruct (orM (lt_int r 0) (orM (gt_int r 1) (Ok (negb (type_is_float r))))) as [[|]|? ?] eqn:E5;
    [intros H; discriminate H | |
     intros H; apply orM_raise in E5; destruct E5 as [E|E];
     [rewrite (lt_int_number _ _ _ _ E) |
      apply orM_raise in E; destruct E as [E|E]; [| discriminate E];
      rewrite (gt_int_number _ _ _ _ E)];
     now rewrite andb_false_r].
  destruct (orM (lt_int c 0) (Ok (negb (type_is_float c || type_is_int c)))) as [[|]|? ?] eqn:E6;
    [intros H; discriminate H | discriminate |
     intros H; apply orM_raise in E6; destruct E6 as [E|E]; [| discriminate E];
     rewrite (lt_int_number _ _ _ _ E); now rewrite andb_false_r].
Qed.

(** The constructor looks at neither [decomp] nor [method]. *)
Lemma init_ignores_decomp n kt c s d r dc m dc' m' :
  is_ok (__init__ n kt c s d r dc m) = is_ok (__init__ n kt c s d r dc' m').
Proof.
  unfold __init__, bind.
  destruct (orM (lt_int n 0) (Ok (negb (type_is_int n)))) as [[|]|? ?]; try reflexivity.
  destruct (ne_str kt "linear" && ne_str kt "poly" && ne_str kt "gaussian"); try reflexivity.
  destruct (orM (lt_int s 0) (Ok (negb (type_is_float s || type_is_int s)))) as [[|]|? ?];
    try reflexivity.
  destruct (negb (type_is_float d || type_is_int s)); try reflexivity.
  destruct (orM (lt_int r 0) (orM (gt_int r 1) (Ok (negb (type_is_float r))))) as [[|]|? ?];
    try reflexivity.
  destruct (orM (lt_int c 0) (Ok (negb (type_is_float c || type_is_int c)))) as [[|]|? ?];
    reflexivity.
Qed.

End KCCAFacts.

(** C5, as the code has it: the constructor raises for a negative
    [n_components], an unknown kernel name, a negative [sigma], a [reg]
    below 0 or above 1, and a negative [constant]: with a [ValueError], or
    with a [TypeError] when [n_components], [sigma], [reg] or [constant] is
    no number.  Whether it raises does not depend on [decomp] or [method],
    which it does not check. *)
Theorem constructor_rejects_invalid :
  (forall n kt c s d r dc m : KCCA.pyval,
      KCCA.negative n = true \/ KCCA.known_kernel kt = false \/
      KCCA.negative s = true \/ KCCA.negative r = true \/ KCCA.above_one r = true \/
      KCCA.negative c = true ->
      exists cls msg,
        KCCA.__init__ n kt c s d r dc m = Raise cls msg /\
        (cls = ValueError \/ cls = TypeError) /\
        (KCCA.is_number n && KCCA.is_number s && KCCA.is_number r && KCCA.is_number c = true ->
         cls = ValueError)) /\
  (forall n kt c s d r dc m dc' m' : KCCA.pyval,
      is_ok (KCCA.__init__ n kt c s d r dc m) = is_ok (KCCA.__init__ n kt c s d r dc' m')).
Proof.
  split; [| exact KCCAFacts.init_ignores_decomp].
  intros n kt c s d r dc m Hbad.
  destruct (KCCA.__init__ n kt c s d r dc m) as [self|cls msg] eqn:E.
  - exfalso.
    destruct (KCCAFacts.init_accepts _ _ _ _ _ _ _ _ _ E)
      as (Hn & _ & Hk & Hs & Hr & Hr1 & _ & Hc).
    destruct Hbad as [H|[H|[H|[H|[H|H]]]]]; congruence.
  - exists cls, msg. split; [reflexivity |].
    pose proof (KCCAFacts.init_error_class _ _ _ _ _ _ _ _ _ _ E) as Hcls.
    split; [exact Hcls |].
    intros Hnum. destruct Hcls as [->| ->]; [reflexivity |].
    rewrite (KCCAFacts.init_type_error _ _ _ _ _ _ _ _ _ E) in Hnum. discriminate Hnum.
Qed.

Lemma constructor_rejects_invalid_witness :
  KCCA.negative (KCCA.PyInt (-1)) = true /\
  exists cls msg,
    KCCA.__init__ (KCCA.PyInt (-1)) (KCCA.PyStr "linear") (KCCA.PyFloat Examples.f0_1)
                  (KCCA.PyFloat (of_Z 1)) (KCCA.PyFloat (of_Z 2)) (KCCA.PyFloat Examples.f0_1)
                  (KCCA.PyStr "full") (KCCA.PyStr "kettenring-like")
    = Raise cls msg /\
    (cls = ValueError \/ cls = TypeError) /\
    (KCCA.is_number (KCCA.PyInt (-1)) && KCCA.is_number (KCCA.PyFloat (of_Z 1))
     && KCCA.is_number (KCCA.PyFloat Examples.f0_1)
     && KCCA.is_number (KCCA.PyFloat Examples.f0_1) = true ->
     cls = ValueError).
Proof.
  split; [reflexivity |].
  apply (proj1 constructor_rejects_invalid). left. reflexivity.
Defined.

(** C5 fails as stated: the constructor accepts the decomposition name
    "bogus", and the error comes from [fit], which finds [R] unbound once
    the views have passed the validation; the constructor also accepts the
    degree -1.0. *)
Lemma constructor_accepts_unknown_decomposition :
  Examples.kcca_bogus_decomp = Ok Examples.kcca_bogus /\
  (forall check_Xs euclidean_distances fpow fexp eig argsort cdiv,
      check_Xs [Examples.X0; Examples.X1] = Ok [Examples.X0; Examples.X1] ->
      KCCA.fit check_Xs euclidean_distances fpow fexp eig argsort cdiv
               Examples.kcca_bogus [Examples.X0; Examples.X1]
      = Raise UnboundLocalError "local variable 'R' referenced before assignment") /\
  is_ok Examples.kcca_negative_degree = true.
Proof.
  split; [vm_compute; reflexivity | split; [| vm_compute; reflexivity]].
  intros check_Xs euclidean_distances fpow fexp eig argsort cdiv Hcheck.
  unfold KCCA.fit. rewrite Hcheck. vm_compute. reflexivity.
Qed.

(** C4, as the code has it: on an instance without [weights_],
    [KCCA.transform] raises its not-trained [NameError] before it looks at
    its input.  [KMeans.predict] has no guard: on an instance without
    centroids for view 1 it never returns labels; it ends with the
    [TypeError] of subscripting [None] at the first distance it computes,
    or, for [k = 0], with the [ValueError] of stacking no consensus
    centroid. *)
Theorem untrained_calls_raise
        (check_Xs : list matrix -> result (list matrix))
        (euclidean_distances : matrix -> matrix -> result matrix)
        (fpow : num -> num -> num) (fexp : num -> num)
        (kc : KCCA.t) (Ys : list matrix) (self : t) (Xs : views) :
  KCCA.weights_ kc = None ->
  untrained self = true ->
  KCCA.transform check_Xs euclidean_distances fpow fexp kc Ys
  = Raise NameError "kCCA has not been trained." /\
  predict self Xs
  = (if _k self =? 0
     then Raise ValueError "need at least one array to concatenate"
     else Raise TypeError "'NoneType' object is not subscriptable").
Proof.
  intros Hw Hu. split.
  - unfold KCCA.transform. rewrite Hw. reflexivity.
  - unfold predict. destruct (_k self) as [| k'] eqn:Ek; [reflexivity |].
    cbn [Nat.eqb seq mapM]. unfold untrained in Hu. unfold consensus at 1. unfold centroids_at.
    destruct (_centroids self) as [[[c0|] c1]|]; try discriminate Hu; cbn [bind get2 Z.eqb fst].
    + unfold _compute_distance. rewrite Ek. reflexivity.
    + reflexivity.
Qed.

Lemma untrained_calls_raise_witness :
  KCCA.weights_ Examples.kcca_bogus = None /\
  untrained Examples.km_unfit = true /\
  KCCA.transform (fun Ys => Ok Ys) (fun _ _ => Ok []) (fun x _ => x) (fun x => x)
                 Examples.kcca_bogus [Examples.X0; Examples.X1]
  = Raise NameError "kCCA has not been trained." /\
  predict Examples.km_unfit Examples.Xs
  = (if _k Examples.km_unfit =? 0
     then Raise ValueError "need at least one array to concatenate"
     else Raise TypeError "'NoneType' object is not subscriptable").
Proof.
  split; [reflexivity | split; [reflexivity |]].
  apply (untrained_calls_raise (fun Ys => Ok Ys) (fun _ _ => Ok []) (fun x _ => x) (fun x => x)
                               Examples.kcca_bogus [Examples.X0; Examples.X1]
                               Examples.km_unfit Examples.Xs); reflexivity.
Defined.

(** C4 fails as stated: [predict] on the unfitted [KMeans(k=2)] ends with
    a [TypeError] raised by the interpreter, which is no not-trained error
    ([KCCA] signals that one with a [NameError]). *)
Lemma unfit_predict_raises_type_error :
  _centroids Examples.km_unfit = None /\
  predict Examples.km_unfit Examples.Xs
  = Raise TypeError "'NoneType' object is not subscriptable" /\
  forall msg, predict Examples.km_unfit Examples.Xs <> Raise NameError msg.
Proof.
  split; [reflexivity | split; [vm_compute; reflexivity |]].
  intros msg H. vm_compute in H. discriminate H.
Qed.

(* ===================================================================== *)
(** * [KMeans.predict] *)
(* ===================================================================== *)

Module ArgminFacts.
Import F64Facts.

(** The scan of [argmin] keeps the index of an entry no entry seen so far
    is below; a NaN ends it. *)
Lemma argmin_from_spec (l : vec) :
  forall (pre : vec) (best : num) (bi : nat),
    bi < length pre ->
    best = nth bi (pre ++ l) nan ->
    (forall c, c < length pre -> ltb (nth c (pre ++ l) nan) best = false) ->
    (is_nan best = true \/ forall c, c < length pre -> is_nan (nth c (pre ++ l) nan) = false) ->
    argmin_from best bi (length pre) l < length (pre ++ l) /\
    (forall c, c < length (pre ++ l) ->
               ltb (nth c (pre ++ l) nan) (nth (argmin_from best bi (length pre) l) (pre ++ l) nan)
               = false) /\
    (is_nan (nth (argmin_from best bi (length pre) l) (pre ++ l) nan) = true \/
     forall c, c < length (pre ++ l) -> is_nan (nth c (pre ++ l) nan) = false).
Proof.
  induction l as [| x t IH]; intros pre best bi Hbi Hbest Hlow Hnan.
  - simpl. rewrite app_nil_r in *. split; [exact Hbi | split].
    + intros c Hc. rewrite <- Hbest. apply Hlow. exact Hc.
    + rewrite <- Hbest. exact Hnan.
  - simpl. destruct (is_nan best) eqn:Eb.
    + split; [rewrite length_app; lia | split].
      * intros c _. rewrite <- Hbest.
        destruct best; try discriminate Eb. apply ltb_nan_r.
      * left. rewrite <- Hbest. exact Eb.
    + assert (Hclean : forall c, c < length pre -> is_nan (nth c (pre ++ x :: t) nan) = false).
      { destruct Hnan as [H|H]; [discriminate H | exact H]. }
      assert (Hx : nth (length pre) (pre ++ x :: t) nan = x) by apply nth_middle.
      assert (Happ : pre ++ x :: t = (pre ++ [x]) ++ t) by now rewrite <- app_assoc.
      assert (Hlen : length (pre ++ [x]) = S (length pre)) by (rewrite length_app; simpl; lia).
      destruct (is_nan x || ltb x best) eqn:Ex.
      * specialize (IH (pre ++ [x]) x (length pre)).
        rewrite Hlen, <- Happ in IH. apply IH.
        -- lia.
        -- symmetry. exact Hx.
        -- intros c Hc. destruct (is_nan x) eqn:En.
           ++ destruct x; try discriminate En. apply ltb_nan_r.
           ++ simpl in Ex. destruct (Nat.eq_dec c (length pre)) as [->|Hne].
              ** rewrite Hx. apply ltb_irrefl.
              ** apply ltb_false_below with (b := best);
                   [apply Hclean; lia | apply Hlow; lia | exact Ex].
        -- destruct (is_nan x) eqn:En; [left; reflexivity | right].
           intros c Hc. destruct (Nat.eq_dec c (length pre)) as [->|Hne].
           ++ rewrite Hx. exact En.
           ++ apply Hclean. lia.
      * apply orb_false_iff in Ex. destruct Ex as [En El].
        specialize (IH (pre ++ [x]) best bi).
        rewrite Hlen, <- Happ in IH. apply IH.
        -- lia.
        -- exact Hbest.
        -- intros c Hc. destruct (Nat.eq_dec c (length pre)) as [->|Hne].
           ++ rewrite Hx. exact El.
           ++ apply Hlow. lia.
        -- right. intros c Hc. destruct (Nat.eq_dec c (length pre)) as [->|Hne].
           ++ rewrite Hx. exact En.
           ++ apply Hclean. lia.
Qed.

(** [argmin] of a non-empty array is an index of it, and no entry is
    below the entry at that index, which is NaN if any entry is. *)
Lemma argmin_spec (l : vec) :
  l <> [] ->
  argmin l < length l /\
  (forall c, c < length l -> ltb (nth c l nan) (nth (argmin l) l nan) = false) /\
  (is_nan (nth (argmin l) l nan) = true \/
   forall c, c < length l -> is_nan (nth c l nan) = false).
Proof.
  destruct l as [| x t]; [congruence | intros _].
  unfold argmin.
  apply (argmin_from_spec t [x] x 0).
  - simpl. lia.
  - reflexivity.
  - intros c Hc. simpl in Hc. assert (c = 0) by lia. subst c. simpl. apply ltb_irrefl.
  - destruct (is_nan x) eqn:En; [left; reflexivity | right].
    intros c Hc. simpl in Hc. assert (c = 0) by lia. subst c. exact En.
Qed.

End ArgminFacts.

Module ArrayFacts.
Import ArgminFacts.

Lemma mapM_ok {A B : Type} (f : A -> result B) (g : A -> B) (l : list A) :
  (forall x, In x l -> f x = Ok (g x)) -> mapM f l = Ok (map g l).
Proof.
  induction l as [| a l IH]; intros H; [reflexivity |].
  cbn [mapM map]. rewrite (H a) by (left; reflexivity). cbn [bind].
  rewrite IH by (intros x Hx; apply H; right; exact Hx). reflexivity.
Qed.

Lemma broadcast1_same {A B : Type} (f : A -> A -> B) (a b : list A) :
  length a = length b ->
  broadcast1 f a b = Ok (map (fun p => f (fst p) (snd p)) (combine a b)).
Proof. intros H. unfold broadcast1. rewrite H, Nat.eqb_refl. reflexivity. Qed.

Lemma nth_map_seq {A : Type} (f : nat -> A) (k c : nat) (d : A) :
  c < k -> nth c (map f (seq 0 k)) d = f c.
Proof.
  intros H. rewrite (nth_indep _ d (f 0)) by now rewrite length_map, length_seq.
  rewrite map_nth, seq_nth by exact H. reflexivity.
Qed.

Lemma combine_map_seq {A B : Type} (f : nat -> A) (g : nat -> B) (s : list nat) :
  combine (map f s) (map g s) = map (fun x => (f x, g x)) s.
Proof. induction s as [| x s IH]; [reflexivity |]. cbn. now rewrite IH. Qed.

Lemma combine_map2 {A B C D : Type} (f : A -> C) (g : B -> D) (a : list A) (b : list B) :
  combine (map f a) (map g b) = map (fun p => (f (fst p), g (snd p))) (combine a b).
Proof.
  revert b. induction a as [| x a IH]; intros [| y b]; try reflexivity.
  cbn. now rewrite IH.
Qed.

Lemma concat_rows (l : list vec) : concat (map atleast_2d (map Arr1 l)) = l.
Proof. induction l as [| x l IH]; [reflexivity |]. cbn. now rewrite IH. Qed.

Lemma vstack_rows (rows : list vec) :
  rows <> [] -> vstack (map Arr1 rows) = Ok rows.
Proof.
  destruct rows as [| r rows]; [congruence | intros _].
  unfold vstack. cbn [map]. f_equal. exact (concat_rows (r :: rows)).
Qed.

Lemma sub_rows_ok (X : matrix) (c : vec) :
  Forall (fun r => length r = length c) X ->
  sub_rows X c = Ok (map (fun r => map (fun p => sub (fst p) (snd p)) (combine r c)) X).
Proof.
  intros H. unfold sub_rows. apply mapM_ok. intros r Hr.
  apply broadcast1_same. rewrite Forall_forall in H. exact (H r Hr).
Qed.

(** The distances [_compute_distance] returns when the centroids have a
    row per cluster, of the width of the samples. *)
Lemma compute_distance_ok (self : t) (X : matrix) (centers : matrix) :
  1 <= _k self ->
  _k self <= length centers ->
  (forall cl, cl < _k self -> Forall (fun r => length r = length (nth cl centers [])) X) ->
  _compute_distance self X (Some centers)
  = Ok (map (fun cl => map (fun r => dist r (nth cl centers [])) X) (seq 0 (_k self))).
Proof.
  intros Hk Hlen Hw. unfold _compute_distance.
  rewrite (mapM_ok _ (fun cl => Arr1 (map (fun r => dist r (nth cl centers [])) X))).
  - cbn [bind]. rewrite <- map_map with (g := Arr1). apply vstack_rows.
    destruct (_k self); [lia | discriminate].
  - intros cl Hcl. apply in_seq in Hcl. unfold getitem_row.
    rewrite (nth_error_nth' centers []) by lia. cbn [bind].
    rewrite (sub_rows_ok X _ (Hw cl ltac:(lia))). cbn [bind].
    unfold norm_axis1. rewrite map_map. reflexivity.
Qed.

(** The labels [argmin_axis0] gives for a matrix of [k >= 1] rows of [n]
    entries. *)
Lemma argmin_axis0_spec (M : matrix) (k n : nat) :
  length M = k -> 1 <= k -> Forall (fun r => length r = n) M ->
  length (argmin_axis0 M) = n /\
  forall i l,
    nth_error (argmin_axis0 M) i = Some l ->
    l < k /\
    (forall c, c < k -> ltb (nth i (nth c M []) nan) (nth i (nth l M []) nan) = false) /\
    (is_nan (nth i (nth l M []) nan) = true \/
     forall c, c < k -> is_nan (nth i (nth c M []) nan) = false).
Proof.
  intros Hlen Hk Hrows.
  assert (Hn : ncols M = n).
  { destruct M as [| r M]; [simpl in Hlen; lia |]. inversion Hrows; subst. reflexivity. }
  unfold argmin_axis0. rewrite Hn. split; [now rewrite length_map, length_seq |].
  intros i l Hi.
  assert (Hin : i < n).
  { assert (H : nth_error (map (fun j => argmin (column M j)) (seq 0 n)) i <> None)
      by congruence.
    apply nth_error_Some in H. now rewrite length_map, length_seq in H. }
  rewrite nth_error_map, (nth_error_nth' _ 0) in Hi by now rewrite length_seq.
  rewrite seq_nth in Hi by exact Hin. cbn in Hi. injection Hi as <-.
  assert (Hcol : forall c, nth c (column M i) nan = nth i (nth c M []) nan).
  { intros c. unfold column.
    transitivity (nth c (map (fun r : vec => nth i r nan) M) ((fun r : vec => nth i r nan) [])).
    - f_equal. destruct i; reflexivity.
    - apply (map_nth (fun r : vec => nth i r nan)). }
  assert (Hne : column M i <> []).
  { unfold column. destruct M; [simpl in Hlen; lia | discriminate]. }
  assert (Hcl : length (column M i) = k) by (unfold column; now rewrite length_map).
  destruct (argmin_spec (column M i) Hne) as (Hlt & Hmin & Hnan).
  rewrite Hcl in Hlt, Hmin, Hnan.
  split; [exact Hlt | split].
  - intros c Hc. rewrite <- !Hcol. apply Hmin. exact Hc.
  - rewrite <- Hcol. destruct Hnan as [H|H]; [left; exact H | right].
    intros c Hc. rewrite <- Hcol. apply H. exact Hc.
Qed.

End ArrayFacts.

Module PredictFacts.
Import ArgminFacts ArrayFacts.

Lemma shape_inv (X : matrix) (n d : nat) :
  shape X n d = true -> length X = n /\ Forall (fun r => length r = d) X.
Proof.
  unfold shape, nrows. intros H. apply andb_prop in H. destruct H as [Hn Hr].
  apply Nat.eqb_eq in Hn. split; [exact Hn |].
  apply Forall_forall. intros r Hin. rewrite forallb_forall in Hr.
  apply Nat.eqb_eq. exact (Hr r Hin).
Qed.

Lemma fitted_inv (self : t) (d0 d1 : nat) :
  fitted self d0 d1 = true ->
  exists c0 c1,
    _centroids self = Some (Some c0, Some c1) /\
    1 <= _k self /\ _k self <= length c0 /\ _k self <= length c1 /\
    Forall (fun r => length r = d0) c0 /\ Forall (fun r => length r = d1) c1.
Proof.
  unfold fitted, nrows. destruct (_centroids self) as [[[c0|] [c1|]]|]; try discriminate.
  intros H. repeat (apply andb_prop in H; destruct H as [H ?]).
  exists c0, c1. split; [reflexivity |].
  repeat split; try (apply Nat.leb_le; assumption);
    apply Forall_forall; intros r Hin; apply Nat.eqb_eq;
    match goal with Hf : forallb _ ?c = true |- _ =>
      match type of Hin with In _ c => rewrite forallb_forall in Hf; exact (Hf r Hin) end
    end.
Qed.

Lemma ncols_rows (X : matrix) (d : nat) (r : vec) :
  Forall (fun r => length r = d) X -> In r X -> ncols X = d.
Proof. destruct X as [| x X]; [contradiction |]. intros H _. inversion H; subst. reflexivity. Qed.

(** The distance matrix of a view to centroids of its width, and the
    partition read off it. *)
Lemma distances_ok (self : t) (X c : matrix) (n d : nat) :
  1 <= _k self -> _k self <= length c ->
  Forall (fun r => length r = d) c ->
  length X = n -> Forall (fun r => length r = d) X ->
  exists D,
    _compute_distance self X (Some c) = Ok D /\
    nearest self X (Some c) = Ok (argmin_axis0 D) /\
    length (argmin_axis0 D) = n.
Proof.
  intros Hk Hlen Hc Hn HX.
  assert (HD : _compute_distance self X (Some c)
               = Ok (map (fun cl => map (fun r => dist r (nth cl c [])) X) (seq 0 (_k self)))).
  { apply compute_distance_ok; try assumption.
    intros cl Hcl. apply Forall_forall. intros r Hr.
    rewrite Forall_forall in HX, Hc. rewrite (HX r Hr). symmetry. apply Hc.
    apply nth_In. lia. }
  eexists. split; [exact HD |]. split; [unfold nearest; rewrite HD; reflexivity |].
  apply (argmin_axis0_spec _ (_k self) n).
  - now rewrite length_map, length_seq.
  - exact Hk.
  - apply Forall_forall. intros r Hr. apply in_map_iff in Hr.
    destruct Hr as (cl & <- & _). now rewrite length_map.
Qed.

End PredictFacts.

Module FitFacts.
Import F64Facts ArgminFacts ArrayFacts PredictFacts.

Lemma mapM_inv {A B : Type} (f : A -> result B) (l : list A) :
  forall ys, mapM f l = Ok ys ->
             length ys = length l /\ forall y, In y ys -> exists x, In x l /\ f x = Ok y.
Proof.
  induction l as [| a l IH]; intros ys H.
  - injection H as <-. split; [reflexivity | intros y []].
  - cbn [mapM] in H. destruct (f a) as [b|? ?] eqn:Ea; [| discriminate H]. cbn [bind] in H.
    destruct (mapM f l) as [bs|? ?]; [| discriminate H]. cbn [bind] in H.
    injection H as <-. destruct (IH bs eq_refl) as [Hlen Hin].
    split; [simpl; now rewrite Hlen |].
    intros y [<-|Hy].
    + exists a. split; [left; reflexivity | exact Ea].
    + destruct (Hin y Hy) as (x & Hx & Hfx). exists x. split; [right; exact Hx | exact Hfx].
Qed.

Lemma concat_blocks (d : nat) (blocks : list matrix) :
  (forall b, In b blocks -> 1 <= length b /\ Forall (fun r => length r = d) b) ->
  length blocks <= length (concat blocks) /\ Forall (fun r => length r = d) (concat blocks).
Proof.
  induction blocks as [| b bs IH]; intros H; [split; [simpl; lia | constructor] |].
  destruct (H b (or_introl eq_refl)) as [Hb1 Hb2].
  destruct (IH (fun b' Hb' => H b' (or_intror Hb'))) as [Hl Hf].
  cbn [concat]. split.
  - rewrite length_app. simpl. lia.
  - apply Forall_app. split; assumption.
Qed.

(** The centroids an M-step returns: at least a row per cluster, of the
    width of the view. *)
Lemma m_step_shape (k : nat) (X : matrix) (part : option (list nat)) (cents : matrix) (d : nat) :
  m_step k X part = Ok cents ->
  1 <= length X -> Forall (fun r => length r = d) X ->
  1 <= k /\ good k d cents.
Proof.
  unfold m_step. intros H Hn HX.
  destruct (mapM _ (seq 0 k)) as [blocks|? ?] eqn:Em; [| discriminate H]. cbn [bind] in H.
  destruct (mapM_inv _ _ _ Em) as [Hlen Hin]. rewrite length_seq in Hlen.
  unfold vstack in H. destruct blocks as [| b0 bs] eqn:Eb; [discriminate H |].
  rewrite <- Eb in *. injection H as <-.
  assert (Hk : 1 <= k) by (rewrite <- Hlen, Eb; simpl; lia).
  split; [exact Hk |].
  destruct (concat_blocks d (map atleast_2d blocks)) as [Hl Hf].
  - intros b Hb. apply in_map_iff in Hb. destruct Hb as (a & <- & Ha).
    destruct (Hin a Ha) as (cl & _ & Hcl).
    destruct (getitem_mask X (eq_mask part cl)) as [s|? ?] eqn:Es; [| discriminate Hcl].
    cbn [bind] in Hcl. injection Hcl as <-.
    unfold getitem_mask in Es. destruct (eq_mask part cl) as [b|].
    + destruct (length b =? nrows X); [| discriminate Es]. injection Es as <-.
      cbn [mean_axis0 atleast_2d]. split; [simpl; lia |].
      constructor; [| constructor]. unfold mean_rows. rewrite length_map, length_seq.
      destruct X as [| r X']; [simpl in Hn; lia |]. inversion HX; subst. reflexivity.
    + injection Es as <-. cbn [mean_axis0 atleast_2d]. split; [now rewrite length_map |].
      apply Forall_forall. intros r Hr. apply in_map_iff in Hr. destruct Hr as (r0 & <- & Hr0).
      rewrite length_map. rewrite Forall_forall in HX. exact (HX r0 Hr0).
  - rewrite length_map, Hlen in Hl. split; assumption.
Qed.

(** The state [fit] enters the loop with holds centroids for view 2 only:
    [k >= 1] rows of view 2. *)
Lemma fit_init_shape (self : t) (Xs : views) (g : rng) (st0 : locals) (n d1 : nat) :
  fst (fit_init self Xs g) = Ok st0 ->
  length (snd Xs) = n -> Forall (fun r => length r = d1) (snd Xs) ->
  1 <= _k self /\ 1 <= n /\
  exists c1, centroids st0 = (None, Some c1) /\ good (_k self) d1 c1.
Proof.
  unfold fit_init, init_centers, choice, nrows. intros H Hn HX.
  destruct ((length (snd Xs) =? 0) && negb (_k self =? 0)) eqn:Ez;
    cbn [fst bind] in H; [discriminate H |].
  cbn [snd] in H.
  set (indices := map (fun i => g i mod length (snd Xs)) (seq 0 (_k self))) in *.
  destruct (_compute_distance self (snd Xs) (Some (take_rows (snd Xs) indices)))
    as [D|? ?] eqn:ED; [| discriminate H].
  cbn [bind] in H. injection H as <-. cbn [centroids].
  assert (Hk : 1 <= _k self).
  { unfold _compute_distance in ED. destruct (_k self); [discriminate ED | lia]. }
  assert (Hn1 : 1 <= n).
  { apply andb_false_iff in Ez. destruct Ez as [Ez|Ez].
    - apply Nat.eqb_neq in Ez. lia.
    - apply negb_false_iff, Nat.eqb_eq in Ez. lia. }
  split; [exact Hk | split; [exact Hn1 |]].
  eexists. split; [reflexivity |]. split.
  - unfold take_rows, indices. now rewrite !length_map, length_seq.
  - apply Forall_forall. intros r Hr. unfold take_rows in Hr. apply in_map_iff in Hr.
    destruct Hr as (i & <- & Hi). unfold indices in Hi. apply in_map_iff in Hi.
    destruct Hi as (j & <- & _). rewrite Forall_forall in HX. apply HX. apply nth_In.
    apply Nat.mod_upper_bound. lia.
Qed.

(** The loop function only returns states the loop reaches, in which the
    condition fails. *)
Lemma em_loop_sound (self : t) (Xs : views) (patience : Z) (fuel : nat) :
  forall st st',
    em_loop fuel self Xs patience st = Some (Ok st') ->
    iterates self Xs patience st st' /\ guard self patience st' = false.
Proof.
  induction fuel as [| fuel IH]; intros st st' H; simpl in H;
    destruct (guard self patience st) eqn:Hg; try discriminate H.
  - injection H as <-. split; [apply iterates_refl | exact Hg].
  - destruct (em_step self Xs st) as [st1|? ?] eqn:Hs; [| discriminate H].
    destruct (IH st1 st' H) as [Hr Hstop]. split; [| exact Hstop].
    eapply KMeansLoop.iterates_front; [split; eassumption | exact Hr].
  - injection H as <-. split; [apply iterates_refl | exact Hg].
Qed.

Section Shapes.
Variables (self : t) (Xs : views) (patience : Z) (n d0 d1 : nat).
Hypothesis Hn : 1 <= n.
Hypothesis HX0 : shape (fst Xs) n d0 = true.
Hypothesis HX1 : shape (snd Xs) n d1 = true.

Lemma cent_inv_step (st0 st st' : locals) :
  loop_inv self Xs patience st0 st ->
  cent_inv self d0 d1 st -> em_step self Xs st = Ok st' -> cent_inv self d0 d1 st'.
Proof.
  intros Hinv [H1 H0] Hstep.
  destruct (shape_inv _ _ _ HX0) as [Hn0 Hw0].
  destruct (shape_inv _ _ _ HX1) as [Hn1 Hw1].
  pose proof (inv_num _ _ _ _ _ Hinv) as Hnum.
  unfold em_step in Hstep.
  set (v := ((iter_num st + 1 + 1) mod 2)%Z) in *.
  destruct (m_step (_k self) (get2 Xs v) (get2 (partitions st) ((v + 1) mod 2)%Z))
    as [cents|? ?] eqn:Em; [| discriminate Hstep]. cbn [bind] in Hstep.
  rewrite KMeansLoop.get2_set2_same in Hstep.
  destruct (_compute_distance self (get2 Xs v) (Some cents)) as [D|? ?];
    [| discriminate Hstep]. cbn [bind] in Hstep.
  destruct (o_funct (_k self) (get2 Xs v) (get2 (partitions st) v) (Some cents))
    as [o|? ?]; [| discriminate Hstep]. cbn [bind] in Hstep.
  assert (Hc : centroids st' = set2 (centroids st) v (Some cents) /\
               iter_num st' = (iter_num st + 1)%Z).
  { destruct (ltb o (get2 (objective st) v)); injection Hstep as <-; split; reflexivity. }
  destruct Hc as [Hc Hnum']. unfold cent_inv. rewrite Hc, Hnum'.
  assert (Hv : (v = 0 \/ (v = 1 /\ 1 <= iter_num st))%Z).
  { unfold v. pose proof (Z.mod_pos_bound (iter_num st + 1 + 1) 2 eq_refl) as Hb.
    destruct (Z.eq_dec (iter_num st) 0) as [E|E]; [rewrite E; left; reflexivity |].
    destruct (Z.eq_dec ((iter_num st + 1 + 1) mod 2) 0)%Z; [left | right]; lia. }
  destruct Hv as [Ev|[Ev Hodd]]; rewrite Ev in *; unfold get2, set2 in *; cbn in *.
  - split; [exact H1 |]. intros _.
    destruct (m_step_shape _ _ _ _ d0 Em) as [_ Hg]; [lia | exact Hw0 |].
    exists cents. split; [reflexivity | exact Hg].
  - split; [| intros _; apply H0; exact Hodd].
    destruct (m_step_shape _ _ _ _ d1 Em) as [_ Hg]; [lia | exact Hw1 |].
    exists cents. split; [reflexivity | exact Hg].
Qed.

Lemma cent_inv_iterates (st0 st st' : locals) :
  loop_inv self Xs patience st0 st ->
  cent_inv self d0 d1 st -> iterates self Xs patience st st' -> cent_inv self d0 d1 st'.
Proof.
  intros Hinv Hc H. induction H as [| a b Ha IH [_ Hstep]]; [exact Hc |].
  eapply cent_inv_step; [| exact IH | exact Hstep].
  eapply KMeansLoop.loop_inv_iterates; eassumption.
Qed.

End Shapes.

Lemma good_forallb (k d : nat) (c : matrix) :
  good k d c -> (k <=? nrows c) = true /\ forallb (fun r => length r =? d) c = true.
Proof.
  intros [Hl Hf]. split; [apply Nat.leb_le; exact Hl |].
  apply forallb_forall. intros r Hr. apply Nat.eqb_eq.
  rewrite Forall_forall in Hf. exact (Hf r Hr).
Qed.

(** What [fit] returns is a model [predict] can run on: for views of at
    least one sample, a positive patience and an iteration bound above 0,
    the centroids of both views are set, with a row per cluster. *)
Lemma fit_returns_fitted (self : t) (Xs : views) (patience : Z) (g : rng) (fuel : nat)
      (s : t) (n d0 d1 : nat) :
  shape (fst Xs) n d0 = true -> shape (snd Xs) n d1 = true ->
  (0 < patience)%Z -> lt_bound 0 (_max_iter self) = true ->
  fst (fit self Xs patience g fuel) = Some (Ok s) ->
  fitted s d0 d1 = true.
Proof.
  intros HX0 HX1 Hp Hm Hfit. unfold fit in Hfit.
  destruct (fit_init self Xs g) as [[st0|? ?] g'] eqn:E0; cbn [fst] in Hfit;
    [| discriminate Hfit].
  assert (Hinit : fst (fit_init self Xs g) = Ok st0) by now rewrite E0.
  destruct (em_loop fuel self Xs patience st0) as [[st|? ?]|] eqn:El; try discriminate Hfit.
  injection Hfit as <-.
  destruct (em_loop_sound _ _ _ _ _ _ El) as [Hreach Hstop].
  destruct (shape_inv _ _ _ HX1) as [Hn1 Hw1].
  destruct (fit_init_shape self Xs g st0 n d1 Hinit Hn1 Hw1) as (Hk & Hn & c1 & Hc1 & Hg1).
  destruct (KMeansLoop.fit_init_spec self Xs g st0 Hinit) as (Hnum0 & Hst0 & _).
  pose proof (KMeansLoop.loop_inv_init self Xs patience g st0 Hinit) as Hinv0.
  assert (Hci : cent_inv self d0 d1 st0).
  { split; [exists c1; rewrite Hc1; split; [reflexivity | exact Hg1] |].
    rewrite Hnum0. lia. }
  pose proof (cent_inv_iterates self Xs patience n d0 d1 Hn HX0 HX1 st0 st0 st Hinv0 Hci Hreach)
    as [(c1' & Ec1 & Hgood1) H0].
  assert (Hpos : (1 <= iter_num st)%Z).
  { inversion Hreach as [E | a b Ha [_ Hstep] E].
    - subst st. unfold guard in Hstop. rewrite Hnum0, Hst0, Hm in Hstop.
      apply andb_false_iff in Hstop. destruct Hstop as [H|H]; [| discriminate H].
      apply Z.ltb_ge in H. lia.
    - destruct (KMeansLoop.em_step_spec self Xs a st Hstep) as (_ & _ & _ & Hn' & _).
      pose proof (KMeansLoop.loop_inv_iterates self Xs patience st0 st0 a Hinv0 Ha) as Hia.
      pose proof (inv_num _ _ _ _ _ Hia). lia. }
  destruct (H0 Hpos) as (c0' & Ec0 & Hgood0).
  unfold fitted, set_centroids. cbn [_centroids _k].
  destruct (centroids st) as [f1 f2]. cbn [fst snd] in Ec0, Ec1. subst f1 f2.
  destruct (good_forallb _ _ _ Hgood0) as [La Fa].
  destruct (good_forallb _ _ _ Hgood1) as [Lb Fb].
  rewrite La, Lb, Fa, Fb. rewrite (proj2 (Nat.leb_le 1 (_k self)) Hk). reflexivity.
Qed.

End FitFacts.

Import F64Facts ArgminFacts ArrayFacts PredictFacts.

(** The consensus centroids [predict] computes for one cluster. *)
Lemma consensus_ok (self : t) (X0 X1 : matrix) (c0 c1 : matrix) (p1 p2 : list nat) (n : nat) :
  _centroids self = Some (Some c0, Some c1) ->
  nearest self X0 (Some c0) = Ok p1 -> nearest self X1 (Some c1) = Ok p2 ->
  length p1 = n -> length p2 = n -> length X0 = n -> length X1 = n ->
  forall clust,
    consensus self (X0, X1) clust
    = Ok (Arr1 (consensus_centroid X0 p1 p2 clust), Arr1 (consensus_centroid X1 p1 p2 clust)).
Proof.
  intros Hcent Hp1 Hp2 Hl1 Hl2 Hn0 Hn1 clust.
  unfold nearest in Hp1, Hp2.
  destruct (_compute_distance self X0 (Some c0)) as [D1|? ?] eqn:E1; [| discriminate Hp1].
  destruct (_compute_distance self X1 (Some c1)) as [D2|? ?] eqn:E2; [| discriminate Hp2].
  cbn [bind] in Hp1, Hp2. injection Hp1 as Hp1. injection Hp2 as Hp2.
  unfold consensus, centroids_at. rewrite Hcent. cbn [bind get2 fst snd Z.eqb].
  rewrite E1. cbn [bind]. rewrite E2. cbn [bind]. rewrite Hp1, Hp2.
  rewrite broadcast1_same by (rewrite !length_map; lia). cbn [bind].
  rewrite combine_map2, map_map. cbn [fst snd].
  unfold getitem_mask, nrows.
  assert (Hlen : length (map (fun x : nat * nat => (fst x =? clust) && (snd x =? clust))
                             (combine p1 p2)) = n).
  { rewrite length_map, length_combine. lia. }
  rewrite Hlen, Hn0, Hn1, Nat.eqb_refl. cbn [bind]. reflexivity.
Qed.

(** The labels [predict] returns on a model with centroids for both
    views. *)
Lemma predict_on_fitted (self : t) (Xs : views) (n d0 d1 : nat) :
  fitted self d0 d1 = true ->
  shape (fst Xs) n d0 = true ->
  shape (snd Xs) n d1 = true ->
  exists labels c0 c1 p1 p2,
    _centroids self = Some (Some c0, Some c1) /\
    nearest self (fst Xs) (Some c0) = Ok p1 /\
    nearest self (snd Xs) (Some c1) = Ok p2 /\
    predict self Xs = Ok labels /\
    length labels = n /\
    Forall (fun l => l < _k self) labels /\
    forall i l,
      nth_error labels i = Some l ->
      (forall c, c < _k self ->
                 ltb (joint_distance Xs p1 p2 c i) (joint_distance Xs p1 p2 l i) = false) /\
      (is_nan (joint_distance Xs p1 p2 l i) = true \/
       forall c, c < _k self ->
                 is_nan (joint_distance Xs p1 p2 c i) = false /\
                 leb (joint_distance Xs p1 p2 l i) (joint_distance Xs p1 p2 c i) = true).
Proof.
  destruct Xs as [X0 X1]. cbn [fst snd]. intros Hfit Hs0 Hs1.
  destruct (fitted_inv self d0 d1 Hfit) as (c0 & c1 & Hcent & Hk & Hc0 & Hc1 & Hw0 & Hw1).
  destruct (shape_inv X0 n d0 Hs0) as [Hn0 HX0].
  destruct (shape_inv X1 n d1 Hs1) as [Hn1 HX1].
  destruct (distances_ok self X0 c0 n d0 Hk Hc0 Hw0 Hn0 HX0) as (D1 & _ & Hp1 & Hl1).
  destruct (distances_ok self X1 c1 n d1 Hk Hc1 Hw1 Hn1 HX1) as (D2 & _ & Hp2 & Hl2).
  set (p1 := argmin_axis0 D1) in *. set (p2 := argmin_axis0 D2) in *.
  set (k := _k self) in *.
  set (V1 := map (consensus_centroid X0 p1 p2) (seq 0 k)).
  set (V2 := map (consensus_centroid X1 p1 p2) (seq 0 k)).
  set (M := map (fun c => map (fun i => joint_distance (X0, X1) p1 p2 c i) (seq 0 n)) (seq 0 k)).
  assert (Hpred : predict self (X0, X1) = Ok (argmin_axis0 M)).
  { unfold predict. fold k.
    rewrite (mapM_ok _ (fun c => (Arr1 (consensus_centroid X0 p1 p2 c),
                                  Arr1 (consensus_centroid X1 p1 p2 c)))).
    2:{ intros c _. apply (consensus_ok self X0 X1 c0 c1 p1 p2 n); assumption. }
    cbn [bind]. rewrite !map_map. cbn [fst snd].
    rewrite <- (map_map (consensus_centroid X0 p1 p2) Arr1).
    rewrite <- (map_map (consensus_centroid X1 p1 p2) Arr1).
    fold V1 V2.
    assert (HV1 : V1 <> []) by (unfold V1; destruct k; [lia | discriminate]).
    assert (HV2 : V2 <> []) by (unfold V2; destruct k; [lia | discriminate]).
    rewrite (vstack_rows V1 HV1), (vstack_rows V2 HV2). cbn [bind fst snd].
    rewrite (compute_distance_ok self X0 V1).
    2:{ exact Hk. }
    2:{ unfold V1. fold k. rewrite length_map, length_seq. lia. }
    2:{ fold k. intros cl Hcl. apply Forall_forall. intros r Hr.
        unfold V1. rewrite nth_map_seq by exact Hcl.
        unfold consensus_centroid, mean_rows. rewrite length_map, length_seq.
        rewrite (ncols_rows X0 d0 r HX0 Hr). rewrite Forall_forall in HX0. exact (HX0 r Hr). }
    cbn [bind].
    rewrite (compute_distance_ok self X1 V2).
    2:{ exact Hk. }
    2:{ unfold V2. fold k. rewrite length_map, length_seq. lia. }
    2:{ fold k. intros cl Hcl. apply Forall_forall. intros r Hr.
        unfold V2. rewrite nth_map_seq by exact Hcl.
        unfold consensus_centroid, mean_rows. rewrite length_map, length_seq.
        rewrite (ncols_rows X1 d1 r HX1 Hr). rewrite Forall_forall in HX1. exact (HX1 r Hr). }
    cbn [bind]. fold k.
    unfold add_matrix. rewrite combine_map_seq.
    rewrite (mapM_ok _ (fun p => map (fun q => add (fst q) (snd q)) (combine (fst p) (snd p)))).
    2:{ intros p Hp. apply in_map_iff in Hp. destruct Hp as (cl & <- & _). cbn [fst snd].
        apply broadcast1_same. rewrite !length_map. lia. }
    cbn [bind]. f_equal. f_equal. rewrite map_map. cbn [fst snd].
    unfold M. apply map_ext_in. intros c Hc. apply in_seq in Hc.
    rewrite combine_map2, map_map. cbn [fst snd].
    apply (nth_ext _ _ nan nan); unfold matrix, vec in *.
    - rewrite !length_map, length_combine, length_seq, Hn0, Hn1. apply Nat.min_id.
    - intros i Hi. rewrite length_map, length_combine, Hn0, Hn1, Nat.min_id in Hi.
      rewrite nth_map_seq by lia.
      rewrite (nth_indep _ nan ((fun x : vec * vec =>
                 add (dist (fst x) (nth c V1 [])) (dist (snd x) (nth c V2 []))) ([], [])))
        by (rewrite length_map, length_combine, Hn0, Hn1, Nat.min_id; exact Hi).
      rewrite (map_nth (fun x : vec * vec =>
                 add (dist (fst x) (nth c V1 [])) (dist (snd x) (nth c V2 [])))).
      rewrite combine_nth by (rewrite Hn0, Hn1; reflexivity). cbn [fst snd].
      unfold V1, V2. rewrite !nth_map_seq by lia. reflexivity. }
  assert (HM : length (argmin_axis0 M) = n /\
               forall i l, nth_error (argmin_axis0 M) i = Some l ->
                           l < k /\
                           (forall c, c < k ->
                                      ltb (nth i (nth c M []) nan) (nth i (nth l M []) nan)
                                      = false) /\
                           (is_nan (nth i (nth l M []) nan) = true \/
                            forall c, c < k -> is_nan (nth i (nth c M []) nan) = false)).
  { apply argmin_axis0_spec.
    - unfold M. now rewrite length_map, length_seq.
    - exact Hk.
    - apply Forall_forall. intros r Hr. unfold M in Hr. apply in_map_iff in Hr.
      destruct Hr as (c & <- & _). now rewrite length_map, length_seq. }
  destruct HM as [HMlen HMmin].
  assert (Hentry : forall c i, c < k -> i < n ->
                               nth i (nth c M []) nan = joint_distance (X0, X1) p1 p2 c i).
  { intros c i Hc Hi. unfold M. rewrite nth_map_seq by exact Hc.
    rewrite nth_map_seq by exact Hi. reflexivity. }
  exists (argmin_axis0 M), c0, c1, p1, p2.
  split; [exact Hcent |]. split; [exact Hp1 |]. split; [exact Hp2 |].
  split; [exact Hpred |]. split; [exact HMlen |]. split.
  - apply Forall_forall. intros l Hl. apply In_nth_error in Hl. destruct Hl as [i Hi].
    exact (proj1 (HMmin i l Hi)).
  - intros i l Hi.
    assert (Hin : i < n).
    { assert (H : nth_error (argmin_axis0 M) i <> None) by congruence.
      apply nth_error_Some in H. lia. }
    destruct (HMmin i l Hi) as (Hl & Hmin & Hnan).
    assert (Hlow : forall c, c < k ->
                     ltb (joint_distance (X0, X1) p1 p2 c i) (joint_distance (X0, X1) p1 p2 l i)
                     = false).
    { intros c Hc. rewrite <- !Hentry by assumption. apply Hmin. exact Hc. }
    split; [exact Hlow |].
    rewrite (Hentry l i Hl Hin) in Hnan.
    destruct Hnan as [H|Hclean]; [left; exact H | right].
    assert (Hclean' : forall c, c < k -> is_nan (joint_distance (X0, X1) p1 p2 c i) = false).
    { intros c Hc. rewrite <- (Hentry c i Hc Hin). apply Hclean. exact Hc. }
    intros c Hc. split; [apply Hclean'; exact Hc |].
    apply leb_iff_not_ltb; [apply Hclean'; exact Hl | apply Hclean'; exact Hc | apply Hlow; exact Hc].
Qed.

(** C9, as the code has it.  What [fit] returns, for two views of [n]
    samples, a positive patience and an iteration bound above 0, is a model
    with centroids for both views: a row per cluster, of the widths of the
    views.  On such a model and a two-view input of [n] samples of these
    widths, [predict] returns [n] labels below [k].  With [p1] and [p2] the
    nearest-centroid partitions of the two views under the model's
    centroids, the summed distance of a sample to the two consensus
    centroids of a cluster (the means over the samples that [p1] and [p2]
    both assign to the cluster) is NaN when no sample is assigned so.  The
    label of a sample is a cluster whose sum no cluster undercuts: a
    cluster whose sum is NaN, or else, no sum being NaN, a cluster whose
    sum is at most the sum of every cluster. *)
Theorem predict_labels_nearest_consensus :
  (forall (self : t) (Xs : views) (patience : Z) (g : rng) (fuel : nat) (s : t)
          (n d0 d1 : nat),
      shape (fst Xs) n d0 = true -> shape (snd Xs) n d1 = true ->
      (0 < patience)%Z -> lt_bound 0 (_max_iter self) = true ->
      fst (fit self Xs patience g fuel) = Some (Ok s) ->
      fitted s d0 d1 = true) /\
  (forall (self : t) (Xs : views) (n d0 d1 : nat),
      fitted self d0 d1 = true ->
      shape (fst Xs) n d0 = true ->
      shape (snd Xs) n d1 = true ->
      exists labels c0 c1 p1 p2,
        _centroids self = Some (Some c0, Some c1) /\
        nearest self (fst Xs) (Some c0) = Ok p1 /\
        nearest self (snd Xs) (Some c1) = Ok p2 /\
        predict self Xs = Ok labels /\
        length labels = n /\
        Forall (fun l => l < _k self) labels /\
        forall i l,
          nth_error labels i = Some l ->
          (forall c, c < _k self ->
                     ltb (joint_distance Xs p1 p2 c i) (joint_distance Xs p1 p2 l i) = false) /\
          (is_nan (joint_distance Xs p1 p2 l i) = true \/
           forall c, c < _k self ->
                     is_nan (joint_distance Xs p1 p2 c i) = false /\
                     leb (joint_distance Xs p1 p2 l i) (joint_distance Xs p1 p2 c i) = true)).
Proof.
  split.
  - exact FitFacts.fit_returns_fitted.
  - exact predict_on_fitted.
Qed.

Lemma predict_labels_nearest_consensus_witness :
  fst (fit Examples.km Examples.Xs 5 Examples.g_0110 10) = Some (Ok Examples.km_fitted) /\
  fitted Examples.km_fitted 1 1 = true /\
  shape (fst Examples.Xs) 2 1 = true /\
  shape (snd Examples.Xs) 2 1 = true /\
  exists labels c0 c1 p1 p2,
    _centroids Examples.km_fitted = Some (Some c0, Some c1) /\
    nearest Examples.km_fitted (fst Examples.Xs) (Some c0) = Ok p1 /\
    nearest Examples.km_fitted (snd Examples.Xs) (Some c1) = Ok p2 /\
    predict Examples.km_fitted Examples.Xs = Ok labels /\
    length labels = 2 /\
    Forall (fun l => l < _k Examples.km_fitted) labels /\
    forall i l,
      nth_error labels i = Some l ->
      (forall c, c < _k Examples.km_fitted ->
                 ltb (joint_distance Examples.Xs p1 p2 c i)
                     (joint_distance Examples.Xs p1 p2 l i) = false) /\
      (is_nan (joint_distance Examples.Xs p1 p2 l i) = true \/
       forall c, c < _k Examples.km_fitted ->
                 is_nan (joint_distance Examples.Xs p1 p2 c i) = false /\
                 leb (joint_distance Examples.Xs p1 p2 l i)
                     (joint_distance Examples.Xs p1 p2 c i) = true).
Proof.
  split; [vm_compute; reflexivity |].
  split; [reflexivity |]. split; [reflexivity |]. split; [reflexivity |].
  apply (proj2 predict_labels_nearest_consensus Examples.km_fitted Examples.Xs 2 1 1);
    reflexivity.
Defined.

(** C9 fails as stated: on the model [fit] returns for the example, the
    nearest-centroid partitions are [0; 1] and [0; 0], no sample is
    assigned to cluster 1 by both, and the sums of cluster 1 are NaN.
    [predict] labels both samples 1, although the first sample is at the
    summed distance 0.0 from the consensus centroids of cluster 0: the
    label does not minimize the sum. *)
Lemma predict_label_can_be_nan_cluster :
  fst (fit Examples.km Examples.Xs 5 Examples.g_0110 10) = Some (Ok Examples.km_fitted) /\
  nearest Examples.km_fitted Examples.X0 (Some Examples.X0) = Ok [0; 1] /\
  nearest Examples.km_fitted Examples.X1 (Some [[nan]; [nan]; [nan]; [nan]]) = Ok [0; 0] /\
  predict Examples.km_fitted Examples.Xs = Ok [1; 1] /\
  joint_distance Examples.Xs [0; 1] [0; 0] 0 0 = zero /\
  joint_distance Examples.Xs [0; 1] [0; 0] 1 0 = nan /\
  leb (joint_distance Examples.Xs [0; 1] [0; 0] 1 0)
      (joint_distance Examples.Xs [0; 1] [0; 0] 0 0) = false.
Proof. run_conj. Qed.

(* ===================================================================== *)
(** * [KMeans]: what [fit] returns, and the errors of [fit] and [predict] *)
(* ===================================================================== *)

Import FitFacts.

Module RunFacts.

Lemma select_In {A : Type} (l : list A) (b : list bool) (x : A) :
  In x (select l b) -> In x l.
Proof.
  revert b. induction l as [| a l IH]; intros [| [] b] H; simpl in *; try contradiction.
  - destruct H as [H|H]; [left; exact H | right; exact (IH b H)].
  - right. exact (IH b H).
Qed.

Lemma foldM_ok {A B : Type} (f : A -> B -> result A) (P : B -> Prop) (l : list B) :
  (forall a x, P x -> exists a', f a x = Ok a') ->
  Forall P l -> forall a, exists a', foldM f a l = Ok a'.
Proof.
  intros Hf Hl. induction Hl as [| x l Hx _ IH]; intros a; [exists a; reflexivity |].
  cbn [foldM]. destruct (Hf a x Hx) as (a' & ->). cbn [bind]. apply IH.
Qed.

(** The M-step under an integer partition of the length of the view. *)
Lemma m_step_some (k : nat) (X : matrix) (parts : list nat) :
  length parts = nrows X -> 1 <= k ->
  m_step k X (Some parts) = Ok (cluster_means k X parts).
Proof.
  intros Hl Hk. unfold m_step.
  rewrite (mapM_ok _ (fun cl => Arr1 (mean_rows (ncols X)
                                       (select X (map (fun x => x =? cl) parts))))).
  - cbn [bind]. unfold cluster_means. rewrite <- map_map with (g := Arr1).
    apply vstack_rows. destruct k; [lia | discriminate].
  - intros cl _. unfold eq_mask, getitem_mask.
    rewrite length_map, Hl, Nat.eqb_refl. reflexivity.
Qed.

(** The M-step under the partition [None]. *)
Lemma m_step_none (k : nat) (X : matrix) :
  1 <= k -> m_step k X None = Ok (nan_block k X).
Proof.
  intros Hk. unfold m_step.
  rewrite (mapM_ok _ (fun _ => Arr2 (map (fun r => map (fun _ => nan) r) X)))
    by (intros cl _; reflexivity).
  cbn [bind]. destruct k as [| k]; [lia |]. unfold vstack, nan_block.
  cbn [seq map]. rewrite map_map. reflexivity.
Qed.

Lemma nan_block_length (k : nat) (X : matrix) : length (nan_block k X) = k * nrows X.
Proof.
  unfold nan_block, nrows. generalize 0 as a.
  induction k as [| k IH]; intros a; [reflexivity |].
  cbn [seq map concat]. rewrite length_app, length_map, IH. reflexivity.
Qed.

Lemma cluster_means_good (k : nat) (X : matrix) (parts : list nat) (d : nat) :
  1 <= length X -> Forall (fun r => length r = d) X ->
  good k d (cluster_means k X parts).
Proof.
  intros Hn HX. unfold good, cluster_means. split; [now rewrite length_map, length_seq |].
  apply Forall_forall. intros r Hr. apply in_map_iff in Hr. destruct Hr as (cl & <- & _).
  unfold mean_rows. rewrite length_map, length_seq.
  destruct X as [| x X]; [simpl in Hn; lia |]. inversion HX; subst. reflexivity.
Qed.

Lemma nan_block_good (k : nat) (X : matrix) (d : nat) :
  1 <= k -> 1 <= length X -> Forall (fun r => length r = d) X ->
  good k d (nan_block k X).
Proof.
  intros Hk Hn HX.
  destruct (m_step_shape k X None (nan_block k X) d (m_step_none k X Hk) Hn HX) as [_ H].
  exact H.
Qed.

(** The objective of a view whose partition is [None]: every cluster
    selects the empty array, and the sum is 0.0. *)
Lemma o_funct_none (k : nat) (X cents : matrix) (d : nat) :
  good k d cents -> Forall (fun r => length r = d) X ->
  o_funct k X None (Some cents) = Ok zero.
Proof.
  intros [Hlen Hw] HX. unfold o_funct.
  assert (H : forall l, Forall (fun cl => cl < k) l ->
                        foldM (fun o clust =>
                                 vecs <- getitem_mask X (eq_mask None clust) ;;
                                 c <- getitem_row (Some cents) clust ;;
                                 s <- sum_norm_diff vecs c ;;
                                 Ok (add o s)) zero l = Ok zero).
  { intros l Hl. induction Hl as [| cl l Hcl _ IH]; [reflexivity |].
    cbn [foldM eq_mask getitem_mask bind getitem_row].
    rewrite (nth_error_nth' cents []) by lia. cbn [bind sum_norm_diff].
    rewrite sub_rows_ok.
    - cbn [bind]. exact IH.
    - apply Forall_forall. intros r Hr. rewrite Forall_forall in HX, Hw.
      rewrite (HX r Hr). symmetry. apply Hw. apply nth_In. lia. }
  apply H. apply Forall_forall. intros cl Hcl. apply in_seq in Hcl. lia.
Qed.

(** The objective of a view under an integer partition of its length is
    computed without an exception. *)
Lemma o_funct_some (k : nat) (X cents : matrix) (parts : list nat) (d : nat) :
  good k d cents -> Forall (fun r => length r = d) X -> length parts = nrows X ->
  exists o, o_funct k X (Some parts) (Some cents) = Ok o.
Proof.
  intros [Hlen Hw] HX Hp. unfold o_funct.
  apply (foldM_ok _ (fun cl => cl < k)).
  - intros o cl Hcl. unfold eq_mask, getitem_mask.
    rewrite length_map, Hp, Nat.eqb_refl. cbn [bind getitem_row].
    rewrite (nth_error_nth' cents []) by lia. cbn [bind sum_norm_diff].
    rewrite sub_rows_ok.
    + cbn [bind]. eexists. reflexivity.
    + apply Forall_forall. intros r Hr. apply select_In in Hr.
      rewrite Forall_forall in HX, Hw.
      rewrite (HX r Hr). symmetry. apply Hw. apply nth_In. lia.
  - apply Forall_forall. intros cl Hcl. apply in_seq in Hcl. lia.
Qed.

Section Run.
Variables (self : t) (Xs : views) (n d0 d1 : nat) (parts : list nat).
Hypothesis Hn : 1 <= n.
Hypothesis Hk : 1 <= _k self.
Hypothesis HX0 : shape (fst Xs) n d0 = true.
Hypothesis HX1 : shape (snd Xs) n d1 = true.
Hypothesis Hparts : length parts = n.

(** From a state of the invariant the loop body runs through, into a
    state of the invariant. *)
Lemma run_inv_step (st : locals) :
  run_inv self Xs parts st ->
  exists st', em_step self Xs st = Ok st' /\ run_inv self Xs parts st' /\
              iter_num st' = (iter_num st + 1)%Z.
Proof.
  intros [Hp Hnum Hstart Hfirst Hc0 Hc1].
  destruct (shape_inv _ _ _ HX0) as [Hn0 Hw0].
  destruct (shape_inv _ _ _ HX1) as [Hn1 Hw1].
  unfold em_step.
  set (v := ((iter_num st + 1 + 1) mod 2)%Z).
  assert (Hv : (v = 0 /\ (iter_num st = 0 \/ 2 <= iter_num st))%Z \/
               (v = 1 /\ 1 <= iter_num st)%Z).
  { unfold v. pose proof (Z.mod_pos_bound (iter_num st + 1 + 1) 2 eq_refl) as Hb.
    destruct (Z.eq_dec (iter_num st) 0) as [E|E];
      [rewrite E; left; split; [reflexivity | lia] |].
    destruct (Z.eq_dec (iter_num st) 1) as [E1|E1];
      [rewrite E1; right; split; [reflexivity | lia] |].
    destruct (Z.eq_dec ((iter_num st + 1 + 1) mod 2) 0)%Z as [E0|E0]; [left | right]; lia. }
  rewrite Hp.
  destruct Hv as [[Ev Heven]|[Ev Hodd]]; rewrite Ev;
    change (get2 Xs 0) with (fst Xs); change (get2 Xs 1) with (snd Xs);
    cbn [get2 Z.eqb Z.add Z.modulo Z.div_eucl Z.pos_div_eucl Pos.add fst snd Z.leb Z.ltb
         Z.compare Pos.compare Pos.compare_cont Z.sub Z.opp Z.mul Pos.mul Z.succ_double
         Z.double Z.pos_sub Pos.succ].
  - rewrite (m_step_some (_k self) (fst Xs) parts) by (unfold nrows; lia || assumption).
    cbn [bind]. unfold set2; cbn [Z.eqb fst snd].
    pose proof (cluster_means_good (_k self) (fst Xs) parts d0 ltac:(lia) Hw0) as Hg.
    destruct (distances_ok self (fst Xs) _ n d0 Hk (proj1 Hg) (proj2 Hg) Hn0 Hw0)
      as (D & -> & _). cbn [bind].
    rewrite (o_funct_none _ _ _ d0 Hg Hw0). cbn [bind].
    change (get2 (objective st) 0) with (fst (objective st)).
    destruct (ltb zero (fst (objective st))) eqn:El; eexists; (split; [reflexivity |]);
      (split; [| reflexivity]); constructor; cbn [partitions iter_num objective iter_stall centroids fst snd];
      try reflexivity; try lia; try (intros; reflexivity).
    + intros H2. apply Hc1. lia.
    + intros H1. assert (E0 : iter_num st = 0%Z) by lia.
      destruct (Hstart E0) as [Eo _]. rewrite Eo in El. discriminate El.
    + intros H2. apply Hc1. lia.
  - rewrite (m_step_none (_k self) (snd Xs) Hk). cbn [bind].
    unfold set2; cbn [Z.eqb fst snd].
    pose proof (nan_block_good (_k self) (snd Xs) d1 Hk ltac:(lia) Hw1) as Hg.
    destruct (distances_ok self (snd Xs) _ n d1 Hk (proj1 Hg) (proj2 Hg) Hn1 Hw1)
      as (D & -> & _). cbn [bind].
    destruct (o_funct_some (_k self) (snd Xs) (nan_block (_k self) (snd Xs)) parts d1 Hg Hw1)
      as (o & ->); [unfold nrows; lia |]. cbn [bind].
    destruct (ltb o (snd (objective st))); eexists; (split; [reflexivity |]);
      (split; [| reflexivity]); constructor; cbn [partitions iter_num objective iter_stall centroids fst snd];
      try reflexivity; try lia; try (intros; reflexivity);
      intros H1; apply Hc0; lia.
Qed.

(** The loop never raises from a state of the invariant, and a state it
    stops in satisfies the invariant. *)
Lemma em_loop_run (patience : Z) (fuel : nat) :
  forall st r,
    run_inv self Xs parts st ->
    em_loop fuel self Xs patience st = Some r ->
    exists st', r = Ok st' /\ run_inv self Xs parts st' /\
                guard self patience st' = false /\ (iter_num st <= iter_num st')%Z.
Proof.
  induction fuel as [| fuel IH]; intros st r Hinv H; simpl in H;
    destruct (guard self patience st) eqn:Hg; try discriminate H.
  - injection H as <-. exists st. split; [reflexivity | split; [assumption | split; [assumption | lia]]].
  - destruct (run_inv_step st Hinv) as (st1 & Hs & Hinv1 & Hnum). rewrite Hs in H.
    destruct (IH st1 r Hinv1 H) as (st' & -> & Hinv' & Hstop & Hle).
    exists st'. split; [reflexivity | split; [assumption | split; [assumption | lia]]].
  - injection H as <-. exists st. split; [reflexivity | split; [assumption | split; [assumption | lia]]].
Qed.

End Run.

(** The state [fit] enters the loop with, for a view 2 of at least one
    sample and at least one cluster. *)
Lemma fit_init_ok (self : t) (Xs : views) (g : rng) (n d1 : nat) :
  1 <= n -> 1 <= _k self -> shape (snd Xs) n d1 = true ->
  exists indices parts,
    fst (init_centers Xs (_k self) g) = Ok (indices, take_rows (snd Xs) indices) /\
    nearest self (snd Xs) (Some (take_rows (snd Xs) indices)) = Ok parts /\
    length parts = n /\
    fst (fit_init self Xs g)
    = Ok {| centroids := (None, Some (take_rows (snd Xs) indices));
            partitions := (None, Some parts);
            objective := (inf, inf);
            iter_stall := 0;
            iter_num := 0;
            new_partitions := None |}.
Proof.
  intros Hn Hk HX1. destruct (shape_inv _ _ _ HX1) as [Hn1 Hw1].
  unfold fit_init, init_centers, choice, nrows.
  assert (Ez : (length (snd Xs) =? 0) && negb (_k self =? 0) = false).
  { destruct (Nat.eqb_spec (length (snd Xs)) 0); [lia | reflexivity]. }
  rewrite Ez. cbn [fst snd bind].
  set (indices := map (fun i => g i mod length (snd Xs)) (seq 0 (_k self))).
  assert (Hg : good (_k self) d1 (take_rows (snd Xs) indices)).
  { split.
    - unfold take_rows, indices. now rewrite !length_map, length_seq.
    - apply Forall_forall. intros r Hr. unfold take_rows in Hr. apply in_map_iff in Hr.
      destruct Hr as (i & <- & Hi). unfold indices in Hi. apply in_map_iff in Hi.
      destruct Hi as (j & <- & _). rewrite Forall_forall in Hw1. apply Hw1. apply nth_In.
      apply Nat.mod_upper_bound. lia. }
  destruct (distances_ok self (snd Xs) _ n d1 Hk (proj1 Hg) (proj2 Hg) Hn1 Hw1)
    as (D & HD & Hnear & Hlen).
  exists indices, (argmin_axis0 D). split; [reflexivity |]. split; [exact Hnear |].
  split; [exact Hlen |]. rewrite HD. reflexivity.
Qed.

(** The centroids [fit] stores when its loop runs at least twice. *)
Lemma fit_centroids_closed
      (self : t) (Xs : views) (patience : Z) (g : rng) (fuel : nat) (s : t) (n d0 d1 : nat) :
  shape (fst Xs) n d0 = true -> shape (snd Xs) n d1 = true ->
  (1 <= patience)%Z -> lt_bound 1 (_max_iter self) = true ->
  fst (fit self Xs patience g fuel) = Some (Ok s) ->
  exists indices parts,
    fst (init_centers Xs (_k self) g) = Ok (indices, take_rows (snd Xs) indices) /\
    nearest self (snd Xs) (Some (take_rows (snd Xs) indices)) = Ok parts /\
    1 <= _k self /\ 1 <= n /\ _k s = _k self /\
    _centroids s = Some (Some (cluster_means (_k self) (fst Xs) parts),
                         Some (nan_block (_k self) (snd Xs))).
Proof.
  intros HX0 HX1 Hp Hm Hfit.
  destruct (shape_inv _ _ _ HX1) as [Hn1 Hw1].
  assert (Hkn : 1 <= _k self /\ 1 <= n).
  { unfold fit in Hfit. destruct (fit_init self Xs g) as [[st0|? ?] g'] eqn:E0;
      cbn [fst] in Hfit; [| discriminate Hfit].
    assert (Hinit : fst (fit_init self Xs g) = Ok st0) by now rewrite E0.
    destruct (fit_init_shape self Xs g st0 n d1 Hinit Hn1 Hw1) as (Hk & Hn & _).
    split; assumption. }
  destruct Hkn as [Hk Hn].
  destruct (fit_init_ok self Xs g n d1 Hn Hk HX1) as (indices & parts & Hic & Hnear & Hlen & Hinit).
  exists indices, parts. split; [exact Hic | split; [exact Hnear |]].
  split; [exact Hk | split; [exact Hn |]].
  set (st0 := {| centroids := (None, Some (take_rows (snd Xs) indices));
                 partitions := (None, Some parts);
                 objective := (inf, inf);
                 iter_stall := 0;
                 iter_num := 0;
                 new_partitions := None |}) in *.
  assert (Hinv : run_inv self Xs parts st0).
  { constructor; cbn; try reflexivity; try lia. intros _. split; reflexivity. }
  unfold fit in Hfit. destruct (fit_init self Xs g) as [r0 g'] eqn:E0.
  cbn [fst] in Hinit. subst r0. cbn [fst] in Hfit.
  destruct (em_loop fuel self Xs patience st0) as [r|] eqn:Er; [| discriminate Hfit].
  destruct (em_loop_run self Xs n d0 d1 parts Hn Hk HX0 HX1 Hlen patience fuel st0 r Hinv Er)
    as (st & -> & [Hpa Hnum Hstart Hfirst Hc0 Hc1] & Hstop & _).
  injection Hfit as <-. unfold set_centroids. cbn [_centroids _k].
  split; [reflexivity |].
  assert (Hm0 : lt_bound 0 (_max_iter self) = true).
  { destruct (_max_iter self) as [z|]; [| reflexivity]. cbn [lt_bound] in *.
    apply Z.ltb_lt. apply Z.ltb_lt in Hm. lia. }
  assert (H2 : (2 <= iter_num st)%Z).
  { destruct (Z.eq_dec (iter_num st) 0) as [E|E].
    - destruct (Hstart E) as [_ Es]. unfold guard in Hstop. rewrite E, Es, Hm0 in Hstop.
      apply andb_false_iff in Hstop. destruct Hstop as [H|H]; [| discriminate H].
      apply Z.ltb_ge in H. lia.
    - destruct (Z.eq_dec (iter_num st) 1) as [E1|E1]; [| lia].
      pose proof (Hfirst E1) as Es. unfold guard in Hstop. rewrite E1, Es, Hm in Hstop.
      apply andb_false_iff in Hstop. destruct Hstop as [H|H]; [| discriminate H].
      apply Z.ltb_ge in H. lia. }
  destruct (centroids st) as [a b]. cbn [fst snd] in Hc0, Hc1.
  rewrite Hc0, Hc1 by lia. reflexivity.
Qed.

Lemma nan_block_rows (k : nat) (X : matrix) :
  Forall (Forall (fun x => is_nan x = true)) (nan_block k X).
Proof.
  unfold nan_block. apply Forall_concat. apply Forall_forall. intros b Hb.
  apply in_map_iff in Hb. destruct Hb as (cl & <- & _).
  apply Forall_forall. intros r Hr. apply in_map_iff in Hr. destruct Hr as (r0 & <- & _).
  apply Forall_forall. intros x Hx. apply in_map_iff in Hx. destruct Hx as (x0 & <- & _).
  reflexivity.
Qed.

End RunFacts.

Import RunFacts.

(** On views of equal sample counts [fit] never raises, and returns
    once the fuel exceeds the bound on its iterations. *)
Lemma fit_total
      (self : t) (Xs : views) (patience : Z) (g : rng) (n d0 d1 : nat) :
  shape (fst Xs) n d0 = true -> shape (snd Xs) n d1 = true ->
  1 <= n -> 1 <= _k self ->
  (forall fuel c msg, fst (fit self Xs patience g fuel) <> Some (Raise c msg)) /\
  (forall fuel, 2 + Z.to_nat (Z.max 0 patience) < fuel ->
                exists s, fst (fit self Xs patience g fuel) = Some (Ok s)).
Proof.
  intros HX0 HX1 Hn Hk.
  destruct (fit_init_ok self Xs g n d1 Hn Hk HX1) as (indices & parts & _ & _ & Hlen & Hinit).
  set (st0 := {| centroids := (None, Some (take_rows (snd Xs) indices));
                 partitions := (None, Some parts);
                 objective := (inf, inf);
                 iter_stall := 0;
                 iter_num := 0;
                 new_partitions := None |}) in *.
  assert (Hinv : run_inv self Xs parts st0).
  { constructor; cbn; try reflexivity; try lia. intros _. split; reflexivity. }
  assert (Hnever : forall fuel r, em_loop fuel self Xs patience st0 = Some r ->
                                  exists st, r = Ok st).
  { intros fuel r Hr.
    destruct (em_loop_run self Xs n d0 d1 parts Hn Hk HX0 HX1 Hlen patience fuel st0 r Hinv Hr)
      as (st & E & _). exists st. exact E. }
  unfold fit. destruct (fit_init self Xs g) as [r0 g'] eqn:E0. cbn [fst] in Hinit. subst r0.
  cbn [fst]. split.
  - intros fuel c msg.
    destruct (em_loop fuel self Xs patience st0) as [r|] eqn:Er; [| discriminate].
    destruct (Hnever fuel r Er) as (st & ->). discriminate.
  - intros fuel Hfuel.
    assert (Hinit' : fst (fit_init self Xs g) = Ok st0) by now rewrite E0.
    pose proof (KMeansLoop.loop_inv_init self Xs patience g st0 Hinit') as Hl.
    destruct (KMeansLoop.em_loop_ends self Xs patience st0 fuel st0 Hl) as (r & Hr & _).
    + unfold remaining, st0. cbn [iter_num]. cbn. lia.
    + rewrite Hr. destruct (Hnever fuel r Hr) as (st & ->). eexists. reflexivity.
Qed.


(** X1: on two views with the same number [n >= 1] of samples, each of one
    width, and with [k >= 1], [fit] never raises, whatever the patience, the
    iteration bound and the state of the generator; and it returns an
    instance after at most [patience + 2] iterations of its loop. *)
Theorem fit_returns_on_equal_sized_views
        (self : t) (Xs : views) (patience : Z) (g : rng) (n d0 d1 : nat) :
  shape (fst Xs) n d0 = true -> shape (snd Xs) n d1 = true ->
  1 <= n -> 1 <= _k self ->
  (forall fuel c msg, fst (fit self Xs patience g fuel) <> Some (Raise c msg)) /\
  (forall fuel, 2 + Z.to_nat (Z.max 0 patience) < fuel ->
                exists s, fst (fit self Xs patience g fuel) = Some (Ok s)).
Proof. exact (fit_total self Xs patience g n d0 d1). Qed.

Lemma fit_returns_on_equal_sized_views_witness :
  shape (fst Examples.Xs) 2 1 = true /\ shape (snd Examples.Xs) 2 1 = true /\
  1 <= 2 /\ 1 <= _k Examples.km /\
  (forall fuel c msg,
      fst (fit Examples.km Examples.Xs 5 Examples.g_0110 fuel) <> Some (Raise c msg)) /\
  (forall fuel, 2 + Z.to_nat (Z.max 0 5) < fuel ->
                exists s, fst (fit Examples.km Examples.Xs 5 Examples.g_0110 fuel) = Some (Ok s)).
Proof.
  split; [reflexivity | split; [reflexivity | split; [lia | split; [simpl; lia |]]]].
  apply (fit_returns_on_equal_sized_views Examples.km Examples.Xs 5 Examples.g_0110 2 1 1);
    solve [reflexivity | simpl; lia].
Defined.

(** X2: when [fit] returns for a patience of at least 1 and an iteration
    bound above 1, on views of equal sample counts, the centroids it stores
    do not depend on the patience: those of view 1 are the cluster means of
    view 1 under the nearest-centroid partition of view 2 to the drawn
    rows, and those of view 2 are [k] blocks of NaN rows, one row per
    sample. *)
Theorem fit_stores_means_and_nan
        (self : t) (Xs : views) (patience : Z) (g : rng) (fuel : nat) (s : t) (n d0 d1 : nat) :
  shape (fst Xs) n d0 = true -> shape (snd Xs) n d1 = true ->
  (1 <= patience)%Z -> lt_bound 1 (_max_iter self) = true ->
  fst (fit self Xs patience g fuel) = Some (Ok s) ->
  exists indices parts,
    fst (init_centers Xs (_k self) g) = Ok (indices, take_rows (snd Xs) indices) /\
    nearest self (snd Xs) (Some (take_rows (snd Xs) indices)) = Ok parts /\
    _centroids s = Some (Some (cluster_means (_k self) (fst Xs) parts),
                         Some (nan_block (_k self) (snd Xs))) /\
    length (nan_block (_k self) (snd Xs)) = _k self * n /\
    Forall (Forall (fun x => is_nan x = true)) (nan_block (_k self) (snd Xs)).
Proof.
  intros HX0 HX1 Hp Hm Hfit.
  destruct (fit_centroids_closed self Xs patience g fuel s n d0 d1 HX0 HX1 Hp Hm Hfit)
    as (indices & parts & Hic & Hnear & _ & _ & _ & Hc).
  exists indices, parts. split; [exact Hic | split; [exact Hnear | split; [exact Hc |]]].
  split; [| apply nan_block_rows].
  rewrite nan_block_length. unfold nrows.
  rewrite (proj1 (shape_inv _ _ _ HX1)). reflexivity.
Qed.

Lemma fit_stores_means_and_nan_witness :
  exists s,
    shape (fst Examples.Xs) 2 1 = true /\ shape (snd Examples.Xs) 2 1 = true /\
    (1 <= 5)%Z /\ lt_bound 1 (_max_iter Examples.km) = true /\
    fst (fit Examples.km Examples.Xs 5 Examples.g_0110 10) = Some (Ok s) /\
    exists indices parts,
      fst (init_centers Examples.Xs (_k Examples.km) Examples.g_0110)
      = Ok (indices, take_rows (snd Examples.Xs) indices) /\
      nearest Examples.km (snd Examples.Xs) (Some (take_rows (snd Examples.Xs) indices))
      = Ok parts /\
      _centroids s = Some (Some (cluster_means (_k Examples.km) (fst Examples.Xs) parts),
                           Some (nan_block (_k Examples.km) (snd Examples.Xs))) /\
      length (nan_block (_k Examples.km) (snd Examples.Xs)) = _k Examples.km * 2 /\
      Forall (Forall (fun x => is_nan x = true)) (nan_block (_k Examples.km) (snd Examples.Xs)).
Proof.
  eexists.
  split; [reflexivity | split; [reflexivity | split; [lia | split; [reflexivity |]]]].
  split; [vm_compute; reflexivity |].
  apply (fit_stores_means_and_nan Examples.km Examples.Xs 5 Examples.g_0110 10 _ 2 1 1);
    solve [reflexivity | lia | vm_compute; reflexivity].
Defined.

(** X3: when the first view does not have the sample count of the second,
    [fit] does not check it: the initialization runs on view 2 alone, and
    the first M-step indexes view 1 with the partition of view 2 and ends
    [fit] with numpy's [IndexError]. *)
Theorem fit_raises_on_unequal_sample_counts
        (self : t) (Xs : views) (patience : Z) (g : rng) (fuel : nat) (n d1 : nat) :
  shape (snd Xs) n d1 = true -> 1 <= n -> 1 <= _k self ->
  nrows (fst Xs) <> n ->
  (0 < patience)%Z -> lt_bound 0 (_max_iter self) = true -> 1 <= fuel ->
  fst (fit self Xs patience g fuel)
  = Some (Raise IndexError "boolean index did not match indexed array along dimension 0").
Proof.
  intros HX1 Hn Hk Hne Hp Hm Hfuel.
  destruct (fit_init_ok self Xs g n d1 Hn Hk HX1) as (indices & parts & _ & _ & Hlen & Hinit).
  unfold fit. destruct (fit_init self Xs g) as [r0 g'] eqn:E0. cbn [fst] in Hinit. subst r0.
  cbn [fst]. destruct fuel as [| fuel]; [lia |]. cbn [em_loop].
  unfold guard. cbn [iter_stall iter_num]. rewrite Hm.
  rewrite (proj2 (Z.ltb_lt 0 patience) Hp). cbn [andb].
  unfold em_step. cbn [iter_num partitions].
  change ((0 + 1 + 1) mod 2)%Z with 0%Z. change ((0 + 1) mod 2)%Z with 1%Z.
  change (get2 Xs 0) with (fst Xs).
  change (get2 (None, Some parts) 1) with (Some parts).
  unfold m_step. destruct (_k self) as [| k]; [lia |]. cbn [seq mapM].
  unfold eq_mask at 1. unfold getitem_mask at 1. rewrite length_map, Hlen.
  destruct (Nat.eqb_spec n (nrows (fst Xs))) as [E|E]; [congruence |]. reflexivity.
Qed.

Lemma fit_raises_on_unequal_sample_counts_witness :
  shape (snd ([[of_Z 1]], Examples.X1)) 2 1 = true /\ 1 <= 2 /\ 1 <= _k Examples.km /\
  nrows (fst ([[of_Z 1]], Examples.X1)) <> 2 /\
  (0 < 5)%Z /\ lt_bound 0 (_max_iter Examples.km) = true /\ 1 <= 10 /\
  fst (fit Examples.km ([[of_Z 1]], Examples.X1) 5 Examples.g_0110 10)
  = Some (Raise IndexError "boolean index did not match indexed array along dimension 0").
Proof.
  assert (H : nrows (fst ([[of_Z 1]], Examples.X1)) <> 2) by (simpl; lia).
  split; [reflexivity | split; [lia | split; [simpl; lia | split; [exact H |]]]].
  split; [lia | split; [reflexivity | split; [lia |]]].
  apply (fit_raises_on_unequal_sample_counts
           Examples.km ([[of_Z 1]], Examples.X1) 5 Examples.g_0110 10 2 1);
    solve [reflexivity | lia | simpl; lia].
Defined.

(** X4: [fit] ends with a [ValueError] before its loop, whatever the
    patience, for an instance with [k = 0] (no distance row to stack) and,
    for [k >= 1], for a second view without samples (nothing to draw the
    initial centroids from); in the second case the generator is left as
    it was.  An instance with [k = 0] cannot predict either. *)
Theorem fit_rejects_no_cluster_and_no_sample
        (self : t) (Xs : views) (patience : Z) (g : rng) (fuel : nat) :
  (_k self = 0 ->
   fst (fit self Xs patience g fuel)
   = Some (Raise ValueError "need at least one array to concatenate") /\
   predict self Xs = Raise ValueError "need at least one array to concatenate") /\
  (1 <= _k self -> nrows (snd Xs) = 0 ->
   fit self Xs patience g fuel
   = (Some (Raise ValueError "a must be greater than 0 unless no samples are taken"), g)).
Proof.
  split.
  - intros Hk. split.
    + unfold fit, fit_init, init_centers, choice. rewrite Hk.
      rewrite andb_false_r. cbn [fst snd bind seq map].
      unfold _compute_distance. rewrite Hk. reflexivity.
    + unfold predict. rewrite Hk. reflexivity.
  - intros Hk Hn. unfold fit, fit_init, init_centers, choice. rewrite Hn.
    destruct (_k self) as [| k]; [lia |]. reflexivity.
Qed.

(** X5: a call of [fit] that returns without an iteration, because the
    patience is not positive or the iteration bound is negative, hands
    back an instance that is not trained: it holds no centroids for view
    1, those of view 2 are the drawn rows of view 2, and [predict] on it
    ends with a [TypeError] for every input. *)
Theorem fit_without_iteration_leaves_untrained
        (self : t) (Xs : views) (patience : Z) (g : rng) (fuel : nat) (s : t) :
  (patience <= 0)%Z \/ lt_bound 0 (_max_iter self) = false ->
  fst (fit self Xs patience g fuel) = Some (Ok s) ->
  untrained s = true /\
  (exists indices,
      fst (init_centers Xs (_k self) g) = Ok (indices, take_rows (snd Xs) indices) /\
      _centroids s = Some (None, Some (take_rows (snd Xs) indices))) /\
  forall Ys, predict s Ys = Raise TypeError "'NoneType' object is not subscriptable".
Proof.
  intros Hstop Hfit. unfold fit in Hfit.
  destruct (fit_init self Xs g) as [[st0|? ?] g'] eqn:E0; cbn [fst] in Hfit;
    [| discriminate Hfit].
  assert (Hinit : fst (fit_init self Xs g) = Ok st0) by now rewrite E0.
  destruct (KMeansLoop.fit_init_spec self Xs g st0 Hinit) as (Hnum & Hstall & _).
  assert (Hg : guard self patience st0 = false).
  { unfold guard. rewrite Hnum, Hstall. destruct Hstop as [H|H].
    - rewrite (proj2 (Z.ltb_ge 0 patience) H). reflexivity.
    - rewrite H. apply andb_false_r. }
  assert (El : em_loop fuel self Xs patience st0 = Some (Ok st0)).
  { destruct fuel; simpl; rewrite Hg; reflexivity. }
  rewrite El in Hfit. injection Hfit as <-.
  clear E0 El Hg Hnum Hstall.
  unfold fit_init, init_centers, choice in Hinit |- *.
  destruct ((nrows (snd Xs) =? 0) && negb (_k self =? 0)); cbn [fst snd bind] in Hinit |- *;
    [discriminate Hinit |].
  set (indices := map (fun i => g i mod nrows (snd Xs)) (seq 0 (_k self))) in *.
  destruct (_compute_distance self (snd Xs) (Some (take_rows (snd Xs) indices)))
    as [D|? ?] eqn:ED; [| discriminate Hinit].
  cbn [bind] in Hinit. injection Hinit as <-.
  assert (Hk : 1 <= _k self).
  { unfold _compute_distance in ED. destruct (_k self); [discriminate ED | lia]. }
  unfold untrained, set_centroids. cbn [_centroids centroids].
  split; [reflexivity | split; [exists indices; split; reflexivity |]].
  intros Ys. unfold predict. cbn [_k]. destruct (_k self) as [| k] eqn:Ek; [lia |].
  cbn [seq mapM]. unfold consensus at 1. unfold centroids_at. cbn [_centroids bind get2 Z.eqb fst].
  unfold _compute_distance. cbn [_k]. reflexivity.
Qed.

Lemma fit_without_iteration_leaves_untrained_witness :
  exists s,
    ((0 <= 0)%Z \/ lt_bound 0 (_max_iter Examples.km) = false) /\
    fst (fit Examples.km Examples.Xs 0 Examples.g_0110 10) = Some (Ok s) /\
    untrained s = true /\
    (exists indices,
        fst (init_centers Examples.Xs (_k Examples.km) Examples.g_0110)
        = Ok (indices, take_rows (snd Examples.Xs) indices) /\
        _centroids s = Some (None, Some (take_rows (snd Examples.Xs) indices))) /\
    forall Ys, predict s Ys = Raise TypeError "'NoneType' object is not subscriptable".
Proof.
  eexists. split; [left; lia |]. split; [vm_compute; reflexivity |].
  apply (fit_without_iteration_leaves_untrained
           Examples.km Examples.Xs 0 Examples.g_0110 10 _ (or_introl (Z.le_refl 0))).
  vm_compute. reflexivity.
Defined.

Module DistanceFacts.

Lemma round_not_negative (m e : Z) (l : location) :
  ltb (binary_round_aux prec emax false m e l) zero = false.
Proof.
  unfold binary_round_aux.
  destruct (shr_fexp prec emax m e l) as [mrs' e'].
  destruct (shr_fexp prec emax _ e' loc_Exact) as [mrs'' e''].
  destruct (shr_m mrs'') as [| p | p]; try reflexivity.
  destruct (Z.leb e'' (Z.sub emax prec)); reflexivity.
Qed.

(** A square root is never below zero. *)
Lemma sqrt_not_negative (x : num) : ltb (sqrt x) zero = false.
Proof.
  destruct x as [[|] | [|] | | [|] m e]; try reflexivity.
  unfold sqrt, SFsqrt. destruct (SFsqrt_core_binary prec emax (Zpos m) e) as [[mz ez] lz].
  apply round_not_negative.
Qed.

Lemma good_widths (k d : nat) (c X : matrix) :
  good k d c -> Forall (fun r => length r = d) X ->
  forall cl, cl < k -> Forall (fun r => length r = length (nth cl c [])) X.
Proof.
  intros [Hl Hw] HX cl Hcl. apply Forall_forall. intros r Hr.
  rewrite Forall_forall in HX, Hw. rewrite (HX r Hr). symmetry. apply Hw. apply nth_In. lia.
Qed.

(** The labels read off a distance matrix of [k] rows: one per sample,
    each below [k]. *)
Lemma labels_valid (self : t) (X c D : matrix) (n d : nat) :
  1 <= _k self -> good (_k self) d c ->
  length X = n -> Forall (fun r => length r = d) X ->
  _compute_distance self X (Some c) = Ok D ->
  length (argmin_axis0 D) = n /\ Forall (fun l => l < _k self) (argmin_axis0 D).
Proof.
  intros Hk Hg Hn HX HD.
  rewrite (compute_distance_ok self X c Hk (proj1 Hg) (good_widths _ _ _ _ Hg HX)) in HD.
  injection HD as <-.
  destruct (argmin_axis0_spec
              (map (fun cl => map (fun r => dist r (nth cl c [])) X) (seq 0 (_k self)))
              (_k self) n) as [Hlen Hlab].
  - now rewrite length_map, length_seq.
  - exact Hk.
  - apply Forall_forall. intros r Hr. apply in_map_iff in Hr.
    destruct Hr as (cl & <- & _). now rewrite length_map.
  - split; [exact Hlen |]. apply Forall_forall. intros l Hl.
    apply In_nth_error in Hl. destruct Hl as (i & Hi).
    exact (proj1 (Hlab i l Hi)).
Qed.

(** The first sample and the first centroid differ in width, and neither
    width is one: the first subtraction fails to broadcast. *)
Lemma compute_distance_width_mismatch (self : t) (X c : matrix) (n d e : nat) :
  1 <= _k self -> 1 <= length c -> Forall (fun r => length r = d) c ->
  1 <= length X -> Forall (fun r => length r = e) X ->
  e <> d -> e <> 1 -> d <> 1 ->
  _compute_distance self X (Some c)
  = Raise ValueError "operands could not be broadcast together".
Proof.
  intros Hk Hc Hcw Hx Hxw Hne He Hd. unfold _compute_distance.
  destruct (_k self) as [| k]; [lia |]. cbn [seq mapM].
  destruct c as [| crow c]; [simpl in Hc; lia |].
  destruct X as [| r X]; [simpl in Hx; lia |].
  inversion Hcw as [| ? ? Hcl _]; subst. inversion Hxw as [| ? ? Hrl _]; subst.
  cbn [getitem_row nth_error bind]. unfold sub_rows. cbn [mapM].
  unfold broadcast1 at 1.
  destruct (Nat.eqb_spec (length r) (length crow)) as [E|E]; [congruence |].
  destruct crow as [| y [| y2 crow]]; destruct r as [| x [| x2 r]]; simpl in *;
    try congruence; reflexivity.
Qed.

End DistanceFacts.

Import DistanceFacts.

(** X6: for centroids with at least [k >= 1] rows of the width of the
    view, [_compute_distance] returns [k] rows of one entry per sample;
    the entry of row [cl] for sample [i] is the Euclidean distance of the
    sample to centroid [cl], and no entry is below zero. *)
Theorem compute_distance_shape_and_sign (self : t) (X c : matrix) (n d : nat) :
  1 <= _k self -> good (_k self) d c -> shape X n d = true ->
  exists D,
    _compute_distance self X (Some c) = Ok D /\
    length D = _k self /\
    Forall (fun row => length row = n) D /\
    (forall cl i, cl < _k self -> i < n ->
                  nth i (nth cl D []) nan = dist (nth i X []) (nth cl c [])) /\
    Forall (Forall (fun x => ltb x zero = false)) D.
Proof.
  intros Hk Hg HX. destruct (shape_inv _ _ _ HX) as [Hn Hw].
  eexists. split; [exact (compute_distance_ok self X c Hk (proj1 Hg) (good_widths _ _ _ _ Hg Hw)) |].
  split; [now rewrite length_map, length_seq | split; [| split]].
  - apply Forall_forall. intros row Hr. apply in_map_iff in Hr.
    destruct Hr as (cl & <- & _). now rewrite length_map.
  - intros cl i Hcl Hi.
    rewrite (nth_map_seq _ _ _ _ Hcl).
    rewrite (nth_indep _ nan (dist [] (nth cl c []))) by (rewrite length_map; lia).
    exact (map_nth (fun r => dist r (nth cl c [])) X [] i).
  - apply Forall_forall. intros row Hr. apply in_map_iff in Hr. destruct Hr as (cl & <- & _).
    apply Forall_forall. intros x Hx. apply in_map_iff in Hx. destruct Hx as (r & <- & _).
    apply sqrt_not_negative.
Qed.

Lemma compute_distance_shape_and_sign_witness :
  1 <= _k Examples.km /\ good (_k Examples.km) 1 Examples.X1 /\
  shape Examples.X0 2 1 = true /\
  exists D,
    _compute_distance Examples.km Examples.X0 (Some Examples.X1) = Ok D /\
    length D = _k Examples.km /\
    Forall (fun row => length row = 2) D /\
    (forall cl i, cl < _k Examples.km -> i < 2 ->
                  nth i (nth cl D []) nan = dist (nth i Examples.X0 []) (nth cl Examples.X1 [])) /\
    Forall (Forall (fun x => ltb x zero = false)) D.
Proof.
  assert (Hg : good (_k Examples.km) 1 Examples.X1).
  { split; [simpl; lia |]. repeat constructor. }
  split; [simpl; lia | split; [exact Hg | split; [reflexivity |]]].
  apply (compute_distance_shape_and_sign Examples.km Examples.X0 Examples.X1 2 1);
    [simpl; lia | exact Hg | reflexivity].
Defined.

(** X7: on views of [n] samples, the partition of view 2 that [fit] enters
    its loop with, which every later state keeps, and the partition every
    iteration recomputes, hold one label per sample, each below [k]. *)
Theorem fit_partitions_are_labelings
        (self : t) (Xs : views) (patience : Z) (g : rng) (st0 st : locals) (n d0 d1 : nat) :
  shape (fst Xs) n d0 = true -> shape (snd Xs) n d1 = true ->
  fst (fit_init self Xs g) = Ok st0 ->
  iterates self Xs patience st0 st ->
  (exists p, partitions st = (None, Some p) /\
             length p = n /\ Forall (fun l => l < _k self) p) /\
  (forall p, new_partitions st = Some p ->
             length p = n /\ Forall (fun l => l < _k self) p).
Proof.
  intros HX0 HX1 Hinit Hreach.
  destruct (shape_inv _ _ _ HX0) as [Hn0 Hw0].
  destruct (shape_inv _ _ _ HX1) as [Hn1 Hw1].
  destruct (fit_init_shape self Xs g st0 n d1 Hinit Hn1 Hw1) as (Hk & Hn & c1 & Ec1 & Hg1).
  destruct (fit_init_ok self Xs g n d1 Hn Hk HX1) as (indices & parts & _ & Hnear & Hlen & Hinit').
  rewrite Hinit in Hinit'. injection Hinit' as Est0.
  pose proof (KMeansLoop.loop_inv_init self Xs patience g st0 Hinit) as Hinv0.
  pose proof (KMeansLoop.loop_inv_iterates self Xs patience st0 st0 st Hinv0 Hreach) as Hinv.
  split.
  - exists parts. rewrite (inv_parts _ _ _ _ _ Hinv), Est0. cbn [partitions].
    split; [reflexivity |]. split; [exact Hlen |].
    unfold nearest in Hnear.
    destruct (_compute_distance self (snd Xs) (Some (take_rows (snd Xs) indices)))
      as [D|? ?] eqn:ED; [| discriminate Hnear].
    cbn [bind] in Hnear. injection Hnear as <-.
    rewrite Est0 in Ec1. cbn [centroids] in Ec1. injection Ec1 as <-.
    exact (proj2 (labels_valid self (snd Xs) _ D n d1 Hk Hg1 Hn1 Hw1 ED)).
  - intros p Hp. inversion Hreach as [E | a b Ha [_ Hstep] E].
    + subst st. rewrite Est0 in Hp. discriminate Hp.
    + subst b. unfold em_step in Hstep.
      set (v := ((iter_num a + 1 + 1) mod 2)%Z) in *.
      destruct (m_step (_k self) (get2 Xs v) (get2 (partitions a) ((v + 1) mod 2)%Z))
        as [cents|? ?] eqn:Em; [| discriminate Hstep]. cbn [bind] in Hstep.
      rewrite KMeansLoop.get2_set2_same in Hstep.
      destruct (_compute_distance self (get2 Xs v) (Some cents)) as [D|? ?] eqn:ED;
        [| discriminate Hstep]. cbn [bind] in Hstep.
      destruct (o_funct (_k self) (get2 Xs v) (get2 (partitions a) v) (Some cents))
        as [o|? ?]; [| discriminate Hstep]. cbn [bind] in Hstep.
      assert (Hnp : new_partitions st = Some (argmin_axis0 D)).
      { destruct (ltb o (get2 (objective a) v)); injection Hstep as <-; reflexivity. }
      rewrite Hnp in Hp. injection Hp as <-.
      unfold get2 in Em, ED. destruct (v =? 0)%Z.
      * destruct (m_step_shape _ _ _ _ d0 Em) as [_ Hg]; [lia | exact Hw0 |].
        exact (labels_valid self (fst Xs) cents D n d0 Hk Hg Hn0 Hw0 ED).
      * destruct (m_step_shape _ _ _ _ d1 Em) as [_ Hg]; [lia | exact Hw1 |].
        exact (labels_valid self (snd Xs) cents D n d1 Hk Hg Hn1 Hw1 ED).
Qed.

Lemma fit_partitions_are_labelings_witness :
  shape (fst Examples.Xs) 2 1 = true /\ shape (snd Examples.Xs) 2 1 = true /\
  fst (fit_init Examples.km Examples.Xs Examples.g_0110) = Ok Examples.st_init /\
  iterates Examples.km Examples.Xs 5 Examples.st_init Examples.st_init /\
  (exists p, partitions Examples.st_init = (None, Some p) /\
             length p = 2 /\ Forall (fun l => l < _k Examples.km) p) /\
  (forall p, new_partitions Examples.st_init = Some p ->
             length p = 2 /\ Forall (fun l => l < _k Examples.km) p).
Proof.
  assert (H0 : fst (fit_init Examples.km Examples.Xs Examples.g_0110) = Ok Examples.st_init)
    by (vm_compute; reflexivity).
  split; [reflexivity | split; [reflexivity | split; [exact H0 |]]].
  split; [apply iterates_refl |].
  apply (fit_partitions_are_labelings Examples.km Examples.Xs 5 Examples.g_0110
                                      Examples.st_init Examples.st_init 2 1 1);
    [reflexivity | reflexivity | exact H0 | apply iterates_refl].
Defined.

Lemma fit_rejects_no_cluster_and_no_sample_witness :
  _k (__init__ 0 None None) = 0 /\
  1 <= _k Examples.km /\ nrows (snd (Examples.X0, [])) = 0 /\
  fst (fit (__init__ 0 None None) Examples.Xs 5 Examples.g_0110 10)
  = Some (Raise ValueError "need at least one array to concatenate") /\
  predict (__init__ 0 None None) Examples.Xs
  = Raise ValueError "need at least one array to concatenate" /\
  fit Examples.km (Examples.X0, []) 5 Examples.g_0110 10
  = (Some (Raise ValueError "a must be greater than 0 unless no samples are taken"),
     Examples.g_0110).
Proof.
  split; [reflexivity | split; [simpl; lia | split; [reflexivity |]]].
  split; [| split].
  - apply (proj1 (fit_rejects_no_cluster_and_no_sample
                    (__init__ 0 None None) Examples.Xs 5 Examples.g_0110 10)). reflexivity.
  - apply (proj1 (fit_rejects_no_cluster_and_no_sample
                    (__init__ 0 None None) Examples.Xs 5 Examples.g_0110 10)). reflexivity.
  - apply (proj2 (fit_rejects_no_cluster_and_no_sample
                    Examples.km (Examples.X0, []) 5 Examples.g_0110 10));
      [simpl; lia | reflexivity].
Defined.

Module PredictErrors.

Lemma broadcast1_cases {A B : Type} (f : A -> A -> B) (a b : list A) :
  length a <> length b ->
  (length b = 1 -> exists r, broadcast1 f a b = Ok r /\ length r = length a) /\
  (length b <> 1 -> length a = 1 ->
   exists r, broadcast1 f a b = Ok r /\ length r = length b) /\
  (length b <> 1 -> length a <> 1 ->
   broadcast1 f a b = Raise ValueError "operands could not be broadcast together").
Proof.
  intros Hne. unfold broadcast1.
  destruct (Nat.eqb_spec (length a) (length b)) as [E|_]; [congruence |].
  split; [| split].
  - intros Hb. destruct b as [| y [| y2 b]]; try discriminate Hb.
    destruct a as [| x [| x2 a]]; eexists; (split; [reflexivity | now rewrite length_map]).
  - intros Hb Ha. destruct a as [| x [| x2 a]]; try discriminate Ha.
    destruct b as [| y [| y2 b]]; try (simpl in Hb; congruence);
      (eexists; split; [reflexivity | now rewrite length_map]).
  - intros Hb Ha.
    destruct b as [| y [| y2 b]]; destruct a as [| x [| x2 a]]; simpl in *;
      try congruence; reflexivity.
Qed.

End PredictErrors.

(** X8: [predict] on a fitted model ends with numpy's broadcasting
    [ValueError] when the samples of a view have another number of
    features than the centroids of that view, neither number being one. *)
Theorem predict_rejects_other_feature_count
        (self : t) (Xs : views) (n d0 d1 e0 e1 : nat) :
  fitted self d0 d1 = true ->
  shape (fst Xs) n e0 = true -> shape (snd Xs) n e1 = true -> 1 <= n ->
  (e0 <> d0 /\ e0 <> 1 /\ d0 <> 1) \/ (e0 = d0 /\ e1 <> d1 /\ e1 <> 1 /\ d1 <> 1) ->
  predict self Xs = Raise ValueError "operands could not be broadcast together".
Proof.
  intros Hf HX0 HX1 Hn Hbad.
  destruct (fitted_inv _ _ _ Hf) as (c0 & c1 & Hc & Hk & Hl0 & Hl1 & Hw0 & Hw1).
  destruct (shape_inv _ _ _ HX0) as [Hn0 He0].
  destruct (shape_inv _ _ _ HX1) as [Hn1 He1].
  assert (Hcons : consensus self Xs 0
                  = Raise ValueError "operands could not be broadcast together").
  { unfold consensus, centroids_at. rewrite Hc. cbn [bind get2 Z.eqb fst snd].
    destruct Hbad as [(Hne & H1 & H2)|(-> & Hne & H1 & H2)].
    - rewrite (compute_distance_width_mismatch self (fst Xs) c0 n d0 e0); try assumption; try lia.
      reflexivity.
    - destruct (distances_ok self (fst Xs) c0 n d0 Hk Hl0 Hw0 Hn0 He0) as (D & -> & _).
      cbn [bind].
      rewrite (compute_distance_width_mismatch self (snd Xs) c1 n d1 e1); try assumption; try lia.
      reflexivity. }
  unfold predict. destruct (_k self) as [| k]; [lia |]. cbn [seq mapM].
  rewrite Hcons. reflexivity.
Qed.

Lemma predict_rejects_other_feature_count_witness :
  fitted Examples.km_wide 2 2 = true /\
  shape (fst (Examples.X3, Examples.X3)) 2 3 = true /\
  shape (snd (Examples.X3, Examples.X3)) 2 3 = true /\ 1 <= 2 /\
  ((3 <> 2 /\ 3 <> 1 /\ 2 <> 1) \/ (3 = 2 /\ 3 <> 2 /\ 3 <> 1 /\ 2 <> 1)) /\
  predict Examples.km_wide (Examples.X3, Examples.X3)
  = Raise ValueError "operands could not be broadcast together".
Proof.
  assert (H : (3 <> 2 /\ 3 <> 1 /\ 2 <> 1) \/ (3 = 2 /\ 3 <> 2 /\ 3 <> 1 /\ 2 <> 1))
    by (left; lia).
  split; [reflexivity | split; [reflexivity | split; [reflexivity | split; [lia |]]]].
  split; [exact H |].
  apply (predict_rejects_other_feature_count
           Examples.km_wide (Examples.X3, Examples.X3) 2 2 2 3 3);
    [reflexivity | reflexivity | reflexivity | lia | exact H].
Defined.

(** X9: [predict] on a fitted model never returns labels for two views
    of different sample counts: the product of the two cluster masks fails
    to broadcast with a [ValueError], or, when one of the views has a
    single sample, broadcasts and then fails to index the other view, with
    an [IndexError]. *)
Theorem predict_rejects_unequal_sample_counts
        (self : t) (Xs : views) (n0 n1 d0 d1 : nat) :
  fitted self d0 d1 = true ->
  shape (fst Xs) n0 d0 = true -> shape (snd Xs) n1 d1 = true ->
  1 <= n0 -> 1 <= n1 -> n0 <> n1 ->
  predict self Xs
  = (if (n0 =? 1) || (n1 =? 1)
     then Raise IndexError "boolean index did not match indexed array along dimension 0"
     else Raise ValueError "operands could not be broadcast together").
Proof.
  intros Hf HX0 HX1 H0 H1 Hne.
  destruct (fitted_inv _ _ _ Hf) as (c0 & c1 & Hc & Hk & Hl0 & Hl1 & Hw0 & Hw1).
  destruct (shape_inv _ _ _ HX0) as [Hn0 He0].
  destruct (shape_inv _ _ _ HX1) as [Hn1 He1].
  destruct (distances_ok self (fst Xs) c0 n0 d0 Hk Hl0 Hw0 Hn0 He0) as (D0 & HD0 & _ & Hp0).
  destruct (distances_ok self (snd Xs) c1 n1 d1 Hk Hl1 Hw1 Hn1 He1) as (D1 & HD1 & _ & Hp1).
  assert (Hcons : consensus self Xs 0
                  = (if (n0 =? 1) || (n1 =? 1)
                     then Raise IndexError
                                "boolean index did not match indexed array along dimension 0"
                     else Raise ValueError "operands could not be broadcast together")).
  { unfold consensus, centroids_at. rewrite Hc. cbn [bind get2 Z.eqb fst snd].
    rewrite HD0. cbn [bind]. rewrite HD1. cbn [bind].
    set (m0 := map (fun x => x =? 0) (argmin_axis0 D0)).
    set (m1 := map (fun x => x =? 0) (argmin_axis0 D1)).
    assert (Hm0 : length m0 = n0) by (unfold m0; now rewrite length_map).
    assert (Hm1 : length m1 = n1) by (unfold m1; now rewrite length_map).
    destruct (PredictErrors.broadcast1_cases andb m0 m1) as (Ha & Hb & Hc');
      [rewrite Hm0, Hm1; exact Hne |].
    rewrite Hm0, Hm1 in Ha, Hb, Hc'.
    destruct (Nat.eqb_spec n1 1) as [E1|E1].
    - rewrite orb_true_r. destruct (Ha E1) as (r & -> & Hr). cbn [bind].
      unfold getitem_mask, nrows. rewrite Hr, Hn0, Hn1, Nat.eqb_refl. cbn [bind].
      destruct (Nat.eqb_spec n0 n1) as [E|E]; [congruence | reflexivity].
    - rewrite orb_false_r. destruct (Nat.eqb_spec n0 1) as [E0|E0].
      + destruct (Hb E1 E0) as (r & -> & Hr). cbn [bind].
        unfold getitem_mask, nrows. rewrite Hr, Hn0.
        destruct (Nat.eqb_spec n1 n0) as [E|E]; [congruence | reflexivity].
      + rewrite (Hc' E1 E0). reflexivity. }
  unfold predict. destruct (_k self) as [| k]; [lia |]. cbn [seq mapM].
  rewrite Hcons. destruct ((n0 =? 1) || (n1 =? 1)); reflexivity.
Qed.

Lemma predict_rejects_unequal_sample_counts_witness :
  fitted Examples.km_fitted 1 1 = true /\
  shape (fst (Examples.X0, [[of_Z 0]])) 2 1 = true /\
  shape (snd (Examples.X0, [[of_Z 0]])) 1 1 = true /\
  1 <= 2 /\ 1 <= 1 /\ 2 <> 1 /\
  predict Examples.km_fitted (Examples.X0, [[of_Z 0]])
  = (if (2 =? 1) || (1 =? 1)
     then Raise IndexError "boolean index did not match indexed array along dimension 0"
     else Raise ValueError "operands could not be broadcast together").
Proof.
  assert (H : 2 <> 1) by lia.
  split; [reflexivity | split; [reflexivity | split; [reflexivity |]]].
  split; [lia | split; [lia | split; [exact H |]]].
  apply (predict_rejects_unequal_sample_counts
           Examples.km_fitted (Examples.X0, [[of_Z 0]]) 2 1 1 1);
    [reflexivity | reflexivity | reflexivity | lia | lia | exact H].
Defined.

(* ===================================================================== *)
(** * The order of the additions of a sum *)
(* ===================================================================== *)

Module SumFacts.

Lemma fold_nan (l : vec) : fold_left add l nan = nan.
Proof. induction l as [| x l IH]; [reflexivity |]. cbn [fold_left]. exact IH. Qed.

(** Fewer than 8 numbers are added left to right. *)
Lemma block_sum_short (l : vec) :
  length l < 8 -> l <> [] -> block_sum l = accumulate l.
Proof.
  intros Hl Hne. unfold block_sum. rewrite (proj2 (Nat.ltb_lt _ _) Hl).
  destruct l as [| x t]; [congruence |]. cbn [fold_left accumulate].
  f_equal. destruct x as [[|] | [|] | | [|] m e]; reflexivity.
Qed.

Lemma fsum_short (l : vec) : length l < 8 -> fsum l = accumulate l.
Proof.
  intros Hl. destruct l as [| x t]; [reflexivity |]. unfold fsum.
  assert (E : forall f, pairwise_sum f (x :: t) = block_sum (x :: t)).
  { intros [| f]; [reflexivity |]. cbn [pairwise_sum].
    destruct (Nat.ltb_spec 128 (length (x :: t))) as [H|H]; [lia | reflexivity]. }
  rewrite E. apply block_sum_short; [exact Hl | discriminate].
Qed.

(** Eight numbers are added as a balanced tree. *)
Lemma fsum_eight (a0 a1 a2 a3 a4 a5 a6 a7 : num) :
  fsum [a0; a1; a2; a3; a4; a5; a6; a7]
  = add (add (add a0 a1) (add a2 a3)) (add (add a4 a5) (add a6 a7)).
Proof. reflexivity. Qed.

(** Sixteen numbers: two blocks of 8 added accumulator by accumulator,
    then the tree; a ninth number is added to the tree of the first 8. *)
Lemma fsum_sixteen (a0 a1 a2 a3 a4 a5 a6 a7 b0 b1 b2 b3 b4 b5 b6 b7 : num) :
  fsum [a0; a1; a2; a3; a4; a5; a6; a7; b0; b1; b2; b3; b4; b5; b6; b7]
  = add (add (add (add a0 b0) (add a1 b1)) (add (add a2 b2) (add a3 b3)))
        (add (add (add a4 b4) (add a5 b5)) (add (add a6 b6) (add a7 b7))).
Proof. reflexivity. Qed.

Lemma fsum_nine (a0 a1 a2 a3 a4 a5 a6 a7 a8 : num) :
  fsum [a0; a1; a2; a3; a4; a5; a6; a7; a8]
  = add (add (add (add a0 a1) (add a2 a3)) (add (add a4 a5) (add a6 a7))) a8.
Proof. reflexivity. Qed.

(** A distance over eight features and a mean over eight rows of one
    feature follow the pairwise order; a mean over eight rows of two
    features adds the rows one after the other. *)
Lemma sums_of_eight :
  let big := of_Z (2 ^ 53) in
  let ones := [of_Z 1; of_Z 1; of_Z 1; of_Z 1; of_Z 1; of_Z 1; of_Z 1] in
  KMeans.dist (of_Z 94906267 :: ones) (map (fun _ => zero) (of_Z 94906267 :: ones))
  = S754_finite false 6369051764850690 (-26) /\
  sqrt (accumulate (map (fun x => mul x x) (of_Z 94906267 :: ones)))
  = S754_finite false 6369051764850688 (-26) /\
  mean_rows 1 (map (fun x => [x]) (big :: ones)) = [div (of_Z (2 ^ 53 + 6)) (of_Z 8)] /\
  mean_rows 2 (map (fun x => [x; x]) (big :: ones)) = [div big (of_Z 8); div big (of_Z 8)].
Proof. repeat split; vm_compute; reflexivity. Qed.

(** The order matters: with 2^53 and seven times 1.0, adding left to
    right loses every 1.0, and the pairwise sum is 2^53 + 6. *)
Lemma fsum_order_matters :
  let big := of_Z (2 ^ 53) in
  let l := [big; of_Z 1; of_Z 1; of_Z 1; of_Z 1; of_Z 1; of_Z 1; of_Z 1] in
  accumulate l = big /\ fsum l = of_Z (2 ^ 53 + 6).
Proof. split; vm_compute; reflexivity. Qed.

(** The part a long run is cut at. *)
Lemma cut_bounds (n : nat) :
  128 < n -> 57 <= n / 2 - (n / 2) mod 8 /\ n / 2 - (n / 2) mod 8 + 57 <= n.
Proof.
  intros H. pose proof (Nat.mod_upper_bound (n / 2) 8 ltac:(lia)) as Hm.
  pose proof (Nat.div_mod_eq n 2) as Hd.
  pose proof (Nat.mod_upper_bound n 2 ltac:(lia)) as Hm2. lia.
Qed.

(** Fuel from the length of the run on gives one and the same sum. *)
Lemma pairwise_sum_fuel (f1 : nat) :
  forall f2 a, length a <= f1 -> length a <= f2 -> pairwise_sum f1 a = pairwise_sum f2 a.
Proof.
  induction f1 as [| f1 IH]; intros f2 a H1 H2.
  - destruct f2 as [| f2]; [reflexivity |]. cbn [pairwise_sum].
    destruct (Nat.ltb_spec 128 (length a)) as [H|H]; [lia | reflexivity].
  - cbn [pairwise_sum]. destruct (Nat.ltb_spec 128 (length a)) as [H|H].
    + destruct f2 as [| f2]; [lia |]. cbn [pairwise_sum].
      rewrite (proj2 (Nat.ltb_lt _ _) H).
      destruct (cut_bounds (length a) H) as [Hlo Hhi].
      f_equal; apply IH; rewrite ?length_firstn, ?length_skipn; lia.
    + destruct f2 as [| f2]; [reflexivity |]. cbn [pairwise_sum].
      destruct (Nat.ltb_spec 128 (length a)) as [H'|H']; [lia | reflexivity].
Qed.

(** A run that starts with NaN sums to NaN. *)
Lemma lanes_head (b : nat) :
  forall r rest,
    r = [] \/ (exists r', r = nan :: r') ->
    fst (lanes r rest b) = [] \/ exists r', fst (lanes r rest b) = nan :: r'.
Proof.
  induction b as [| b IH]; intros r rest Hr; [exact Hr |].
  cbn [lanes]. apply IH.
  destruct Hr as [->|(r' & ->)]; [left; reflexivity |].
  destruct (firstn 8 rest) as [| y ys]; [left; reflexivity |].
  right. eexists. reflexivity.
Qed.

Lemma tree8_head (r : vec) :
  r = [] \/ (exists r', r = nan :: r') -> tree8 r = nan.
Proof.
  intros [->|(r' & ->)]; [reflexivity |].
  destruct r' as [| r1 [| r2 [| r3 [| r4 [| r5 [| r6 [| r7 [| r8 r']]]]]]]]; reflexivity.
Qed.

Lemma block_sum_head_nan (t : vec) : block_sum (nan :: t) = nan.
Proof.
  unfold block_sum. destruct (length (nan :: t) <? 8).
  - cbn [fold_left]. apply fold_nan.
  - destruct (lanes (firstn 8 (nan :: t)) (skipn 8 (nan :: t))
                    ((length (nan :: t) - length (nan :: t) mod 8 - 8) / 8))
      as [r rest] eqn:E.
    assert (Hr : r = [] \/ exists r', r = nan :: r').
    { change r with (fst (r, rest)). rewrite <- E. apply lanes_head.
      right. eexists. reflexivity. }
    rewrite (tree8_head r Hr). apply fold_nan.
Qed.

Lemma pairwise_sum_head_nan (f : nat) : forall t, pairwise_sum f (nan :: t) = nan.
Proof.
  induction f as [| f IH]; intros t; cbn [pairwise_sum]; [apply block_sum_head_nan |].
  destruct (Nat.ltb_spec 128 (length (nan :: t))) as [H|H]; [| apply block_sum_head_nan].
  destruct (cut_bounds _ H) as [Hlo _].
  destruct (length (nan :: t) / 2 - (length (nan :: t) / 2) mod 8) as [| n2]; [lia |].
  cbn [firstn]. rewrite IH. reflexivity.
Qed.

Lemma fsum_head_nan (t : vec) : fsum (nan :: t) = nan.
Proof. unfold fsum. apply pairwise_sum_head_nan. Qed.

End SumFacts.

Module NanFacts.

Lemma add_nan_r (x : num) : add x nan = nan.
Proof. destruct x as [[|] | [|] | | [|] m e]; reflexivity. Qed.

Lemma add_nan_l (x : num) : add nan x = nan.
Proof. reflexivity. Qed.

Lemma sub_nan_r (x : num) : sub x nan = nan.
Proof. destruct x as [[|] | [|] | | [|] m e]; reflexivity. Qed.

(** The distance to a centroid whose first coordinate is NaN. *)
Lemma dist_nan (r c : vec) (x : num) (r' c' : vec) :
  r = x :: r' -> c = nan :: c' -> dist r c = nan.
Proof.
  intros -> ->. unfold dist, norm. cbn [combine map fst snd].
  rewrite sub_nan_r. change (mul nan nan) with nan.
  rewrite SumFacts.fsum_head_nan. reflexivity.
Qed.

Lemma argmin_from_nan (best : num) (bi i : nat) (l : vec) :
  is_nan best = true -> argmin_from best bi i l = bi.
Proof. intros H. destruct l; [reflexivity |]. cbn [argmin_from]. now rewrite H. Qed.

Lemma argmin_from_le_nan (l : vec) :
  forall best bi i p,
    bi <= i -> p < length l -> is_nan (nth p l zero) = true ->
    argmin_from best bi i l <= i + p.
Proof.
  induction l as [| x t IH]; intros best bi i p Hbi Hp Hnan; [simpl in Hp; lia |].
  cbn [argmin_from]. destruct (is_nan best); [lia |].
  destruct p as [| p].
  - cbn [nth] in Hnan. rewrite Hnan. cbn [orb].
    rewrite (argmin_from_nan x i (S i) t Hnan). lia.
  - cbn [nth] in Hnan. simpl in Hp.
    destruct (is_nan x || ltb x best).
    + pose proof (IH x i (S i) p ltac:(lia) ltac:(lia) Hnan). lia.
    + pose proof (IH best bi (S i) p ltac:(lia) ltac:(lia) Hnan). lia.
Qed.

(** [np.argmin] returns an index at or before every NaN. *)
Lemma argmin_le_nan (l : vec) (p : nat) :
  p < length l -> is_nan (nth p l zero) = true -> argmin l <= p.
Proof.
  destruct l as [| x t]; [simpl; lia |]. intros Hp Hnan. unfold argmin.
  destruct p as [| p].
  - cbn [nth] in Hnan. rewrite (argmin_from_nan x 0 1 t Hnan). lia.
  - cbn [nth] in Hnan. simpl in Hp.
    pose proof (argmin_from_le_nan t x 0 1 p ltac:(lia) ltac:(lia) Hnan). lia.
Qed.

Lemma select_none {A : Type} (l : list A) (b : list bool) :
  Forall (fun x => x = false) b -> select l b = [].
Proof.
  revert b. induction l as [| a l IH]; intros b Hb; [destruct b as [| [] b]; reflexivity |].
  destruct b as [| x b]; [reflexivity |]. inversion Hb; subst. cbn [select]. apply IH. assumption.
Qed.

(** The mean over no row: NaN in every column. *)
Lemma mean_rows_empty (d : nat) : mean_rows d [] = map (fun _ => nan) (seq 0 d).
Proof.
  unfold mean_rows. apply map_ext. intros j. unfold sum_axis0.
  destruct (d =? 1); reflexivity.
Qed.

End NanFacts.

Import NanFacts.

(** The matrix of summed distances whose column-wise [argmin] is the
    result of [predict]. *)
Lemma predict_joint_matrix (self : t) (Xs : views) (n d0 d1 : nat) :
  fitted self d0 d1 = true ->
  shape (fst Xs) n d0 = true ->
  shape (snd Xs) n d1 = true ->
  exists c0 c1 p1 p2,
    _centroids self = Some (Some c0, Some c1) /\
    nearest self (fst Xs) (Some c0) = Ok p1 /\
    nearest self (snd Xs) (Some c1) = Ok p2 /\
    length p1 = n /\ length p2 = n /\
    predict self Xs
    = Ok (argmin_axis0 (map (fun c => map (fun i => joint_distance Xs p1 p2 c i) (seq 0 n))
                            (seq 0 (_k self)))).
Proof.
  destruct Xs as [X0 X1]. cbn [fst snd]. intros Hfit Hs0 Hs1.
  destruct (fitted_inv self d0 d1 Hfit) as (c0 & c1 & Hcent & Hk & Hc0 & Hc1 & Hw0 & Hw1).
  destruct (shape_inv X0 n d0 Hs0) as [Hn0 HX0].
  destruct (shape_inv X1 n d1 Hs1) as [Hn1 HX1].
  destruct (distances_ok self X0 c0 n d0 Hk Hc0 Hw0 Hn0 HX0) as (D1 & _ & Hp1 & Hl1).
  destruct (distances_ok self X1 c1 n d1 Hk Hc1 Hw1 Hn1 HX1) as (D2 & _ & Hp2 & Hl2).
  set (p1 := argmin_axis0 D1) in *. set (p2 := argmin_axis0 D2) in *.
  exists c0, c1, p1, p2.
  split; [exact Hcent | split; [exact Hp1 | split; [exact Hp2 | split; [exact Hl1 |]]]].
  split; [exact Hl2 |].
  set (k := _k self) in *.
  set (V1 := map (consensus_centroid X0 p1 p2) (seq 0 k)).
  set (V2 := map (consensus_centroid X1 p1 p2) (seq 0 k)).
  unfold predict. fold k.
  rewrite (mapM_ok _ (fun c => (Arr1 (consensus_centroid X0 p1 p2 c),
                                Arr1 (consensus_centroid X1 p1 p2 c)))).
  2:{ intros c _. apply (consensus_ok self X0 X1 c0 c1 p1 p2 n); assumption. }
  cbn [bind]. rewrite !map_map. cbn [fst snd].
  rewrite <- (map_map (consensus_centroid X0 p1 p2) Arr1).
  rewrite <- (map_map (consensus_centroid X1 p1 p2) Arr1).
  fold V1 V2.
  assert (HV1 : V1 <> []) by (unfold V1; destruct k; [lia | discriminate]).
  assert (HV2 : V2 <> []) by (unfold V2; destruct k; [lia | discriminate]).
  rewrite (vstack_rows V1 HV1), (vstack_rows V2 HV2). cbn [bind fst snd].
  rewrite (compute_distance_ok self X0 V1).
  2:{ exact Hk. }
  2:{ unfold V1. fold k. rewrite length_map, length_seq. lia. }
  2:{ fold k. intros cl Hcl. apply Forall_forall. intros r Hr.
      unfold V1. rewrite nth_map_seq by exact Hcl.
      unfold consensus_centroid, mean_rows. rewrite length_map, length_seq.
      rewrite (ncols_rows X0 d0 r HX0 Hr). rewrite Forall_forall in HX0. exact (HX0 r Hr). }
  cbn [bind].
  rewrite (compute_distance_ok self X1 V2).
  2:{ exact Hk. }
  2:{ unfold V2. fold k. rewrite length_map, length_seq. lia. }
  2:{ fold k. intros cl Hcl. apply Forall_forall. intros r Hr.
      unfold V2. rewrite nth_map_seq by exact Hcl.
      unfold consensus_centroid, mean_rows. rewrite length_map, length_seq.
      rewrite (ncols_rows X1 d1 r HX1 Hr). rewrite Forall_forall in HX1. exact (HX1 r Hr). }
  cbn [bind]. fold k.
  unfold add_matrix. rewrite combine_map_seq.
  rewrite (mapM_ok _ (fun p => map (fun q => add (fst q) (snd q)) (combine (fst p) (snd p)))).
  2:{ intros p Hp. apply in_map_iff in Hp. destruct Hp as (cl & <- & _). cbn [fst snd].
      apply broadcast1_same. rewrite !length_map. lia. }
  cbn [bind]. f_equal. f_equal. rewrite map_map. cbn [fst snd].
  apply map_ext_in. intros c Hc. apply in_seq in Hc.
  rewrite combine_map2, map_map. cbn [fst snd].
  apply (nth_ext _ _ nan nan); unfold matrix, vec in *.
  - rewrite !length_map, length_combine, length_seq, Hn0, Hn1. apply Nat.min_id.
  - intros i Hi. rewrite length_map, length_combine, Hn0, Hn1, Nat.min_id in Hi.
    rewrite nth_map_seq by lia.
    rewrite (nth_indep _ nan ((fun x : vec * vec =>
               add (dist (fst x) (nth c V1 [])) (dist (snd x) (nth c V2 []))) ([], [])))
      by (rewrite length_map, length_combine, Hn0, Hn1, Nat.min_id; exact Hi).
    rewrite (map_nth (fun x : vec * vec =>
               add (dist (fst x) (nth c V1 [])) (dist (snd x) (nth c V2 [])))).
    rewrite combine_nth by (rewrite Hn0, Hn1; reflexivity). cbn [fst snd].
    unfold V1, V2. rewrite !nth_map_seq by lia. reflexivity.
Qed.

(** The nearest-centroid partition under centroids whose first row starts
    with NaN: every sample goes to cluster 0. *)
Lemma nearest_nan_centroids (self : t) (X c : matrix) (d : nat) (p : list nat) (c' : vec) :
  1 <= _k self -> good (_k self) d c -> 1 <= d ->
  Forall (fun r => length r = d) X ->
  nth 0 c [] = nan :: c' ->
  nearest self X (Some c) = Ok p ->
  Forall (fun l => l = 0) p.
Proof.
  intros Hk Hg Hd HX Hrow Hp. unfold nearest in Hp.
  rewrite (compute_distance_ok self X c Hk (proj1 Hg) (good_widths _ _ _ _ Hg HX)) in Hp.
  cbn [bind] in Hp. injection Hp as <-.
  unfold argmin_axis0. apply Forall_forall. intros l Hl. apply in_map_iff in Hl.
  destruct Hl as (j & <- & _).
  destruct (_k self) as [| k]; [lia |]. cbn [seq map column].
  set (row := map (fun r => dist r (nth 0 c [])) X).
  assert (Hnan : is_nan (nth j row nan) = true).
  { destruct (Nat.lt_ge_cases j (length row)) as [Hj|Hj].
    - unfold row in *. rewrite length_map in Hj.
      rewrite (nth_indep _ nan (dist [] (nth 0 c []))) by (rewrite length_map; exact Hj).
      rewrite (map_nth (fun r => dist r (nth 0 c [])) X [] j).
      assert (Hr : length (nth j X []) = d).
      { rewrite Forall_forall in HX. apply HX. apply nth_In. exact Hj. }
      destruct (nth j X []) as [| x r'] eqn:Er; [simpl in Hr; lia |].
      rewrite (dist_nan (x :: r') (nth 0 c []) x r' c' eq_refl Hrow). reflexivity.
    - rewrite nth_overflow by exact Hj. reflexivity. }
  unfold argmin. apply argmin_from_nan. exact Hnan.
Qed.

(** The labels [predict] gives on a model [fit] returned after two
    iterations or more. *)
Lemma labels_after_fit
      (self : t) (Xs : views) (patience : Z) (g : rng) (fuel : nat) (s : t)
      (n d0 d1 : nat) (Ys : views) (m : nat) :
  shape (fst Xs) n d0 = true -> shape (snd Xs) n d1 = true -> 1 <= d1 ->
  (1 <= patience)%Z -> lt_bound 1 (_max_iter self) = true ->
  fst (fit self Xs patience g fuel) = Some (Ok s) ->
  shape (fst Ys) m d0 = true -> shape (snd Ys) m d1 = true ->
  exists labels,
    predict s Ys = Ok labels /\ length labels = m /\ Forall (fun l => l <= 1) labels.
Proof.
  intros HX0 HX1 Hd1 Hp Hm Hfit HY0 HY1.
  destruct (fit_centroids_closed self Xs patience g fuel s n d0 d1 HX0 HX1 Hp Hm Hfit)
    as (indices & parts & _ & _ & Hk & Hn & Eks & Hcs).
  assert (Hm0 : lt_bound 0 (_max_iter self) = true).
  { destruct (_max_iter self) as [z|]; [| reflexivity]. cbn [lt_bound] in *.
    apply Z.ltb_lt. apply Z.ltb_lt in Hm. lia. }
  assert (Hfitted : fitted s d0 d1 = true).
  { apply (fit_returns_fitted self Xs patience g fuel s n d0 d1); try assumption. lia. }
  destruct (shape_inv _ _ _ HX1) as [Hn1 Hw1].
  destruct (shape_inv _ _ _ HY0) as [Hm0' Hv0].
  destruct (shape_inv _ _ _ HY1) as [Hm1 Hv1].
  destruct (predict_joint_matrix s Ys m d0 d1 Hfitted HY0 HY1)
    as (c0 & c1 & p1 & p2 & Hc & _ & Hp2 & Hl1 & Hl2 & Hpred).
  rewrite Hcs in Hc. injection Hc as <- <-.
  rewrite Eks in *.
  set (k := _k self) in *.
  set (M := map (fun c => map (fun i => joint_distance Ys p1 p2 c i) (seq 0 m)) (seq 0 k)) in *.
  assert (Hgood : good k d1 (nan_block k (snd Xs))).
  { apply nan_block_good; [exact Hk | lia | exact Hw1]. }
  assert (Hzero : Forall (fun l => l = 0) p2).
  { assert (Hrow : exists c', nth 0 (nan_block k (snd Xs)) [] = nan :: c').
    { pose proof (nan_block_rows k (snd Xs)) as Hall.
      destruct Hgood as [Hlen Hw].
      assert (Hin : In (nth 0 (nan_block k (snd Xs)) []) (nan_block k (snd Xs)))
        by (apply nth_In; lia).
      rewrite Forall_forall in Hall, Hw.
      pose proof (Hall _ Hin) as Hnan. pose proof (Hw _ Hin) as Hlen0.
      destruct (nth 0 (nan_block k (snd Xs)) []) as [| y c']; [simpl in Hlen0; lia |].
      inversion Hnan as [| ? ? Hy _]; subst. destruct y; try discriminate Hy.
      exists c'. reflexivity. }
    destruct Hrow as (c' & Hrow).
    apply (nearest_nan_centroids s (snd Ys) (nan_block k (snd Xs)) d1 p2 c');
      try assumption; rewrite Eks; assumption. }
  exists (argmin_axis0 M). split; [exact Hpred |].
  destruct (argmin_axis0_spec M k m) as [Hlen _].
  { unfold M. now rewrite length_map, length_seq. }
  { exact Hk. }
  { apply Forall_forall. intros r Hr. unfold M in Hr. apply in_map_iff in Hr.
    destruct Hr as (c & <- & _). now rewrite length_map, length_seq. }
  split; [exact Hlen |].
  assert (Hcols : ncols M = m).
  { unfold M. destruct k as [| k']; [lia |]. cbn [seq map ncols].
    now rewrite length_map, length_seq. }
  unfold argmin_axis0. rewrite Hcols. apply Forall_forall. intros l Hl.
  apply in_map_iff in Hl. destruct Hl as (i & <- & Hi). apply in_seq in Hi.
  destruct (Nat.eq_dec k 1) as [E1|E1].
  - unfold M. rewrite E1. cbn [seq map column argmin argmin_from]. lia.
  - apply argmin_le_nan; [unfold column, M; rewrite !length_map, length_seq; lia |].
    assert (Hcol : nth 1 (column M i) zero = nth i (nth 1 M []) nan).
    { unfold column.
      rewrite (nth_indep _ zero nan) by (unfold M; rewrite !length_map, length_seq; lia).
      transitivity (nth 1 (map (fun r : vec => nth i r nan) M)
                        ((fun r : vec => nth i r nan) [])).
      - f_equal. destruct i; reflexivity.
      - apply (map_nth (fun r : vec => nth i r nan)). }
    rewrite Hcol.
    unfold M. rewrite nth_map_seq by lia. rewrite nth_map_seq by lia.
    unfold joint_distance.
    assert (Hcent : consensus_centroid (snd Ys) p1 p2 1 = map (fun _ => nan) (seq 0 d1)).
    { unfold consensus_centroid. rewrite select_none.
      - rewrite mean_rows_empty. f_equal. f_equal.
        destruct (snd Ys) as [| r Y]; [simpl in Hm1; lia |].
        inversion Hv1; subst. reflexivity.
      - apply Forall_forall. intros b Hb. apply in_map_iff in Hb.
        destruct Hb as ([a z] & <- & Hin). apply in_combine_r in Hin.
        rewrite Forall_forall in Hzero. rewrite (Hzero z Hin). cbn [fst snd].
        apply andb_false_r. }
    rewrite Hcent.
    assert (Hr : length (nth i (snd Ys) []) = d1).
    { rewrite Forall_forall in Hv1. apply Hv1. apply nth_In. lia. }
    destruct (nth i (snd Ys) []) as [| x r'] eqn:Er; [simpl in Hr; lia |].
    destruct d1 as [| d1']; [lia |].
    rewrite (dist_nan (x :: r') (map (fun _ => nan) (seq 0 (S d1'))) x r'
                      (map (fun _ => nan) (seq 1 d1')) eq_refl eq_refl).
    rewrite add_nan_r. reflexivity.
Qed.

(** X10: the model [fit] returns after at least two iterations labels
    every sample 0 or 1, whatever [k] is: its centroids of view 2 are NaN,
    so view 2 assigns every sample to cluster 0, no sample is in the
    consensus of a cluster from 1 on, the summed distance to such a cluster
    is NaN, and [np.argmin] stops at the first NaN. *)
Theorem predict_after_fit_uses_two_labels
        (self : t) (Xs : views) (patience : Z) (g : rng) (fuel : nat) (s : t)
        (n d0 d1 : nat) (Ys : views) (m : nat) :
  shape (fst Xs) n d0 = true -> shape (snd Xs) n d1 = true -> 1 <= d1 ->
  (1 <= patience)%Z -> lt_bound 1 (_max_iter self) = true ->
  fst (fit self Xs patience g fuel) = Some (Ok s) ->
  shape (fst Ys) m d0 = true -> shape (snd Ys) m d1 = true ->
  exists labels,
    predict s Ys = Ok labels /\ length labels = m /\ Forall (fun l => l <= 1) labels.
Proof.
  exact (labels_after_fit self Xs patience g fuel s n d0 d1 Ys m).
Qed.

Lemma predict_after_fit_uses_two_labels_witness :
  shape (fst Examples.Xs) 2 1 = true /\ shape (snd Examples.Xs) 2 1 = true /\ 1 <= 1 /\
  (1 <= 5)%Z /\ lt_bound 1 (_max_iter Examples.km) = true /\
  fst (fit Examples.km Examples.Xs 5 Examples.g_0110 10) = Some (Ok Examples.km_fitted) /\
  exists labels,
    predict Examples.km_fitted Examples.Xs = Ok labels /\ length labels = 2 /\
    Forall (fun l => l <= 1) labels.
Proof.
  assert (H : fst (fit Examples.km Examples.Xs 5 Examples.g_0110 10)
              = Some (Ok Examples.km_fitted)) by (vm_compute; reflexivity).
  split; [reflexivity | split; [reflexivity | split; [lia | split; [lia |]]]].
  split; [reflexivity | split; [exact H |]].
  apply (predict_after_fit_uses_two_labels
           Examples.km Examples.Xs 5 Examples.g_0110 10 Examples.km_fitted 2 1 1
           Examples.Xs 2);
    solve [reflexivity | lia | exact H].
Defined.

(** X11: on two views of [n >= 1] samples, view 2 with at least one
    feature, [fit_predict] of an instance with [k >= 1] and an iteration
    bound above 1 never raises: it returns, within 7 iterations of the
    loop of [fit], the fitted instance with one label per sample, each 0
    or 1, whatever patience it is called with. *)
Theorem fit_predict_returns_two_labels
        (self : t) (Xs : views) (patience : Z) (g : rng) (fuel : nat) (n d0 d1 : nat) :
  shape (fst Xs) n d0 = true -> shape (snd Xs) n d1 = true ->
  1 <= n -> 1 <= _k self -> 1 <= d1 ->
  lt_bound 1 (_max_iter self) = true -> 7 < fuel ->
  exists s labels,
    fst (fit_predict self Xs patience g fuel) = Some (Ok (s, labels)) /\
    fst (fit self Xs 5 g fuel) = Some (Ok s) /\
    length labels = n /\ Forall (fun l => l <= 1) labels.
Proof.
  intros HX0 HX1 Hn Hk Hd1 Hm Hfuel.
  destruct (fit_total self Xs 5 g n d0 d1 HX0 HX1 Hn Hk) as [_ Hret].
  destruct (Hret fuel) as (s & Hs); [cbn; lia |].
  destruct (labels_after_fit self Xs 5 g fuel s n d0 d1 Xs n HX0 HX1 Hd1 ltac:(lia) Hm Hs
              HX0 HX1) as (labels & Hp & Hl & Hf).
  exists s, labels. unfold fit_predict.
  destruct (fit self Xs 5 g fuel) as [r g'] eqn:E. cbn [fst] in Hs |- *. subst r.
  rewrite Hp. cbn [bind]. repeat split; assumption.
Qed.

Lemma fit_predict_returns_two_labels_witness :
  shape (fst Examples.Xs) 2 1 = true /\ shape (snd Examples.Xs) 2 1 = true /\
  1 <= 2 /\ 1 <= _k Examples.km /\ 1 <= 1 /\
  lt_bound 1 (_max_iter Examples.km) = true /\ 7 < 10 /\
  exists s labels,
    fst (fit_predict Examples.km Examples.Xs 0 Examples.g_0110 10) = Some (Ok (s, labels)) /\
    fst (fit Examples.km Examples.Xs 5 Examples.g_0110 10) = Some (Ok s) /\
    length labels = 2 /\ Forall (fun l => l <= 1) labels.
Proof.
  split; [reflexivity | split; [reflexivity | split; [lia | split; [simpl; lia |]]]].
  split; [lia | split; [reflexivity | split; [lia |]]].
  apply (fit_predict_returns_two_labels Examples.km Examples.Xs 0 Examples.g_0110 10 2 1 1);
    solve [reflexivity | lia | simpl; lia].
Defined.

Module CountFacts.

Lemma is_nan_add_l (a s : num) : is_nan a = true -> is_nan (add a s) = true.
Proof. destruct a; try discriminate. reflexivity. Qed.

(** A sum of terms, one of which is NaN, is NaN. *)
Lemma foldM_add_nan (f : num -> nat -> result num) (term : nat -> num) (l : list nat) :
  (forall cl, In cl l -> forall o, f o cl = Ok (add o (term cl))) ->
  forall a,
    is_nan a = true \/ (exists cl, In cl l /\ term cl = nan) ->
    exists o, foldM f a l = Ok o /\ is_nan o = true.
Proof.
  induction l as [| x l IH]; intros Hf a Ha.
  - destruct Ha as [Ha|(cl & [] & _)]. exists a. split; [reflexivity | exact Ha].
  - cbn [foldM]. rewrite (Hf x (or_introl eq_refl) a). cbn [bind].
    apply IH; [intros cl Hcl; apply Hf; right; exact Hcl |].
    destruct Ha as [Ha|(cl & [<-|Hcl] & Hn)].
    + left. apply is_nan_add_l. exact Ha.
    + left. rewrite Hn, add_nan_r. reflexivity.
    + right. exists cl. split; assumption.
Qed.

(** The objective of a view of at least one sample and one feature under
    a partition into [k] clusters, for centroids whose rows start with
    NaN: NaN. *)
Lemma o_funct_nan (k : nat) (X cents : matrix) (parts : list nat) (d : nat) :
  good k d cents ->
  (forall cl, cl < k -> exists c', nth cl cents [] = nan :: c') ->
  Forall (fun r => length r = d) X -> 1 <= d ->
  length parts = nrows X -> 1 <= nrows X -> Forall (fun l => l < k) parts ->
  exists o, o_funct k X (Some parts) (Some cents) = Ok o /\ is_nan o = true.
Proof.
  intros [Hlen Hw] Hnan HX Hd Hp Hn Hlab. unfold o_funct.
  set (rows := fun cl => select X (map (fun x => x =? cl) parts)).
  set (term := fun cl =>
                 fsum (norm_axis1 (map (fun r => map (fun p => sub (fst p) (snd p))
                                                     (combine r (nth cl cents [])))
                                       (rows cl)))).
  apply (foldM_add_nan _ term).
  - intros cl Hcl o. apply in_seq in Hcl. unfold eq_mask, getitem_mask.
    rewrite length_map, Hp, Nat.eqb_refl. cbn [bind getitem_row].
    rewrite (nth_error_nth' cents []) by lia. cbn [bind sum_norm_diff].
    rewrite sub_rows_ok; [reflexivity |].
    apply Forall_forall. intros r Hr. apply select_In in Hr.
    rewrite Forall_forall in HX, Hw.
    rewrite (HX r Hr). symmetry. apply Hw. apply nth_In. lia.
  - right. unfold nrows in *.
    destruct parts as [| l0 parts]; [simpl in Hp; lia |].
    destruct X as [| r0 X]; [simpl in Hn; lia |].
    inversion Hlab as [| ? ? Hl0 _]; subst.
    exists l0. split; [apply in_seq; lia |].
    unfold term, rows. cbn [map select]. rewrite Nat.eqb_refl. cbn [select map norm_axis1].
    destruct (Hnan l0 Hl0) as (c' & ->).
    inversion HX as [| ? ? Hr0 _]; subst.
    destruct r0 as [| x r0]; [simpl in Hd; lia |].
    change (norm (map (fun p => sub (fst p) (snd p)) (combine (x :: r0) (nan :: c'))))
      with (dist (x :: r0) (nan :: c')).
    rewrite (dist_nan (x :: r0) (nan :: c') x r0 c' eq_refl eq_refl).
    apply SumFacts.fsum_head_nan.
Qed.

Lemma nan_block_heads (k : nat) (X : matrix) (d : nat) :
  1 <= k -> 1 <= length X -> Forall (fun r => length r = d) X -> 1 <= d ->
  forall cl, cl < k -> exists c', nth cl (nan_block k X) [] = nan :: c'.
Proof.
  intros Hk Hn HX Hd cl Hcl.
  destruct (nan_block_good k X d Hk Hn HX) as [Hlen Hw].
  pose proof (nan_block_rows k X) as Hall.
  assert (Hin : In (nth cl (nan_block k X) []) (nan_block k X)) by (apply nth_In; lia).
  rewrite Forall_forall in Hall, Hw.
  pose proof (Hall _ Hin) as Hnan. pose proof (Hw _ Hin) as Hlen0.
  destruct (nth cl (nan_block k X) []) as [| y c']; [simpl in Hlen0; lia |].
  inversion Hnan as [| ? ? Hy _]; subst. destruct y; try discriminate Hy.
  exists c'. reflexivity.
Qed.

Section Count.
Variables (self : t) (Xs : views) (patience : Z) (n d0 d1 : nat) (parts : list nat).
Hypothesis Hn : 1 <= n.
Hypothesis Hk : 1 <= _k self.
Hypothesis Hd1 : 1 <= d1.
Hypothesis HX0 : shape (fst Xs) n d0 = true.
Hypothesis HX1 : shape (snd Xs) n d1 = true.
Hypothesis Hparts : length parts = n.
Hypothesis Hlab : Forall (fun l => l < _k self) parts.

(** After its first iteration the loop has 0.0 recorded for view 1 and
    nothing for view 2, and every later iteration stalls. *)
Lemma counted_step (st st' : locals) :
  run_inv self Xs parts st -> counted st ->
  em_step self Xs st = Ok st' -> counted st'.
Proof.
  intros Hinv Hc Hstep.
  destruct (shape_inv _ _ _ HX0) as [Hn0 Hw0].
  destruct (shape_inv _ _ _ HX1) as [Hn1 Hw1].
  destruct (KMeansLoop.em_step_spec self Xs st st' Hstep) as (o & Hvo & _ & Hnum & Hupd).
  pose proof (ri_num _ _ _ _ Hinv) as Hge.
  rewrite (ri_parts _ _ _ _ Hinv) in Hvo. unfold view_objective in Hvo.
  assert (Hv : (view_of st = 0 /\ (iter_num st = 0 \/ 2 <= iter_num st))%Z \/
               (view_of st = 1 /\ 1 <= iter_num st)%Z).
  { unfold view_of.
    pose proof (Z.mod_pos_bound (iter_num st + 1 + 1) 2 eq_refl) as Hb.
    destruct (Z.eq_dec (iter_num st) 0) as [E|E];
      [rewrite E; left; split; [reflexivity | lia] |].
    destruct (Z.eq_dec (iter_num st) 1) as [E1|E1];
      [rewrite E1; right; split; [reflexivity | lia] |].
    destruct (Z.eq_dec ((iter_num st + 1 + 1) mod 2) 0)%Z as [E0|E0]; [left | right]; lia. }
  right. rewrite Hnum.
  destruct Hv as [[Ev Heven]|[Ev Hodd]]; rewrite Ev in Hvo, Hupd.
  - change (get2 Xs 0) with (fst Xs) in Hvo.
    change (get2 (None, Some parts) ((0 + 1) mod 2)%Z) with (Some parts) in Hvo.
    change (get2 (None, Some parts) 0) with (@None (list nat)) in Hvo.
    rewrite (m_step_some (_k self) (fst Xs) parts) in Hvo by (unfold nrows; lia || assumption).
    cbn [bind] in Hvo.
    assert (Hpos : 1 <= length (fst Xs)) by lia.
    rewrite (o_funct_none _ _ _ d0 (cluster_means_good (_k self) (fst Xs) parts d0 Hpos Hw0) Hw0)
      in Hvo.
    injection Hvo as <-.
    change (get2 (objective st) 0) with (fst (objective st)) in Hupd.
    destruct Hc as [E0|(H1 & Ho & Hs)].
    + destruct (ri_start _ _ _ _ Hinv E0) as [Eo Es]. rewrite Eo in Hupd.
      cbn in Hupd. destruct Hupd as [-> ->]. rewrite E0.
      split; [lia | split; [reflexivity | lia]].
    + rewrite Ho in Hupd. cbn in Hupd. destruct Hupd as [-> ->].
      split; [lia | split; [reflexivity | lia]].
  - change (get2 Xs 1) with (snd Xs) in Hvo.
    change (get2 (None, Some parts) ((1 + 1) mod 2)%Z) with (@None (list nat)) in Hvo.
    change (get2 (None, Some parts) 1) with (Some parts) in Hvo.
    rewrite (m_step_none (_k self) (snd Xs) Hk) in Hvo. cbn [bind] in Hvo.
    destruct (o_funct_nan (_k self) (snd Xs) (nan_block (_k self) (snd Xs)) parts d1)
      as (o' & Ho' & Hnan); try assumption.
    + apply nan_block_good; [exact Hk | lia | exact Hw1].
    + apply (nan_block_heads (_k self) (snd Xs) d1); try assumption. lia.
    + unfold nrows. lia.
    + unfold nrows. lia.
    + rewrite Ho' in Hvo. injection Hvo as <-.
      destruct o'; try discriminate Hnan.
      change (ltb S754_nan (get2 (objective st) 1)) with false in Hupd.
      destruct Hupd as [-> ->].
      destruct Hc as [E0|(H1 & Ho & Hs)]; [lia |].
      split; [lia | split; [exact Ho | lia]].
Qed.

Lemma counted_iterates (st0 st : locals) :
  run_inv self Xs parts st0 -> counted st0 ->
  iterates self Xs patience st0 st ->
  run_inv self Xs parts st /\ counted st.
Proof.
  intros Hinv Hc H. induction H as [| a b _ IH [_ Hstep]]; [split; assumption |].
  destruct IH as [Ha Hca].
  destruct (run_inv_step self Xs n d0 d1 parts Hn Hk HX0 HX1 Hparts a Ha)
    as (b' & Hb' & Hinv' & _).
  rewrite Hstep in Hb'. injection Hb' as <-.
  split; [exact Hinv' | exact (counted_step a b Ha Hca Hstep)].
Qed.

End Count.

End CountFacts.

(** X18: on views of [n >= 1] samples, view 2 with at least one feature,
    the number of iterations [fit] runs does not depend on the data: for a
    patience [p >= 1] it is [p + 1], or the iteration bound when that is
    smaller.  The objective of view 1 is always 0.0 and that of view 2 is
    always NaN, so the loop ends with the recorded objectives 0.0 and
    infinity, every iteration after the first having stalled. *)
Theorem fit_iteration_count_ignores_data
        (self : t) (Xs : views) (patience : Z) (g : rng) (fuel : nat) (st0 st : locals)
        (n d0 d1 : nat) :
  shape (fst Xs) n d0 = true -> shape (snd Xs) n d1 = true -> 1 <= d1 ->
  (1 <= patience)%Z -> lt_bound 0 (_max_iter self) = true ->
  fst (fit_init self Xs g) = Ok st0 ->
  em_loop fuel self Xs patience st0 = Some (Ok st) ->
  iter_num st = match _max_iter self with
                | Finite z => Z.min (patience + 1) z
                | Infinite => (patience + 1)%Z
                end /\
  objective st = (zero, inf) /\
  iter_stall st = (iter_num st - 1)%Z.
Proof.
  intros HX0 HX1 Hd1 Hp Hm Hinit Hloop.
  destruct (shape_inv _ _ _ HX1) as [Hn1 Hw1].
  destruct (fit_init_shape self Xs g st0 n d1 Hinit Hn1 Hw1) as (Hk & Hn & c1 & Ec1 & Hg1).
  destruct (fit_init_ok self Xs g n d1 Hn Hk HX1) as (indices & parts & _ & Hnear & Hlen & Hinit').
  rewrite Hinit in Hinit'. injection Hinit' as Est0.
  assert (Hlab : Forall (fun l => l < _k self) parts).
  { unfold nearest in Hnear.
    destruct (_compute_distance self (snd Xs) (Some (take_rows (snd Xs) indices)))
      as [D|? ?] eqn:ED; [| discriminate Hnear].
    cbn [bind] in Hnear. injection Hnear as <-.
    rewrite Est0 in Ec1. cbn [centroids] in Ec1. injection Ec1 as <-.
    exact (proj2 (labels_valid self (snd Xs) _ D n d1 Hk Hg1 Hn1 Hw1 ED)). }
  assert (Hinv0 : run_inv self Xs parts st0).
  { rewrite Est0. constructor; cbn; try reflexivity; try lia. intros _. split; reflexivity. }
  assert (Hc0 : counted st0) by (left; rewrite Est0; reflexivity).
  destruct (em_loop_sound self Xs patience fuel st0 st Hloop) as [Hreach Hstop].
  destruct (CountFacts.counted_iterates self Xs patience n d0 d1 parts Hn Hk Hd1 HX0 HX1 Hlen
              Hlab st0 st Hinv0 Hc0 Hreach) as [Hinv Hc].
  pose proof (KMeansLoop.loop_inv_init self Xs patience g st0 Hinit) as Hl0.
  pose proof (KMeansLoop.loop_inv_iterates self Xs patience st0 st0 st Hl0 Hreach) as Hl.
  pose proof (inv_stall _ _ _ _ _ Hl) as Hs. pose proof (inv_max _ _ _ _ _ Hl) as Hmax.
  unfold guard in Hstop.
  destruct Hc as [E0|(H1 & Ho & Hst)].
  - destruct (ri_start _ _ _ _ Hinv E0) as [_ Es]. rewrite E0, Es, Hm in Hstop.
    apply andb_false_iff in Hstop. destruct Hstop as [H|H]; [| discriminate H].
    apply Z.ltb_ge in H. lia.
  - split; [| split; [exact Ho | exact Hst]].
    apply andb_false_iff in Hstop.
    destruct (_max_iter self) as [z|]; cbn [lt_bound] in *.
    + apply Z.ltb_lt in Hm.
      destruct Hstop as [H|H]; apply Z.ltb_ge in H; lia.
    + destruct Hstop as [H|H]; [| discriminate H]. apply Z.ltb_ge in H. lia.
Qed.

Lemma fit_iteration_count_ignores_data_witness :
  exists st,
    shape (fst Examples.Xs) 2 1 = true /\ shape (snd Examples.Xs) 2 1 = true /\ 1 <= 1 /\
    (1 <= 5)%Z /\ lt_bound 0 (_max_iter Examples.km) = true /\
    fst (fit_init Examples.km Examples.Xs Examples.g_0110) = Ok Examples.st_init /\
    em_loop 10 Examples.km Examples.Xs 5 Examples.st_init = Some (Ok st) /\
    iter_num st = match _max_iter Examples.km with
                  | Finite z => Z.min (5 + 1) z
                  | Infinite => (5 + 1)%Z
                  end /\
    objective st = (zero, inf) /\
    iter_stall st = (iter_num st - 1)%Z.
Proof.
  eexists.
  split; [reflexivity | split; [reflexivity | split; [lia | split; [lia |]]]].
  split; [reflexivity |].
  assert (H0 : fst (fit_init Examples.km Examples.Xs Examples.g_0110) = Ok Examples.st_init)
    by (vm_compute; reflexivity).
  split; [exact H0 |].
  split; [vm_compute; reflexivity |].
  apply (fit_iteration_count_ignores_data
           Examples.km Examples.Xs 5 Examples.g_0110 10 Examples.st_init _ 2 1 1);
    solve [reflexivity | lia | exact H0 | vm_compute; reflexivity].
Defined.

(* ===================================================================== *)
(** * [KCCA]: the constructor, [fit], [transform] and the kernels *)
(* ===================================================================== *)

Module InitFacts.
Import KCCA.

Lemma kernel_check (kt : pyval) :
  ne_str kt "linear" && ne_str kt "poly" && ne_str kt "gaussian" = negb (known_kernel kt).
Proof.
  unfold ne_str, known_kernel.
  destruct (eq_str kt "linear"), (eq_str kt "poly"), (eq_str kt "gaussian"); reflexivity.
Qed.

(** The outcome of the constructor on every argument list. *)
Lemma init_outcome (n kt c s d r dc m : pyval) :
  match __init__ n kt c s d r dc m with
  | Ok self => accepted n kt c s d r = true /\ self = fresh n kt c s d r dc m
  | Raise cls _ => accepted n kt c s d r = false /\ (cls = ValueError \/ cls = TypeError)
  end.
Proof.
  unfold __init__, accepted, fresh. rewrite kernel_check.
  destruct n as [z| x | b | s0 |]; cbn [lt_int orM bind type_is_int negb andb];
    try (split; [reflexivity | auto]);
    [ | destruct (ltb x _); split; (reflexivity || auto)
      | destruct b; cbn; split; (reflexivity || auto) ].
  rewrite (Z.ltb_antisym 0 z). destruct (0 <=? z)%Z; cbn [negb andb];
    [| split; [reflexivity | auto]].
  destruct (known_kernel kt); cbn [negb andb]; [| split; [reflexivity | auto]].
  assert (Hs : forall v : pyval,
             orM (lt_int v 0) (Ok (negb (type_is_float v || type_is_int v)))
             = match v with
               | PyStr _ | PyNone => Raise TypeError "'<' not supported between instances"
               | _ => Ok (negb (nonneg_number v))
               end).
  { intros [z'| x | b | s0 |]; cbn; try reflexivity.
    - rewrite (Z.ltb_antisym 0 z'). destruct (0 <=? z')%Z; reflexivity.
    - destruct (ltb x _); reflexivity.
    - destruct b; reflexivity. }
  rewrite !Hs.
  destruct s as [zs| xs | bs | ss |]; cbn [bind nonneg_number negb andb type_is_int orb];
    try (split; [reflexivity | auto]).
  - destruct (0 <=? zs)%Z; cbn [negb andb]; [| split; [reflexivity | auto]].
    rewrite orb_true_r. cbn [negb andb].
    destruct r as [zr| xr | br | sr |]; cbn; try (split; [reflexivity | auto]).
    + destruct (zr <? 0)%Z; cbn; [split; [reflexivity | auto] |].
      destruct (1 <? zr)%Z; cbn; split; (reflexivity || auto).
    + destruct (ltb xr _); cbn; [split; [reflexivity | auto] |].
      destruct (ltb _ xr); cbn; [split; [reflexivity | auto] |].
      destruct c as [zc| xc | bc | sc |]; cbn; try (split; [reflexivity | auto]).
      * destruct (0 <=? zc)%Z; cbn; split; (reflexivity || auto).
      * destruct (ltb xc _); cbn; split; (reflexivity || auto).
    + destruct br; cbn; split; (reflexivity || auto).
  - destruct (ltb xs _); cbn [negb andb]; [split; [reflexivity | auto] |].
    rewrite orb_false_r.
    destruct (type_is_float d); cbn [negb andb]; [| split; [reflexivity | auto]].
    destruct r as [zr| xr | br | sr |]; cbn; try (split; [reflexivity | auto]).
    + destruct (zr <? 0)%Z; cbn; [split; [reflexivity | auto] |].
      destruct (1 <? zr)%Z; cbn; split; (reflexivity || auto).
    + destruct (ltb xr _); cbn; [split; [reflexivity | auto] |].
      destruct (ltb _ xr); cbn; [split; [reflexivity | auto] |].
      destruct c as [zc| xc | bc | sc |]; cbn; try (split; [reflexivity | auto]).
      * destruct (0 <=? zc)%Z; cbn; split; (reflexivity || auto).
      * destruct (ltb xc _); cbn; split; (reflexivity || auto).
    + destruct br; cbn; split; (reflexivity || auto).
Qed.

End InitFacts.

(** X12: the constructor of [KCCA] returns exactly for the argument lists
    that are [accepted], with the arguments stored and no training state,
    and raises a [ValueError] or a [TypeError] for every other list.  So
    an integer [degree] is accepted only together with an integer [sigma],
    [n_components], [sigma] and [constant] may be 0, and a NaN [reg],
    [sigma] or [constant] passes the range checks. *)
Theorem constructor_accepts_exactly (n kt c s d r dc m : KCCA.pyval) :
  (KCCA.accepted n kt c s d r = true ->
   KCCA.__init__ n kt c s d r dc m = Ok (KCCA.fresh n kt c s d r dc m)) /\
  (KCCA.accepted n kt c s d r = false ->
   exists cls msg, KCCA.__init__ n kt c s d r dc m = Raise cls msg /\
                   (cls = ValueError \/ cls = TypeError)) /\
  (forall z, d = KCCA.PyInt z -> KCCA.accepted n kt c s d r = true ->
             KCCA.type_is_int s = true) /\
  KCCA.accepted n kt c s d (KCCA.PyFloat nan) = KCCA.accepted n kt c s d (KCCA.PyFloat zero) /\
  KCCA.accepted n kt c (KCCA.PyFloat nan) d r = KCCA.accepted n kt c (KCCA.PyFloat zero) d r /\
  KCCA.accepted n kt (KCCA.PyFloat nan) s d r = KCCA.accepted n kt (KCCA.PyFloat zero) s d r /\
  KCCA.accepted (KCCA.PyInt 0) kt c s d r = KCCA.accepted (KCCA.PyInt 1) kt c s d r.
Proof.
  pose proof (InitFacts.init_outcome n kt c s d r dc m) as H.
  split; [| split; [| split; [| repeat split]]].
  - intros Ha. destruct (KCCA.__init__ n kt c s d r dc m) as [self|cls msg].
    + destruct H as [_ ->]. reflexivity.
    + destruct H as [H _]. congruence.
  - intros Ha. destruct (KCCA.__init__ n kt c s d r dc m) as [self|cls msg].
    + destruct H as [H _]. congruence.
    + exists cls, msg. split; [reflexivity | exact (proj2 H)].
  - intros z -> Ha. unfold KCCA.accepted in Ha. cbn [KCCA.type_is_float orb] in Ha.
    destruct (KCCA.type_is_int s); [reflexivity |].
    rewrite !andb_false_r in Ha. cbn in Ha. rewrite ?andb_false_r in Ha. discriminate Ha.
Qed.

Lemma constructor_accepts_exactly_witness :
  KCCA.accepted (KCCA.PyInt 2) (KCCA.PyStr "linear") (KCCA.PyFloat Examples.f0_1)
                (KCCA.PyFloat (of_Z 1)) (KCCA.PyFloat (of_Z 2)) (KCCA.PyFloat Examples.f0_1)
  = true /\
  Examples.kcca_bogus_decomp = Ok Examples.kcca_bogus.
Proof.
  assert (H : KCCA.accepted (KCCA.PyInt 2) (KCCA.PyStr "linear") (KCCA.PyFloat Examples.f0_1)
                            (KCCA.PyFloat (of_Z 1)) (KCCA.PyFloat (of_Z 2))
                            (KCCA.PyFloat Examples.f0_1) = true)
    by (vm_compute; reflexivity).
  split; [exact H |].
  exact (proj1 (constructor_accepts_exactly
                  (KCCA.PyInt 2) (KCCA.PyStr "linear") (KCCA.PyFloat Examples.f0_1)
                  (KCCA.PyFloat (of_Z 1)) (KCCA.PyFloat (of_Z 2)) (KCCA.PyFloat Examples.f0_1)
                  (KCCA.PyStr "bogus") (KCCA.PyStr "kettenring-like")) H).
Defined.

(** X13: every instance the constructor returns is untrained: it has no
    [X], [Y] and [weights_], and [transform] on it raises the not-trained
    [NameError] for every input; [fit] is the only way to the weights. *)
Theorem constructed_instance_is_untrained
        (check_Xs : list matrix -> result (list matrix))
        (euclidean_distances : matrix -> matrix -> result matrix)
        (fpow : num -> num -> num) (fexp : num -> num)
        (n kt c s d r dc m : KCCA.pyval) (self : KCCA.t) (Ys : list matrix) :
  KCCA.__init__ n kt c s d r dc m = Ok self ->
  KCCA.X self = None /\ KCCA.Y self = None /\ KCCA.weights_ self = None /\
  KCCA.components_ self = None /\
  KCCA.n_components self = n /\ KCCA.ktype self = kt /\ KCCA.constant self = c /\
  KCCA.sigma self = s /\ KCCA.degree self = d /\ KCCA.reg self = r /\
  KCCA.decomp self = dc /\ KCCA.method self = m /\
  KCCA.transform check_Xs euclidean_distances fpow fexp self Ys
  = Raise NameError "kCCA has not been trained.".
Proof.
  intros H. pose proof (InitFacts.init_outcome n kt c s d r dc m) as Ho.
  rewrite H in Ho. destruct Ho as [_ ->]. repeat split.
Qed.

Lemma constructed_instance_is_untrained_witness :
  Examples.kcca_bogus_decomp = Ok Examples.kcca_bogus /\
  KCCA.transform (fun Ys => Ok Ys) (fun _ _ => Ok []) (fun x _ => x) (fun x => x)
                 Examples.kcca_bogus [Examples.X0; Examples.X1]
  = Raise NameError "kCCA has not been trained.".
Proof.
  assert (H : Examples.kcca_bogus_decomp = Ok Examples.kcca_bogus) by (vm_compute; reflexivity).
  split; [exact H |].
  apply (constructed_instance_is_untrained
           (fun Ys => Ok Ys) (fun _ _ => Ok []) (fun x _ => x) (fun x => x)
           (KCCA.PyInt 2) (KCCA.PyStr "linear") (KCCA.PyFloat Examples.f0_1)
           (KCCA.PyFloat (of_Z 1)) (KCCA.PyFloat (of_Z 2)) (KCCA.PyFloat Examples.f0_1)
           (KCCA.PyStr "bogus") (KCCA.PyStr "kettenring-like")
           Examples.kcca_bogus [Examples.X0; Examples.X1] H).
Defined.

(** X14: [fit] returns only for an instance whose [decomp] is "full",
    whose [method] is "kettenring-like" and whose [ktype] is a known
    kernel; then the instance it returns holds the two centered training
    views as [X] and [Y] and a pair of weights, and keeps every
    hyperparameter. *)
Theorem fit_returns_only_for_known_decomposition
        (check_Xs : list matrix -> result (list matrix))
        (euclidean_distances : matrix -> matrix -> result matrix)
        (fpow : num -> num -> num) (fexp : num -> num)
        (eig : matrix -> matrix -> result (list KCCA.cplx * list (list KCCA.cplx)))
        (argsort : list KCCA.cplx -> list nat)
        (cdiv : KCCA.cplx -> KCCA.cplx -> KCCA.cplx)
        (self s : KCCA.t) (Xs : list matrix) :
  KCCA.fit check_Xs euclidean_distances fpow fexp eig argsort cdiv self Xs = Ok s ->
  KCCA.eq_str (KCCA.decomp self) "full" = true /\
  KCCA.eq_str (KCCA.method self) "kettenring-like" = true /\
  KCCA.known_kernel (KCCA.ktype self) = true /\
  (exists xs x0 x1 X' Y' w,
      check_Xs Xs = Ok xs /\ KCCA.getitem xs 0 = Ok x0 /\ KCCA.getitem xs 1 = Ok x1 /\
      KCCA._center_norm x0 = Ok X' /\ KCCA._center_norm x1 = Ok Y' /\
      KCCA.X s = Some X' /\ KCCA.Y s = Some Y' /\ KCCA.weights_ s = Some w) /\
  (KCCA.n_components s = KCCA.n_components self /\ KCCA.ktype s = KCCA.ktype self /\
   KCCA.constant s = KCCA.constant self /\ KCCA.sigma s = KCCA.sigma self /\
   KCCA.degree s = KCCA.degree self /\ KCCA.reg s = KCCA.reg self /\
   KCCA.decomp s = KCCA.decomp self /\ KCCA.method s = KCCA.method self).
Proof.
  unfold KCCA.fit. intros H.
  destruct (check_Xs Xs) as [xs|? ?] eqn:Ec; [| discriminate H]. cbn [bind] in H.
  destruct (KCCA.getitem xs 0) as [x0|? ?] eqn:E0; [| discriminate H]. cbn [bind] in H.
  destruct (KCCA._center_norm x0) as [X'|? ?] eqn:Ex; [| discriminate H]. cbn [bind] in H.
  destruct (KCCA.getitem xs 1) as [x1|? ?] eqn:E1; [| discriminate H]. cbn [bind] in H.
  destruct (KCCA._center_norm x1) as [Y'|? ?] eqn:Ey; [| discriminate H]. cbn [bind] in H.
  destruct (KCCA.eq_str (KCCA.decomp self) "full") eqn:Ed; [| discriminate H].
  destruct (KCCA._make_kernel euclidean_distances fpow fexp X' X' (KCCA.ktype self)
              (KCCA.constant self) (KCCA.degree self) (KCCA.sigma self)) as [Kx|? ?] eqn:Ekx;
    [| discriminate H]. cbn [bind] in H.
  destruct (KCCA._make_kernel euclidean_distances fpow fexp Y' Y' (KCCA.ktype self)
              (KCCA.constant self) (KCCA.degree self) (KCCA.sigma self)) as [Ky|? ?] eqn:Eky;
    [| discriminate H]. cbn [bind] in H.
  destruct (KCCA.eq_str (KCCA.method self) "kettenring-like") eqn:Em; [| discriminate H].
  destruct Kx as [Kx|]; [| discriminate H]. cbn [KCCA.as_array bind] in H.
  assert (Hkt : KCCA.known_kernel (KCCA.ktype self) = true).
  { unfold KCCA._make_kernel in Ekx.
    destruct (KCCA.centering (nrows X')) as [N0|? ?]; [| discriminate Ekx].
    cbn [bind] in Ekx. unfold KCCA.known_kernel.
    destruct (KCCA.eq_str (KCCA.ktype self) "linear"); [reflexivity |].
    destruct (KCCA.eq_str (KCCA.ktype self) "poly"); [reflexivity |].
    destruct (KCCA.eq_str (KCCA.ktype self) "gaussian"); [reflexivity |].
    discriminate Ekx. }
  destruct Ky as [Ky|]; [| discriminate H]. cbn [KCCA.as_array bind] in H.
  destruct (KCCA.to_float (KCCA.reg self)) as [r|? ?]; [| discriminate H]. cbn [bind] in H.
  destruct (add_matrix Kx (KCCA.scale r (KCCA.eye (nrows X')))) as [Dx|? ?];
    [| discriminate H]. cbn [bind] in H.
  destruct (add_matrix Ky (KCCA.scale r (KCCA.eye (nrows X')))) as [Dy|? ?];
    [| discriminate H]. cbn [bind] in H.
  destruct (eig _ _) as [[betas alphas]|? ?]; [| discriminate H]. cbn [bind] in H.
  destruct (match KCCA.n_components self with
            | KCCA.PyInt z => Ok (Some z)
            | KCCA.PyBool b => Ok (Some (if b then 1 else 0)%Z)
            | KCCA.PyNone => Ok None
            | _ => Raise TypeError "slice indices must be integers"
            end) as [nc|? ?]; [| discriminate H]. cbn [bind] in H.
  destruct (KCCA.normalize_columns cdiv _) as [w1|? ?]; [| discriminate H]. cbn [bind] in H.
  destruct (KCCA.normalize_columns cdiv _) as [w2|? ?]; [| discriminate H]. cbn [bind] in H.
  injection H as <-. cbn.
  split; [reflexivity | split; [reflexivity | split; [exact Hkt | split]]].
  - exists xs, x0, x1, X', Y'. eexists. repeat split; reflexivity || assumption.
  - repeat split.
Qed.

Module KernelFacts.
Import KCCA.

Lemma ncols_width (M : matrix) (d : nat) :
  1 <= length M -> Forall (fun r => length r = d) M -> ncols M = d.
Proof.
  destruct M as [| r M]; [simpl; lia |]. intros _ H. inversion H; subst. reflexivity.
Qed.

(** Centering keeps the shape of a view. *)
Lemma center_norm_shape (x : matrix) (n d : nat) :
  length x = n -> Forall (fun r => length r = d) x ->
  exists x', _center_norm x = Ok x' /\ length x' = n /\ Forall (fun r => length r = d) x'.
Proof.
  intros Hn Hw. unfold _center_norm.
  assert (Hm : Forall (fun r => length r = length (mean_rows (ncols x) x)) x).
  { apply Forall_forall. intros r Hr. unfold mean_rows. rewrite length_map, length_seq.
    rewrite (ncols_rows x d r Hw Hr). rewrite Forall_forall in Hw. exact (Hw r Hr). }
  rewrite (sub_rows_ok x _ Hm). eexists. split; [reflexivity |].
  split; [now rewrite length_map |].
  apply Forall_forall. intros r' Hr'. apply in_map_iff in Hr'. destruct Hr' as (r & <- & Hr).
  rewrite length_map, length_combine.
  rewrite Forall_forall in Hm, Hw. rewrite <- (Hm r Hr), (Hw r Hr). apply Nat.min_id.
Qed.

Lemma transpose_shape (M : matrix) (n d : nat) :
  length M = n -> 1 <= n -> Forall (fun r => length r = d) M ->
  length (transpose M) = d /\ Forall (fun r => length r = n) (transpose M).
Proof.
  intros Hn H1 Hw. unfold transpose. rewrite (ncols_width M d) by (lia || assumption).
  split; [now rewrite length_map, length_seq |].
  apply Forall_forall. intros r Hr. apply in_map_iff in Hr. destruct Hr as (j & <- & _).
  unfold column. now rewrite length_map.
Qed.

Lemma matmul_shape (A B : matrix) (a b c : nat) :
  length A = a -> 1 <= a -> Forall (fun r => length r = b) A ->
  length B = b -> 1 <= b -> Forall (fun r => length r = c) B ->
  exists C, matmul A B = Ok C /\ length C = a /\ Forall (fun r => length r = c) C.
Proof.
  intros Ha H1 HA Hb H2 HB. unfold matmul, nrows.
  rewrite (ncols_width A b) by (lia || assumption). rewrite Hb, Nat.eqb_refl.
  eexists. split; [reflexivity |]. split; [now rewrite length_map |].
  apply Forall_forall. intros r Hr. apply in_map_iff in Hr. destruct Hr as (r0 & <- & _).
  rewrite length_map. exact (proj1 (transpose_shape B b c Hb H2 HB)).
Qed.

Lemma matmul_mismatch (A B : matrix) (b : nat) :
  1 <= length A -> Forall (fun r => length r = b) A -> length B <> b ->
  matmul A B = Raise ValueError "matmul: mismatch in the core dimension".
Proof.
  intros H1 HA Hb. unfold matmul, nrows. rewrite (ncols_width A b) by assumption.
  destruct (Nat.eqb_spec b (length B)) as [E|E]; [congruence | reflexivity].
Qed.

Lemma centering_shape (n : nat) :
  1 <= n ->
  exists N, centering n = Ok N /\ length N = n /\ Forall (fun r => length r = n) N.
Proof.
  intros Hn. unfold centering. destruct (Nat.eqb_spec n 0) as [E|_]; [lia |].
  eexists. split; [reflexivity |]. unfold eye.
  split; [now rewrite !length_map, length_seq |].
  apply Forall_forall. intros r Hr. apply in_map_iff in Hr. destruct Hr as (r0 & <- & Hr0).
  apply in_map_iff in Hr0. destruct Hr0 as (i & <- & _).
  now rewrite !length_map, length_seq.
Qed.

Section Kernel.
Variable euclidean_distances : matrix -> matrix -> result matrix.
Variable fpow : num -> num -> num.
Variable fexp : num -> num.

(** The linear kernel of [n] samples against [m] samples of one width:
    [n] rows of [m] entries. *)
Lemma make_kernel_linear (X Y : matrix) (kt c dg s : pyval) (n m d : nat) :
  eq_str kt "linear" = true ->
  length X = n -> Forall (fun r => length r = d) X ->
  length Y = m -> Forall (fun r => length r = d) Y ->
  1 <= n -> 1 <= m -> 1 <= d ->
  exists K, _make_kernel euclidean_distances fpow fexp X Y kt c dg s = Ok (Some K) /\
            length K = n /\ Forall (fun r => length r = m) K.
Proof.
  intros Hkt Hn HX Hm HY H1 H2 H3. unfold _make_kernel, nrows. rewrite Hn, Hm.
  destruct (centering_shape n H1) as (N0l & -> & Hl1 & Hl2).
  destruct (centering_shape m H2) as (N0r & -> & Hr1 & Hr2).
  cbn [bind]. rewrite Hkt.
  destruct (transpose_shape Y m d Hm H2 HY) as [Ht1 Ht2].
  destruct (matmul_shape X (transpose Y) n d m Hn H1 HX Ht1 H3 Ht2) as (G & -> & Hg1 & Hg2).
  cbn [bind].
  destruct (matmul_shape N0l G n n m Hl1 H1 Hl2 Hg1 H1 Hg2) as (L & -> & HL1 & HL2).
  cbn [bind].
  destruct (matmul_shape L N0r n m m HL1 H1 HL2 Hr1 H2 Hr2) as (K & -> & HK1 & HK2).
  cbn [bind]. exists K. split; [reflexivity | split; assumption].
Qed.

(** The linear and the polynomial kernel of samples of two different
    widths: the product [X @ Y.T] is refused. *)
Lemma make_kernel_mismatch (X Y : matrix) (kt c dg s : pyval) (e d : nat) :
  eq_str kt "linear" = true \/ eq_str kt "poly" = true ->
  1 <= length X -> Forall (fun r => length r = e) X ->
  1 <= length Y -> Forall (fun r => length r = d) Y ->
  e <> d ->
  _make_kernel euclidean_distances fpow fexp X Y kt c dg s
  = Raise ValueError "matmul: mismatch in the core dimension".
Proof.
  intros Hkt H1 HX H2 HY Hne. unfold _make_kernel, nrows.
  destruct (centering_shape (length X) H1) as (N0l & -> & _).
  destruct (centering_shape (length Y) H2) as (N0r & -> & _).
  cbn [bind].
  assert (Hmm : matmul X (transpose Y)
                = Raise ValueError "matmul: mismatch in the core dimension").
  { apply (matmul_mismatch X (transpose Y) e H1 HX). unfold transpose.
    rewrite length_map, length_seq, (ncols_width Y d H2 HY). congruence. }
  destruct (eq_str kt "linear").
  - rewrite Hmm. reflexivity.
  - destruct Hkt as [Hkt|Hkt]; [discriminate Hkt |]. rewrite Hkt, Hmm. reflexivity.
Qed.

End Kernel.

End KernelFacts.

(** X15: for a trained instance with the linear kernel, whose stored views
    have [n] samples and whose weights have [n] rows and [q] columns,
    [transform] of two views of [m] samples with the feature counts of the
    stored views returns, per view, an array of [m] rows and [q] columns,
    one column per weight vector, and stores the pair as [components_]. *)
Theorem transform_returns_sample_by_component
        (check_Xs : list matrix -> result (list matrix))
        (euclidean_distances : matrix -> matrix -> result matrix)
        (fpow : num -> num -> num) (fexp : num -> num)
        (self : KCCA.t) (Ys : list matrix) (y0 y1 sX sY w1 w2 : matrix)
        (n m d0 d1 q : nat) :
  KCCA.weights_ self = Some (w1, w2) ->
  KCCA.X self = Some sX -> KCCA.Y self = Some sY ->
  KCCA.eq_str (KCCA.ktype self) "linear" = true ->
  check_Xs Ys = Ok [y0; y1] ->
  shape y0 m d0 = true -> shape y1 m d1 = true ->
  shape sX n d0 = true -> shape sY n d1 = true ->
  shape w1 n q = true -> shape w2 n q = true ->
  1 <= n -> 1 <= m -> 1 <= d0 -> 1 <= d1 -> 1 <= q ->
  exists s' c1 c2,
    KCCA.transform check_Xs euclidean_distances fpow fexp self Ys = Ok (s', (c1, c2)) /\
    shape c1 m q = true /\ shape c2 m q = true /\
    KCCA.components_ s' = Some (c1, c2) /\
    KCCA.weights_ s' = KCCA.weights_ self /\
    KCCA.X s' = KCCA.X self /\ KCCA.Y s' = KCCA.Y self.
Proof.
  intros Hw HsX HsY Hkt Hc Hy0 Hy1 HX HY Hw1 Hw2 Hn Hm Hd0 Hd1 Hq.
  destruct (shape_inv _ _ _ Hy0) as [Ly0 Wy0]. destruct (shape_inv _ _ _ Hy1) as [Ly1 Wy1].
  destruct (shape_inv _ _ _ HX) as [LX WX]. destruct (shape_inv _ _ _ HY) as [LY WY].
  destruct (shape_inv _ _ _ Hw1) as [L1 W1]. destruct (shape_inv _ _ _ Hw2) as [L2 W2].
  unfold KCCA.transform. rewrite Hw, Hc, HsX, HsY. cbn [bind KCCA.getitem nth_error].
  destruct (KernelFacts.center_norm_shape y0 m d0 Ly0 Wy0) as (cx & -> & Lcx & Wcx).
  cbn [bind].
  destruct (KernelFacts.center_norm_shape sX n d0 LX WX) as (csX & -> & LcsX & WcsX).
  cbn [bind].
  destruct (KernelFacts.make_kernel_linear euclidean_distances fpow fexp cx csX
              (KCCA.ktype self) (KCCA.constant self) (KCCA.degree self) (KCCA.sigma self)
              m n d0 Hkt Lcx Wcx LcsX WcsX Hm Hn Hd0) as (Kx & -> & LKx & WKx).
  cbn [bind].
  destruct (KernelFacts.center_norm_shape y1 m d1 Ly1 Wy1) as (cy & -> & Lcy & Wcy).
  cbn [bind].
  destruct (KernelFacts.center_norm_shape sY n d1 LY WY) as (csY & -> & LcsY & WcsY).
  cbn [bind].
  destruct (KernelFacts.make_kernel_linear euclidean_distances fpow fexp cy csY
              (KCCA.ktype self) (KCCA.constant self) (KCCA.degree self) (KCCA.sigma self)
              m n d1 Hkt Lcy Wcy LcsY WcsY Hm Hn Hd1) as (Ky & -> & LKy & WKy).
  cbn [bind KCCA.as_array].
  rewrite (KernelFacts.ncols_width w1 q) by (lia || assumption).
  rewrite (mapM_ok _ (fun i => (map (fun r => KCCA.dot r (column w1 i)) Kx,
                                map (fun r => KCCA.dot r (column w2 i)) Ky))).
  2:{ intros i _. unfold KCCA.matvec.
      rewrite (KernelFacts.ncols_width Kx n) by (lia || assumption).
      rewrite (KernelFacts.ncols_width Ky n) by (lia || assumption).
      unfold column, matrix, vec in *. rewrite !length_map, L1, L2, Nat.eqb_refl.
      reflexivity. }
  cbn [bind]. rewrite !map_map. cbn [fst snd].
  do 3 eexists. split; [reflexivity |]. cbn.
  assert (Hshape : forall (K w : matrix),
             length K = m ->
             shape (KCCA.transpose
                      (map (fun i => map (fun r => KCCA.dot r (column w i)) K) (seq 0 q)))
                   m q = true).
  { intros K w LK.
    destruct (KernelFacts.transpose_shape
                (map (fun i => map (fun r => KCCA.dot r (column w i)) K) (seq 0 q)) q m)
      as [Lt Wt].
    - now rewrite length_map, length_seq.
    - exact Hq.
    - apply Forall_forall. intros r Hr. apply in_map_iff in Hr.
      destruct Hr as (i & <- & _). now rewrite length_map.
    - unfold shape, nrows. rewrite Lt, Nat.eqb_refl. cbn [andb].
      apply forallb_forall. intros r Hr. apply Nat.eqb_eq.
      rewrite Forall_forall in Wt. exact (Wt r Hr). }
  split; [exact (Hshape Kx w1 LKx) | split; [exact (Hshape Ky w2 LKy) |]].
  repeat split; assumption || (symmetry; assumption).
Qed.

(** X16: for a trained instance with the linear or the polynomial kernel,
    [transform] of a first view whose feature count is not that of the
    stored first view ends with numpy's [ValueError] for the product of
    the two views. *)
Theorem transform_rejects_other_feature_count
        (check_Xs : list matrix -> result (list matrix))
        (euclidean_distances : matrix -> matrix -> result matrix)
        (fpow : num -> num -> num) (fexp : num -> num)
        (self : KCCA.t) (Ys ys : list matrix) (y0 sX : matrix) (w : matrix * matrix)
        (n m d0 e0 : nat) :
  KCCA.weights_ self = Some w ->
  KCCA.X self = Some sX ->
  KCCA.eq_str (KCCA.ktype self) "linear" = true \/
  KCCA.eq_str (KCCA.ktype self) "poly" = true ->
  check_Xs Ys = Ok ys -> nth_error ys 0 = Some y0 ->
  shape y0 m e0 = true -> shape sX n d0 = true ->
  1 <= n -> 1 <= m -> e0 <> d0 ->
  KCCA.transform check_Xs euclidean_distances fpow fexp self Ys
  = Raise ValueError "matmul: mismatch in the core dimension".
Proof.
  intros Hw HsX Hkt Hc H0 Hy0 HX Hn Hm Hne.
  destruct (shape_inv _ _ _ Hy0) as [Ly0 Wy0]. destruct (shape_inv _ _ _ HX) as [LX WX].
  destruct w as [w1 w2].
  unfold KCCA.transform. rewrite Hw, Hc, HsX. cbn [bind].
  unfold KCCA.getitem at 1. rewrite H0. cbn [bind].
  destruct (KernelFacts.center_norm_shape y0 m e0 Ly0 Wy0) as (cx & -> & Lcx & Wcx).
  cbn [bind].
  destruct (KernelFacts.center_norm_shape sX n d0 LX WX) as (csX & -> & LcsX & WcsX).
  cbn [bind].
  rewrite (KernelFacts.make_kernel_mismatch euclidean_distances fpow fexp cx csX
             (KCCA.ktype self) (KCCA.constant self) (KCCA.degree self) (KCCA.sigma self)
             e0 d0 Hkt); [reflexivity | lia | exact Wcx | lia | exact WcsX | exact Hne].
Qed.

Lemma fit_returns_only_for_known_decomposition_witness :
  exists s,
    KCCA.fit Examples.any_Xs (fun _ _ => Ok []) (fun x _ => x) (fun x => x)
             Examples.rows_eig Examples.id_argsort Examples.real_cdiv
             Examples.kcca_default [Examples.X0; Examples.X1] = Ok s /\
    KCCA.eq_str (KCCA.decomp Examples.kcca_default) "full" = true /\
    KCCA.eq_str (KCCA.method Examples.kcca_default) "kettenring-like" = true /\
    KCCA.known_kernel (KCCA.ktype Examples.kcca_default) = true /\
    (exists xs x0 x1 X' Y' w,
        Examples.any_Xs [Examples.X0; Examples.X1] = Ok xs /\
        KCCA.getitem xs 0 = Ok x0 /\ KCCA.getitem xs 1 = Ok x1 /\
        KCCA._center_norm x0 = Ok X' /\ KCCA._center_norm x1 = Ok Y' /\
        KCCA.X s = Some X' /\ KCCA.Y s = Some Y' /\ KCCA.weights_ s = Some w) /\
    (KCCA.n_components s = KCCA.n_components Examples.kcca_default /\
     KCCA.ktype s = KCCA.ktype Examples.kcca_default /\
     KCCA.constant s = KCCA.constant Examples.kcca_default /\
     KCCA.sigma s = KCCA.sigma Examples.kcca_default /\
     KCCA.degree s = KCCA.degree Examples.kcca_default /\
     KCCA.reg s = KCCA.reg Examples.kcca_default /\
     KCCA.decomp s = KCCA.decomp Examples.kcca_default /\
     KCCA.method s = KCCA.method Examples.kcca_default).
Proof.
  eexists. split; [vm_compute; reflexivity |].
  apply (fit_returns_only_for_known_decomposition
           Examples.any_Xs (fun _ _ => Ok []) (fun x _ => x) (fun x => x)
           Examples.rows_eig Examples.id_argsort Examples.real_cdiv
           Examples.kcca_default _ [Examples.X0; Examples.X1]).
  vm_compute. reflexivity.
Defined.

Lemma transform_returns_sample_by_component_witness :
  KCCA.weights_ Examples.kcca_trained = Some ([[of_Z 1]; [of_Z 0]], [[of_Z 1]; [of_Z 0]]) /\
  KCCA.X Examples.kcca_trained = Some Examples.X0 /\
  KCCA.Y Examples.kcca_trained = Some Examples.X1 /\
  KCCA.eq_str (KCCA.ktype Examples.kcca_trained) "linear" = true /\
  Examples.any_Xs [Examples.X0; Examples.X1] = Ok [Examples.X0; Examples.X1] /\
  shape Examples.X0 2 1 = true /\ shape Examples.X1 2 1 = true /\
  shape [[of_Z 1]; [of_Z 0]] 2 1 = true /\
  exists s' c1 c2,
    KCCA.transform Examples.any_Xs (fun _ _ => Ok []) (fun x _ => x) (fun x => x)
                   Examples.kcca_trained [Examples.X0; Examples.X1] = Ok (s', (c1, c2)) /\
    shape c1 2 1 = true /\ shape c2 2 1 = true /\
    KCCA.components_ s' = Some (c1, c2) /\
    KCCA.weights_ s' = KCCA.weights_ Examples.kcca_trained /\
    KCCA.X s' = KCCA.X Examples.kcca_trained /\ KCCA.Y s' = KCCA.Y Examples.kcca_trained.
Proof.
  do 8 (split; [reflexivity |]).
  apply (transform_returns_sample_by_component
           Examples.any_Xs (fun _ _ => Ok []) (fun x _ => x) (fun x => x)
           Examples.kcca_trained [Examples.X0; Examples.X1] Examples.X0 Examples.X1
           Examples.X0 Examples.X1 [[of_Z 1]; [of_Z 0]] [[of_Z 1]; [of_Z 0]] 2 2 1 1 1);
    solve [reflexivity | lia].
Defined.

Lemma transform_rejects_other_feature_count_witness :
  KCCA.weights_ Examples.kcca_trained = Some ([[of_Z 1]; [of_Z 0]], [[of_Z 1]; [of_Z 0]]) /\
  KCCA.X Examples.kcca_trained = Some Examples.X0 /\
  (KCCA.eq_str (KCCA.ktype Examples.kcca_trained) "linear" = true \/
   KCCA.eq_str (KCCA.ktype Examples.kcca_trained) "poly" = true) /\
  Examples.any_Xs [Examples.X3; Examples.X1] = Ok [Examples.X3; Examples.X1] /\
  nth_error [Examples.X3; Examples.X1] 0 = Some Examples.X3 /\
  shape Examples.X3 2 3 = true /\ shape Examples.X0 2 1 = true /\ 3 <> 1 /\
  KCCA.transform Examples.any_Xs (fun _ _ => Ok []) (fun x _ => x) (fun x => x)
                 Examples.kcca_trained [Examples.X3; Examples.X1]
  = Raise ValueError "matmul: mismatch in the core dimension".
Proof.
  assert (Hk : KCCA.eq_str (KCCA.ktype Examples.kcca_trained) "linear" = true \/
               KCCA.eq_str (KCCA.ktype Examples.kcca_trained) "poly" = true)
    by (left; reflexivity).
  assert (Hne : 3 <> 1) by lia.
  split; [reflexivity | split; [reflexivity | split; [exact Hk |]]].
  do 4 (split; [reflexivity |]). split; [exact Hne |].
  apply (transform_rejects_other_feature_count
           Examples.any_Xs (fun _ _ => Ok []) (fun x _ => x) (fun x => x)
           Examples.kcca_trained [Examples.X3; Examples.X1] [Examples.X3; Examples.X1]
           Examples.X3 Examples.X0 ([[of_Z 1]; [of_Z 0]], [[of_Z 1]; [of_Z 0]]) 2 2 1 3);
    solve [reflexivity | lia | exact Hk | exact Hne].
Defined.

(** X17: [_center_norm] returns an array of the shape of a rectangular
    view without raising.  [_make_kernel] divides by the sample counts
    first, so it ends with a [ZeroDivisionError] when either array has no
    row, whatever the kernel name; on arrays with rows and a kernel name
    that is none of the three, it returns [None] without raising; and the
    linear kernel of [n] against [m] samples of one positive width has [n]
    rows and [m] columns. *)
Theorem make_kernel_edges_and_shape
        (euclidean_distances : matrix -> matrix -> result matrix)
        (fpow : num -> num -> num) (fexp : num -> num)
        (X Y : matrix) (kt c dg s : KCCA.pyval) (n m d : nat) :
  (shape X n d = true ->
   exists X', KCCA._center_norm X = Ok X' /\ shape X' n d = true) /\
  (nrows X = 0 \/ nrows Y = 0 ->
   KCCA._make_kernel euclidean_distances fpow fexp X Y kt c dg s
   = Raise ZeroDivisionError "division by zero") /\
  (1 <= nrows X -> 1 <= nrows Y -> KCCA.known_kernel kt = false ->
   KCCA._make_kernel euclidean_distances fpow fexp X Y kt c dg s = Ok None) /\
  (KCCA.eq_str kt "linear" = true ->
   shape X n d = true -> shape Y m d = true -> 1 <= n -> 1 <= m -> 1 <= d ->
   exists K, KCCA._make_kernel euclidean_distances fpow fexp X Y kt c dg s = Ok (Some K) /\
             shape K n m = true).
Proof.
  assert (Hsh : forall (M : matrix) (a b : nat),
             length M = a -> Forall (fun r => length r = b) M -> shape M a b = true).
  { intros M a b Ha Hb. unfold shape, nrows. rewrite Ha, Nat.eqb_refl. cbn [andb].
    apply forallb_forall. intros r Hr. apply Nat.eqb_eq.
    rewrite Forall_forall in Hb. exact (Hb r Hr). }
  split; [| split; [| split]].
  - intros HX. destruct (shape_inv _ _ _ HX) as [Ln Wd].
    destruct (KernelFacts.center_norm_shape X n d Ln Wd) as (X' & E & L' & W').
    exists X'. split; [exact E | exact (Hsh X' n d L' W')].
  - intros H0. unfold KCCA._make_kernel, KCCA.centering.
    destruct (Nat.eqb_spec (nrows X) 0) as [E|E]; [reflexivity |].
    destruct H0 as [H0|H0]; [contradiction |]. rewrite H0. reflexivity.
  - intros H1 H2 Hk. unfold KCCA._make_kernel.
    destruct (KernelFacts.centering_shape (nrows X) H1) as (N0l & -> & _).
    destruct (KernelFacts.centering_shape (nrows Y) H2) as (N0r & -> & _).
    cbn [bind]. unfold KCCA.known_kernel in Hk.
    destruct (KCCA.eq_str kt "linear"); [discriminate Hk |].
    destruct (KCCA.eq_str kt "poly"); [discriminate Hk |].
    destruct (KCCA.eq_str kt "gaussian"); [discriminate Hk |]. reflexivity.
  - intros Hkt HX HY Hn Hm Hd.
    destruct (shape_inv _ _ _ HX) as [Ln Wd]. destruct (shape_inv _ _ _ HY) as [Lm Wd'].
    destruct (KernelFacts.make_kernel_linear euclidean_distances fpow fexp X Y kt c dg s
                n m d Hkt Ln Wd Lm Wd' Hn Hm Hd) as (K & E & LK & WK).
    exists K. split; [exact E | exact (Hsh K n m LK WK)].
Qed.

Lemma make_kernel_edges_and_shape_witness :
  KCCA.eq_str (KCCA.PyStr "linear") "linear" = true /\
  shape Examples.X0 2 1 = true /\ shape Examples.X1 2 1 = true /\
  exists K,
    KCCA._make_kernel (fun _ _ => Ok []) (fun x _ => x) (fun x => x)
                      Examples.X0 Examples.X1 (KCCA.PyStr "linear")
                      (KCCA.PyFloat Examples.f0_1) (KCCA.PyFloat (of_Z 2))
                      (KCCA.PyFloat (of_Z 1)) = Ok (Some K) /\
    shape K 2 2 = true.
Proof.
  do 3 (split; [reflexivity |]).
  apply (make_kernel_edges_and_shape
           (fun _ _ => Ok []) (fun x _ => x) (fun x => x) Examples.X0 Examples.X1
           (KCCA.PyStr "linear") (KCCA.PyFloat Examples.f0_1) (KCCA.PyFloat (of_Z 2))
           (KCCA.PyFloat (of_Z 1)) 2 2 1);
    solve [reflexivity | lia].
Defined.
